(** * gee4tts: the synthesis pipeline of the TTS backend

    A shallow embedding of
    - [app/services/volcano_client.py]  (frame decoding, receive loop,
      request construction, [synthesize_to_file]),
    - [app/services/cache_service.py]   ([get], [set], the sweep and
      [generate_cache_key]),
    - [app/services/tts_service.py]     ([synthesize_text]),
    with the properties of the pipeline stated over it.

    Python objects are modelled as follows.  A [str] is a Rocq [string]
    holding its UTF-8 encoding; [bytes] is a list of bytes; an [int] is a
    [Z]; a [float] is its binary64 bit pattern (the code only passes floats
    around and formats them); a [datetime] is a number of microseconds
    since [datetime.min], with the range of the library; a
    [dict] with string keys is a [gmap string _].  Dictionaries that the
    code shares between the cache and its callers live in a store of
    objects and are referred to by location.  Exceptions, the clock, the
    uuid generator, the websocket and the file system are explicit: every
    effectful function is a state transformer that returns [Ok] or
    [Raise]. *)

From Stdlib Require Import ZArith Lia List Ascii String DecimalString.
From Stdlib.Strings Require Import Byte.
From stdpp Require Import gmap strings list fin_maps.

Local Open Scope Z_scope.

(* ================================================================== *)
(** * Python values, dictionaries and the object store *)
(* ================================================================== *)

Definition bytes := list byte.
Definition float := Z.     (* binary64 bit pattern *)
Definition datetime := Z.  (* microseconds since 0001-01-01 00:00:00 *)
Definition loc := nat.     (* address of a dict object *)

(** [request.format] is either a plain [str] or a member of an [Enum];
    for a member, [fmt_value] is its [.value] and [fmt_rendered] the text
    an f-string produces for it. *)
Inductive audio_format :=
| FormatStr (s : string)
| FormatEnum (fmt_rendered fmt_value : string).

(** The immutable values the pipeline handles. *)
Inductive pyval :=
| PNone
| PInt (z : Z)
| PFloat (f : float)
| PStr (s : string)
| PFormat (f : audio_format)
| PDatetime (t : datetime).

(** The dictionaries of the pipeline are flat: string keys, immutable
    values.  They are mutable objects, so a variable holds either an
    immutable value or a reference into the store of dict objects. *)
Abbreviation pydict := (gmap string pyval).
Abbreviation heap := (list pydict).

Inductive pyobj :=
| Val (v : pyval)
| Ref (l : loc).

(** ** Exceptions *)

Inductive exn_class :=
| Exception
| TimeoutError
| ConnectionClosed
| OtherError (name : string).

Record exn := Exn { exn_cls : exn_class; exn_str : string }.

Inductive result (A : Type) :=
| Ok (a : A)
| Raise (e : exn).
Arguments Ok {A} a.
Arguments Raise {A} e.

(** ** Dates and durations

    [datetime.max] is the last microsecond of the year 9999, day 3652059
    of the calendar; a [timedelta] has at most 999999999 days in either
    direction.  A sum that leaves the range of [datetime], like a
    duration that leaves the range of [timedelta], raises
    [OverflowError]. *)
Definition datetime_max : datetime := 3652059 * 86400000000 - 1.

Definition timedelta_max_days : Z := 999999999.

Definition overflow_error (what : string) : exn :=
  Exn (OtherError "OverflowError") what.

(** [t + d] for a [datetime] and a [timedelta] of [d] microseconds *)
Definition datetime_add (t : datetime) (d : Z) : result datetime :=
  if (0 <=? t + d) && (t + d <=? datetime_max) then Ok (t + d)
  else Raise (overflow_error "date value out of range").

(* ================================================================== *)
(** * Bytes and integers *)
(* ================================================================== *)

Definition byte_val (b : byte) : Z := Z.of_N (Byte.to_N b).

Definition bytes_of_string (s : string) : bytes := list_byte_of_string s.
Definition string_of_bytes (bs : bytes) : string := string_of_list_byte bs.

(** [int.from_bytes(bs, "big", signed=...)] *)
Definition from_bytes_unsigned (bs : bytes) : Z :=
  fold_left (fun acc b => acc * 256 + byte_val b) bs 0.

Definition int_from_bytes (bs : bytes) (signed : bool) : Z :=
  let u := from_bytes_unsigned bs in
  let nbits := 8 * Z.of_nat (length bs) in
  if signed && Z.testbit u (nbits - 1) then u - 2 ^ nbits else u.

(** [str(n)] for an [int] *)
Definition str_of_int (z : Z) : string :=
  NilZero.string_of_int (Z.to_int z).

(** [bytes.decode("utf-8")] in strict mode: the well-formed byte
    sequences of the Unicode standard (no overlong forms, no surrogates,
    nothing above U+10FFFF). *)
Definition in_range (lo hi : Z) (b : byte) : bool :=
  (lo <=? byte_val b) && (byte_val b <=? hi).

Definition cont (b : byte) : bool := in_range 0x80 0xBF b.

Fixpoint utf8_valid (bs : bytes) : bool :=
  match bs with
  | [] => true
  | b0 :: r0 =>
      if in_range 0x00 0x7F b0 then utf8_valid r0
      else match r0 with
      | [] => false
      | b1 :: r1 =>
          if in_range 0xC2 0xDF b0 then cont b1 && utf8_valid r1
          else match r1 with
          | [] => false
          | b2 :: r2 =>
              if in_range 0xE0 0xE0 b0
              then in_range 0xA0 0xBF b1 && cont b2 && utf8_valid r2
              else if in_range 0xE1 0xEC b0 || in_range 0xEE 0xEF b0
              then cont b1 && cont b2 && utf8_valid r2
              else if in_range 0xED 0xED b0
              then in_range 0x80 0x9F b1 && cont b2 && utf8_valid r2
              else match r2 with
              | [] => false
              | b3 :: r3 =>
                  if in_range 0xF0 0xF0 b0
                  then in_range 0x90 0xBF b1 && cont b2 && cont b3
                       && utf8_valid r3
                  else if in_range 0xF1 0xF3 b0
                  then cont b1 && cont b2 && cont b3 && utf8_valid r3
                  else if in_range 0xF4 0xF4 b0
                  then in_range 0x80 0x8F b1 && cont b2 && cont b3
                       && utf8_valid r3
                  else false
              end
          end
      end
  end.

(** [str(bs, "utf-8")]; the text of the [UnicodeDecodeError] is the
    codec's and is kept short here. *)
Definition str_utf8 (bs : bytes) : result string :=
  if utf8_valid bs then Ok (string_of_bytes bs)
  else Raise (Exn (OtherError "UnicodeDecodeError")
                  "'utf-8' codec can't decode bytes").

(* ================================================================== *)
(** * Libraries and collaborators outside the sources *)
(* ================================================================== *)

(** The request object handed to [json.dumps]: an object of four
    objects of strings and numbers; key order is insertion order. *)
Inductive jvalue :=
| JStr (s : string)
| JNum (f : float).

Abbreviation jobject := (list (string * jvalue)).
Abbreviation request_object := (list (string * jobject)).

(** What [json.loads] can give back in this model: an immutable value or
    a flat object. *)
Inductive parsed :=
| ParsedVal (v : pyval)
| ParsedDict (d : pydict).

Class Externals := {
  (** [hashlib.md5(b).hexdigest()] *)
  md5_hexdigest : bytes -> string;
  (** [gzip.compress]; [gzip.decompress], which gives the data or fails
      with one of the library's errors, of which the text is kept *)
  gzip_compress : bytes -> bytes;
  gunzip : bytes -> string + bytes;
  (** [json.dumps(request_json)] *)
  json_dumps : request_object -> string;
  (** [json.dumps(value, ensure_ascii=False, default=str)] on a cached
      value, which is read through the object store, and [json.loads] *)
  json_dumps_value : heap -> pyobj -> result string;
  json_loads : string -> result parsed;
  (** [repr] of a float and [str] of a datetime, as f-strings use them;
      [datetime.isoformat()]; [timedelta.total_seconds()] of a number of
      microseconds *)
  float_repr : float -> string;
  datetime_str : datetime -> string;
  isoformat : datetime -> string;
  total_seconds : Z -> float;
  (** Modelled from the spec: [app.utils.audio_utils.get_audio_duration],
      which is not among the sources.  Given the path of a stored audio
      file and the files on disk it returns the duration in seconds, or
      fails. *)
  get_audio_duration : string -> gmap string bytes -> result float
}.

Definition gzip_decompress `{Externals} (b : bytes) : result bytes :=
  match gunzip b with
  | inr content => Ok content
  | inl msg => Raise (Exn (OtherError "BadGzipFile") msg)
  end.

(** [app/core/config.py] *)
Module settings.
Definition CACHE_EXPIRE_SECONDS : Z := 3600.
Definition AUDIO_FILES_PATH : string := "./audio_files".
Definition DEFAULT_VOICE_ID : string :=
  "zh_female_shuangkuaisisi_emo_v2_mars_bigtts".
End settings.

(* ================================================================== *)
(** * Formatting and truth values *)
(* ================================================================== *)

(** [f"{v}"] *)
Definition py_format `{Externals} (v : pyval) : string :=
  match v with
  | PNone => "None"
  | PInt z => str_of_int z
  | PFloat f => float_repr f
  | PStr s => s
  | PFormat (FormatStr s) => s
  | PFormat (FormatEnum rendered _) => rendered
  | PDatetime t => datetime_str t
  end.

(** [x.value if hasattr(x, 'value') else str(x)] on a format *)
Definition format_value (f : audio_format) : string :=
  match f with
  | FormatStr s => s
  | FormatEnum _ value => value
  end.

Definition str_truthy (s : string) : bool :=
  match s with EmptyString => false | _ => true end.

(** The float zeros are [0.0] and [-0.0]. *)
Definition pyval_truthy (v : pyval) : bool :=
  match v with
  | PNone => false
  | PInt z => negb (z =? 0)
  | PFloat f => negb ((f =? 0) || (f =? 2 ^ 63))
  | PStr s => str_truthy s
  | PFormat (FormatStr s) => str_truthy s
  | PFormat (FormatEnum _ _) => true
  | PDatetime _ => true
  end.

Definition dict_truthy (d : pydict) : bool :=
  negb (bool_decide (d = ∅)).

(** A reference always points to an allocated dict. *)
Definition truthy (h : heap) (o : pyobj) : bool :=
  match o with
  | Val v => pyval_truthy v
  | Ref l => match h !! l with Some d => dict_truthy d | None => false end
  end.

(** [os.path.join(a, b)] for two components (posix) *)
Definition ends_with_slash (s : string) : bool :=
  match rev (list_ascii_of_string s) with
  | c :: _ => Ascii.eqb c "/"
  | [] => false
  end.

Definition os_path_join (a b : string) : string :=
  match b with
  | String "/" _ => b
  | _ => if negb (str_truthy a) || ends_with_slash a then a +:+ b
         else a +:+ "/" +:+ b
  end.

(* ================================================================== *)
(** * The world the services run in *)
(* ================================================================== *)

(** ** Cache service state ([CacheService.__init__]) *)

Record cache_item := CacheItem { data : pyobj; expires_at : datetime }.

Record cache_stats_t := CacheStats {
  hits : Z; misses : Z; sets : Z; deletes : Z }.

(** The replies of the Redis server to the commands the service sends;
    a command may raise (connection lost, timeout, ...). *)
Record RedisClient := {
  redis_get : string -> result (option string);
  redis_set : string -> string -> result unit;
  redis_setex : string -> Z -> string -> result unit
}.

Record CacheService := {
  redis_client : option RedisClient;
  memory_cache : gmap string cache_item;
  cache_stats : cache_stats_t
}.

(** ** The provider's side of one websocket connection *)

(** What the successive [websocket.recv()] calls, each bounded by
    [SYNTHESIS_TIMEOUT], give: a message, then the rest; or the wait
    times out; or the connection is found closed. *)
Inductive recv_script :=
| RecvMsg (response : bytes) (rest : recv_script)
| RecvTimeout
| RecvClosed.

(** Opening the connection and sending the request raises [e], or
    succeeds and the receive loop starts. *)
Inductive connection :=
| ConnectFails (e : exn)
| Connected (script : recv_script).

(** ** The file system

    What [open(path, 'wb')] followed by [f.write(content)] and the close
    of the file does: it succeeds; or it raises, either before the file
    is created ([None]: a missing directory, no permission), or after,
    leaving the first [n] bytes of the content in the file ([Some n]: the
    disk is full, an I/O error). *)
Inductive write_outcome :=
| WriteOk
| WriteRaises (ex : exn) (left : option nat).

(** ** Environment and state *)

Record env := {
  utc_clock : nat -> datetime;     (* successive [datetime.utcnow()] *)
  uuid_gen : nat -> string;        (* successive [str(uuid.uuid4())] *)
  provider : connection;           (* the next websocket connection *)
  open_write : string -> bytes -> write_outcome;
                                   (* writing this content to this path *)
  unlink : string -> option exn    (* [os.unlink] of an existing file:
                                      the exception it raises, if any *)
}.

Record world := World {
  cache : CacheService;
  objects : heap;
  files : gmap string bytes;       (* files written, by path *)
  sent : list bytes;               (* requests sent to the provider *)
  clock_reads : nat;
  uuid_draws : nat
}.

(** ** State and exceptions *)

Definition M (A : Type) : Type := world -> result A * world.

Definition ret {A} (a : A) : M A := fun w => (Ok a, w).

Definition raise {A} (e : exn) : M A := fun w => (Raise e, w).

Definition bind {A B} (m : M A) (k : A -> M B) : M B :=
  fun w => match m w with
           | (Ok a, w') => k a w'
           | (Raise e, w') => (Raise e, w')
           end.

(** [try: m  except Exception as e: h e]; the state changes made before
    the exception stay. *)
Definition try_except {A} (m : M A) (h : exn -> M A) : M A :=
  fun w => match m w with
           | (Ok a, w') => (Ok a, w')
           | (Raise e, w') => h e w'
           end.

Definition lift {A} (r : result A) : M A := fun w => (r, w).

Declare Scope py_scope.
Delimit Scope py_scope with py.
Notation "'let*' x ':=' m 'in' k" := (bind m (fun x => k))
  (at level 10, x pattern, m at level 100, k at level 200) : py_scope.
Notation "m ';;' k" := (bind m (fun _ => k))
  (at level 100, k at level 200, right associativity) : py_scope.
Local Open Scope py_scope.

Definition utcnow (e : env) : M datetime :=
  fun w => (Ok (utc_clock e (clock_reads w)),
            World (cache w) (objects w) (files w) (sent w)
                  (S (clock_reads w)) (uuid_draws w)).

Definition uuid4 (e : env) : M string :=
  fun w => (Ok (uuid_gen e (uuid_draws w)),
            World (cache w) (objects w) (files w) (sent w)
                  (clock_reads w) (S (uuid_draws w))).

Definition get_cache : M CacheService := fun w => (Ok (cache w), w).

Definition put_cache (c : CacheService) : M unit :=
  fun w => (Ok tt, World c (objects w) (files w) (sent w)
                         (clock_reads w) (uuid_draws w)).

Definition get_objects : M heap := fun w => (Ok (objects w), w).

(** A new dict object *)
Definition alloc (d : pydict) : M loc :=
  fun w => (Ok (length (objects w)),
            World (cache w) (objects w ++ [d]) (files w) (sent w)
                  (clock_reads w) (uuid_draws w)).

Definition put_object (l : loc) (d : pydict) : M unit :=
  fun w => (Ok tt, World (cache w) (<[l := d]> (objects w)) (files w)
                         (sent w) (clock_reads w) (uuid_draws w)).

Definition put_files (fs : gmap string bytes) : M unit :=
  fun w => (Ok tt, World (cache w) (objects w) fs (sent w) (clock_reads w)
                         (uuid_draws w)).

(** [with open(path, 'wb') as f: f.write(content)]; a write that fails
    after the file was created leaves what was written of it. *)
Definition write_file (e : env) (path : string) (content : bytes) : M unit :=
  fun w =>
    match open_write e path content with
    | WriteOk => put_files (<[path := content]> (files w)) w
    | WriteRaises ex None => (Raise ex, w)
    | WriteRaises ex (Some n) =>
        (Raise ex, snd (put_files (<[path := take n content]> (files w)) w))
    end.


Definition get_files : M (gmap string bytes) := fun w => (Ok (files w), w).

(** [websocket.send(frame)] on a connection that was opened *)
Definition ws_send (frame : bytes) : M unit :=
  fun w => (Ok tt, World (cache w) (objects w) (files w) (sent w ++ [frame])
                         (clock_reads w) (uuid_draws w)).

(* ================================================================== *)
(** * volcano_client.py *)
(* ================================================================== *)

Module volcano_client.
Section VolcanoClient.
Context `{Externals}.

Record VolcanoTTSClient := {
  app_id : string;
  access_token : string;
  cluster : string;
  emotion_voices : list string
}.

Definition default_header : bytes := [x11; x10; x11; x00]%byte.

Definition _get_default_emotion_voices : list string :=
  [ "zh_male_beijingxiaoye_emo_v2_mars_bigtts";
    "zh_female_roumeinvyou_emo_v2_mars_bigtts";
    "zh_male_yangguangqingnian_emo_v2_mars_bigtts";
    "zh_female_meilinvyou_emo_v2_mars_bigtts";
    "zh_female_shuangkuaisisi_emo_v2_mars_bigtts" ].

(** [_load_emotion_voices]: [config] is what looking for and reading
    [voice_presets_complete.json] gives: no file ([None]), an exception
    while opening or parsing it, or the list found under
    [emotion_config.emotion_voices] (empty when a key is missing). *)
Definition _load_emotion_voices (config : option (result (list string)))
  : list string :=
  match config with
  | None => _get_default_emotion_voices
  | Some (Raise _) => _get_default_emotion_voices
  | Some (Ok []) => _get_default_emotion_voices
  | Some (Ok emotion_voices) => emotion_voices
  end.

Definition supports_emotion (self : VolcanoTTSClient) (voice_type : string)
  : bool :=
  bool_decide (voice_type ∈ emotion_voices self).

(** ** Frame decoding *)

Definition rbind {A B} (r : result A) (k : A -> result B) : result B :=
  match r with
  | Ok a => k a
  | Raise e => Raise e
  end.

Definition _parse_response (response : bytes) : result (bool * option bytes) :=
  if (length response <? 4)%nat then Ok (false, None)
  else
    let at_ i := byte_val (nth i response x00%byte) in
    let protocol_version := Z.shiftr (at_ 0%nat) 4 in
    let header_size := Z.land (at_ 0%nat) 0x0f in
    let message_type := Z.shiftr (at_ 1%nat) 4 in
    let message_type_specific_flags := Z.land (at_ 1%nat) 0x0f in
    let serialization_method := Z.shiftr (at_ 2%nat) 4 in
    let message_compression := Z.land (at_ 2%nat) 0x0f in
    let reserved := at_ 3%nat in
    let header_length := header_size * 4 in
    let payload := drop (Z.to_nat header_length) response in
    if message_type =? 0xb then
      if message_type_specific_flags =? 0 then Ok (false, None)
      else
        let sequence_number := int_from_bytes (take 4 payload) true in
        let payload_size := int_from_bytes (take 4 (drop 4 payload)) false in
        let audio_data := drop 8 payload in
        Ok (sequence_number <? 0, Some audio_data)
    else if message_type =? 0xf then
      let code := int_from_bytes (take 4 payload) false in
      let msg_size := int_from_bytes (take 4 (drop 4 payload)) false in
      let error_msg := drop 8 payload in
      rbind (if message_compression =? 1 then gzip_decompress error_msg
             else Ok error_msg) (fun error_msg =>
      rbind (str_utf8 error_msg) (fun error_msg =>
      Raise (Exn Exception
               ("TTS API错误 " +:+ str_of_int code +:+ ": " +:+ error_msg))))
    else if message_type =? 0xc then
      let msg_size := int_from_bytes (take 4 payload) false in
      let payload := drop 4 payload in
      rbind (if message_compression =? 1 then gzip_decompress payload
             else Ok payload) (fun payload =>
      Ok (false, None))
    else Ok (false, None).

(** ** The receive loop of [_synthesize_stream]

    An async generator is run to its end: the chunks it yields, in order,
    and how it finishes ([None]: it returns, the consumer's [async for]
    ends normally; [Some e]: it raises [e] after these chunks). *)
Definition generator_run : Type := list bytes * option exn.

Definition bytes_truthy (o : option bytes) : bool :=
  match o with
  | Some (_ :: _) => true
  | _ => false
  end.

Definition yield_if (audio_chunk : option bytes) : list bytes :=
  match audio_chunk with
  | Some c => if bytes_truthy audio_chunk then [c] else []
  | None => []
  end.

Definition is_class (c : exn_class) (e : exn) : bool :=
  match c, exn_cls e with
  | TimeoutError, TimeoutError => true
  | ConnectionClosed, ConnectionClosed => true
  | _, _ => false
  end.

Fixpoint recv_loop (script : recv_script) : generator_run :=
  match script with
  | RecvTimeout => ([], None)          (* except asyncio.TimeoutError: break *)
  | RecvClosed => ([], None)           (* except ConnectionClosed: break *)
  | RecvMsg response rest =>
      match _parse_response response with
      | Raise e =>
          if is_class TimeoutError e || is_class ConnectionClosed e
          then ([], None)
          else ([], Some e)
      | Ok (done, audio_chunk) =>
          if done then (yield_if audio_chunk, None)
          else let '(chunks, ending) := recv_loop rest in
               (yield_if audio_chunk ++ chunks, ending)
      end
  end.

(** [n.to_bytes(4, 'big')] *)
Definition to_bytes4 (n : Z) : result bytes :=
  if n <? 2 ^ 32 then
    Ok (map (fun k => match Byte.of_N (Z.to_N (Z.land (Z.shiftr n k) 0xff)) with
                      | Some b => b
                      | None => x00%byte
                      end) [24; 16; 8; 0])
  else Raise (Exn (OtherError "OverflowError") "int too big to convert").

Definition full_client_request (request_json : request_object)
  : result bytes :=
  let payload_bytes := bytes_of_string (json_dumps request_json) in
  let payload_bytes := gzip_compress payload_bytes in
  rbind (to_bytes4 (Z.of_nat (length payload_bytes))) (fun size =>
  Ok (default_header ++ size ++ payload_bytes)).

Definition _synthesize_stream (e : env) (request_json : request_object)
  : world -> generator_run * world :=
  fun w =>
    match full_client_request request_json with
    | Raise ex => (([], Some ex), w)
    | Ok request =>
        match provider e with
        | ConnectFails ex => (([], Some ex), w)       (* except: raise *)
        | Connected script =>
            (recv_loop script, snd (ws_send request w))
        end
    end.

(** [async for chunk in gen: audio_data.extend(chunk)] *)
Definition collect (gen : world -> generator_run * world) : M bytes :=
  fun w =>
    match gen w with
    | ((chunks, None), w') => (Ok (concat chunks), w')
    | ((_, Some ex), w') => (Raise ex, w')
    end.

(** ** Building the request and [synthesize_to_file] *)

(** [emotion] as a condition: neither [None] nor the empty string *)
Definition emotion_truthy (emotion : option string) : bool :=
  match emotion with
  | Some s => str_truthy s
  | None => false
  end.

(** The dict literal of [synthesize_to_file] (and of [synthesize_stream])
    followed by the conditional assignment of
    [request_json["request"]["emotion"]]. *)
Definition request_json (self : VolcanoTTSClient) (request_id uid : string)
    (text voice_type : string) (speed_ratio volume_ratio pitch_ratio : float)
    (encoding : audio_format) (emotion : option string) : request_object :=
  [ ("app", [ ("appid", JStr (app_id self));
              ("token", JStr (access_token self));
              ("cluster", JStr (cluster self)) ]);
    ("user", [ ("uid", JStr uid) ]);
    ("audio", [ ("voice_type", JStr voice_type);
                ("encoding", JStr (format_value encoding));
                ("speed_ratio", JNum speed_ratio);
                ("volume_ratio", JNum volume_ratio);
                ("pitch_ratio", JNum pitch_ratio) ]);
    ("request", [ ("reqid", JStr request_id);
                  ("text", JStr text);
                  ("text_type", JStr "plain");
                  ("operation", JStr "submit") ]
                ++ match emotion with
                   | Some tag =>
                       if emotion_truthy emotion
                          && supports_emotion self voice_type
                       then [ ("emotion", JStr tag) ]
                       else []
                   | None => []
                   end) ].

(** The dict [synthesize_to_file] returns; its keys are fixed. *)
Record synthesis_result := {
  sr_request_id : string;
  sr_file_path : string;
  sr_file_size : Z;
  sr_synthesis_time : float;
  sr_created_at : string;
  sr_status : string
}.

Definition synthesize_to_file (self : VolcanoTTSClient) (e : env)
    (text voice_type output_path : string)
    (speed_ratio volume_ratio pitch_ratio : float)
    (encoding : audio_format) (emotion : option string)
  : M synthesis_result :=
  let* request_id := uuid4 e in
  let* uid := uuid4 e in
  let request_json :=
    request_json self request_id uid text voice_type
                 speed_ratio volume_ratio pitch_ratio encoding emotion in
  try_except
    (let* start_time := utcnow e in
     let* audio_data := collect (_synthesize_stream e request_json) in
     write_file e output_path audio_data ;;
     let* end_time := utcnow e in
     let duration := total_seconds (end_time - start_time) in
     ret {| sr_request_id := request_id;
            sr_file_path := output_path;
            sr_file_size := Z.of_nat (length audio_data);
            sr_synthesis_time := duration;
            sr_created_at := isoformat start_time;
            sr_status := "success" |})
    (fun ex => raise (Exn Exception ("语音合成失败: " +:+ exn_str ex))).

(** [synthesize_stream]: the same request object, with [uid] and [reqid]
    drawn in this order, and the chunks of [_synthesize_stream] passed
    on. *)
Definition synthesize_stream (self : VolcanoTTSClient) (e : env)
    (text voice_type : string)
    (speed_ratio volume_ratio pitch_ratio : float)
    (encoding : audio_format) (emotion : option string)
  : world -> generator_run * world :=
  fun w =>
    match uuid4 e w with
    | (Ok uid, w1) =>
        match uuid4 e w1 with
        | (Ok reqid, w2) =>
            _synthesize_stream e
              (request_json self reqid uid text voice_type speed_ratio
                            volume_ratio pitch_ratio encoding emotion) w2
        | (Raise ex, w2) => (([], Some ex), w2)
        end
    | (Raise ex, w1) => (([], Some ex), w1)
    end.

(** [reload_emotion_voices] *)
Definition reload_emotion_voices (self : VolcanoTTSClient)
    (config : option (result (list string))) : VolcanoTTSClient :=
  {| app_id := app_id self;
     access_token := access_token self;
     cluster := cluster self;
     emotion_voices := _load_emotion_voices config |}.



End VolcanoClient.
End volcano_client.

(* ================================================================== *)
(** * cache_service.py *)
(* ================================================================== *)

Module cache_service.
Section CacheService.
Context `{Externals}.

Definition update_stats (f : cache_stats_t -> cache_stats_t) : M unit :=
  let* self := get_cache in
  put_cache {| redis_client := redis_client self;
               memory_cache := memory_cache self;
               cache_stats := f (cache_stats self) |}.

Definition update_memory_cache
    (f : gmap string cache_item -> gmap string cache_item) : M unit :=
  let* self := get_cache in
  put_cache {| redis_client := redis_client self;
               memory_cache := f (memory_cache self);
               cache_stats := cache_stats self |}.

Definition incr_hits (s : cache_stats_t) : cache_stats_t :=
  CacheStats (hits s + 1) (misses s) (sets s) (deletes s).
Definition incr_misses (s : cache_stats_t) : cache_stats_t :=
  CacheStats (hits s) (misses s + 1) (sets s) (deletes s).
Definition incr_sets (s : cache_stats_t) : cache_stats_t :=
  CacheStats (hits s) (misses s) (sets s + 1) (deletes s).

(** [json.loads(cached_data)]: a parsed object is a new dict. *)
Definition loads (cached_data : string) : M pyobj :=
  let* p := lift (json_loads cached_data) in
  match p with
  | ParsedVal v => ret (Val v)
  | ParsedDict d => let* l := alloc d in ret (Ref l)
  end.

(** [get]: the body of the [try] gives [Some value] where the source
    returns from inside a branch and [None] where it falls through to
    the miss count. *)
Definition get_try (e : env) (key : string) : M (option pyobj) :=
  let* self := get_cache in
  match redis_client self with
  | Some redis =>
      let* cached_data := lift (redis_get redis key) in
      match cached_data with
      | Some cached_data =>
          if str_truthy cached_data then
            update_stats incr_hits ;;
            let* value := loads cached_data in
            ret (Some value)
          else ret None
      | None => ret None
      end
  | None =>
      match memory_cache self !! key with
      | Some cache_item =>
          let* now := utcnow e in
          if now <? expires_at cache_item then
            update_stats incr_hits ;;
            ret (Some (data cache_item))
          else
            update_memory_cache (delete key) ;;   (* del memory_cache[key] *)
            ret None
      | None => ret None
      end
  end.

Definition count_miss : M pyobj :=
  update_stats incr_misses ;; ret (Val PNone).

Definition get (e : env) (key : string) : M pyobj :=
  try_except
    (let* found := get_try e key in
     match found with
     | Some value => ret value
     | None => count_miss
     end)
    (fun _ => count_miss).

(** [timedelta(seconds=n)] in microseconds: the days of the duration
    are [n // 86400]. *)
Definition timedelta_seconds (n : Z) : result Z :=
  if (- timedelta_max_days <=? n / 86400)
     && (n / 86400 <=? timedelta_max_days)
  then Ok (n * 1000000)
  else Raise (overflow_error "days must have magnitude <= 999999999").

(** [expire or settings.CACHE_EXPIRE_SECONDS] *)
Definition expire_or_default (expire : option Z) : Z :=
  match expire with
  | Some n => if n =? 0 then settings.CACHE_EXPIRE_SECONDS else n
  | None => settings.CACHE_EXPIRE_SECONDS
  end.

(** [_cleanup_expired_memory_cache] *)
Definition expired_keys (now : datetime) (m : gmap string cache_item)
  : list string :=
  fst <$> filter (fun kv => expires_at (snd kv) <= now) (map_to_list m).

Definition delete_keys (keys : list string) (m : gmap string cache_item)
  : gmap string cache_item :=
  fold_left (fun m key => delete key m) keys m.

Definition _cleanup_expired_memory_cache (e : env) : M unit :=
  let* now := utcnow e in
  update_memory_cache (fun m => delete_keys (expired_keys now m) m).

(** [set]: the body of the [try], then the handler. *)
Definition set_try (e : env) (key : string) (value : pyobj)
    (expire : option Z) : M bool :=
  let* self := get_cache in
  match redis_client self with
  | Some redis =>
      let* h := get_objects in
      let* cached_data := lift (json_dumps_value h value) in
      match expire with
      | Some n =>
          if n =? 0 then lift (redis_set redis key cached_data)
          else lift (redis_setex redis key n cached_data)
      | None => lift (redis_set redis key cached_data)
      end
  | None =>
      let* now := utcnow e in
      let* delta := lift (timedelta_seconds (expire_or_default expire)) in
      let* expires_at := lift (datetime_add now delta) in
      update_memory_cache (insert key (CacheItem value expires_at)) ;;
      _cleanup_expired_memory_cache e
  end ;;
  update_stats incr_sets ;;
  ret true.

Definition set (e : env) (key : string) (value : pyobj) (expire : option Z)
  : M bool :=
  try_except (set_try e key value expire) (fun _ => ret false).

(** [sorted(kwargs.items())]: the keys of a dict are distinct, so the
    order of the pairs is the order of their keys (strings compare by
    code point, which is the byte order of their UTF-8 encodings). *)
Fixpoint insert_sorted (x : string * pyval) (l : list (string * pyval))
  : list (string * pyval) :=
  match l with
  | [] => [x]
  | y :: l' => if String.leb (fst x) (fst y) then x :: l
               else y :: insert_sorted x l'
  end.

Definition sorted (items : list (string * pyval)) : list (string * pyval) :=
  foldr insert_sorted [] items.

(** [generate_cache_key(prefix, **kwargs)]; [kwargs] in the order the
    caller wrote them. *)
Definition generate_cache_key (prefix : string)
    (kwargs : list (string * pyval)) : string :=
  let key_parts :=
    prefix :: map (fun kv => fst kv +:+ ":" +:+ py_format (snd kv))
                  (sorted kwargs) in
  let key_string := String.concat "|" key_parts in
  let key_hash := md5_hexdigest (bytes_of_string key_string) in
  prefix +:+ ":" +:+ key_hash.

(** The commands of the Redis client that [delete] and [clear_pattern]
    send, with the replies of the server: [delete] of some keys gives the
    number of keys removed, [keys(pattern)] the matching keys. *)
Record RedisKeyCommands := {
  redis_delete : list string -> result Z;
  redis_keys : string -> result (list string)
}.

Definition incr_deletes (s : cache_stats_t) : cache_stats_t :=
  CacheStats (hits s) (misses s) (sets s) (deletes s + 1).

(** [delete] (named [delete_] here, [delete] being the operation on
    maps) *)
Definition delete_ (redis : RedisKeyCommands) (key : string) : M bool :=
  try_except
    (let* self := get_cache in
     match redis_client self with
     | Some _ => let* _ := lift (redis_delete redis [key]) in ret tt
     | None => update_memory_cache (base.delete key)   (* pop(key, None) *)
     end ;;
     update_stats incr_deletes ;;
     ret true)
    (fun _ => ret false).

(** [clear_pattern]; [fnmatch] is [fnmatch.fnmatch]. *)
Definition clear_pattern (fnmatch : string -> string -> bool)
    (redis : RedisKeyCommands) (pattern : string) : M Z :=
  try_except
    (let* self := get_cache in
     match redis_client self with
     | Some _ =>
         let* keys := lift (redis_keys redis pattern) in
         match keys with
         | [] => ret 0
         | _ => lift (redis_delete redis keys)
         end
     | None =>
         let keys_to_delete :=
           filter (fun key => fnmatch key pattern = true)
                  (fst <$> map_to_list (memory_cache self)) in
         update_memory_cache (delete_keys keys_to_delete) ;;
         ret (Z.of_nat (length keys_to_delete))
     end)
    (fun _ => ret 0).

End CacheService.
End cache_service.

(* ================================================================== *)
(** * tts_service.py *)
(* ================================================================== *)

Module tts_service.
Section TTSService.
Context `{Externals}.

(** [TTSRequest] (declared in [app/schemas/tts.py]): the fields the
    services read, and the two further ones the endpoint documents. *)
Record TTSRequest := {
  text : string;
  voice_id : string;
  speed : float;
  volume : float;
  pitch : float;
  format : audio_format;
  emotion : option string;
  bitrate : Z;
  sample_rate : Z
}.

(** A [TTSResponse] is represented by the dict of its fields: the
    constructor, called with a dict unpacked into keyword arguments,
    takes the fields of that dict, and [response.dict()] gives them
    back; the validation pydantic adds is not modelled. *)
Abbreviation TTSResponse := pydict.

(** ** Operations on an object that is expected to be a dict *)

Definition type_error {A} (what : string) : M A :=
  raise (Exn (OtherError "TypeError") what).

(** [o[key] = v] *)
Definition setitem (o : pyobj) (key : string) (v : pyval) : M unit :=
  match o with
  | Ref l =>
      let* h := get_objects in
      match h !! l with
      | Some d => put_object l (<[key := v]> d)
      | None => type_error "dangling reference"
      end
  | Val _ => type_error "object does not support item assignment"
  end.

(** [o[key]] *)
Definition getitem (o : pyobj) (key : string) : M pyval :=
  match o with
  | Ref l =>
      let* h := get_objects in
      match h !! l ≫= (.!! key) with
      | Some v => ret v
      | None => raise (Exn (OtherError "KeyError") key)
      end
  | Val _ => type_error "object is not subscriptable"
  end.

(** [o.get(key, default)] *)
Definition get_default (o : pyobj) (key : string) (default : pyval)
  : M pyval :=
  match o with
  | Ref l =>
      let* h := get_objects in
      ret (match h !! l ≫= (.!! key) with
           | Some v => v
           | None => default
           end)
  | Val _ => raise (Exn (OtherError "AttributeError")
                        "object has no attribute 'get'")
  end.

(** [o.pop(key, None)] *)
Definition pop (o : pyobj) (key : string) : M unit :=
  match o with
  | Ref l =>
      let* h := get_objects in
      match h !! l with
      | Some d => put_object l (delete key d)
      | None => type_error "dangling reference"
      end
  | Val _ => raise (Exn (OtherError "AttributeError")
                        "object has no attribute 'pop'")
  end.

(** The constructor of [TTSResponse] on the unpacked [o] *)
Definition response_of (o : pyobj) : M TTSResponse :=
  match o with
  | Ref l =>
      let* h := get_objects in
      match h !! l with
      | Some d => ret d
      | None => type_error "dangling reference"
      end
  | Val _ => type_error "argument after ** must be a mapping"
  end.

(** ** [synthesize_text] *)

(** [request.emotion or "neutral"] *)
Definition emotion_or_neutral (emotion : option string) : string :=
  match emotion with
  | Some s => if str_truthy s then s else "neutral"
  | None => "neutral"
  end.

(** The keyword arguments of the call of [generate_cache_key], in the
    order of the source. *)
Definition cache_kwargs (request : TTSRequest) : list (string * pyval) :=
  [ ("text", PStr (text request));
    ("voice_id", PStr (voice_id request));
    ("speed", PFloat (speed request));
    ("volume", PFloat (volume request));
    ("pitch", PFloat (pitch request));
    ("format", PFormat (format request));
    ("emotion", PStr (emotion_or_neutral (emotion request))) ].

Definition cache_key_of (request : TTSRequest) : string :=
  cache_service.generate_cache_key "tts" (cache_kwargs request).

Definition option_val (o : option float) : pyval :=
  match o with
  | Some f => PFloat f
  | None => PNone
  end.

(** The branch taken when the cache gave a result *)
Definition synthesize_hit (e : env) (cached_result : pyobj)
  : M TTSResponse :=
  let* request_id := uuid4 e in
  setitem cached_result "request_id" (PStr request_id) ;;
  let* now := utcnow e in
  setitem cached_result "created_at" (PDatetime now) ;;
  let* rid := getitem cached_result "request_id" in
  let* fmt := get_default cached_result "format" (PStr "mp3") in
  let filename := "tts_" +:+ py_format rid +:+ "." +:+ py_format fmt in
  setitem cached_result "file_path"
          (PStr (os_path_join settings.AUDIO_FILES_PATH filename)) ;;
  response_of cached_result.

(** The rest of the body, after a miss *)
Definition synthesize_miss (client : volcano_client.VolcanoTTSClient)
    (e : env) (request : TTSRequest) (cache_key : string)
  : M TTSResponse :=
  let* request_id := uuid4 e in
  let format_str := format_value (format request) in
  let filename := "tts_" +:+ request_id +:+ "." +:+ format_str in
  let file_path := os_path_join settings.AUDIO_FILES_PATH filename in
  let* result :=
    volcano_client.synthesize_to_file client e
      (text request) (voice_id request) file_path
      (speed request) (volume request) (pitch request)
      (format request) (emotion request) in
  let* fs := get_files in
  let duration :=
    match get_audio_duration file_path fs with
    | Ok d => Some d
    | Raise _ => None
    end in
  let file_url := "/audio/" +:+ filename in
  let* created_at := utcnow e in
  let response : TTSResponse :=
    list_to_map
      [ ("request_id", PStr request_id);
        ("text", PStr (text request));
        ("voice_id", PStr (voice_id request));
        ("file_path", PStr file_path);
        ("file_url", PStr file_url);
        ("file_size", PInt (volcano_client.sr_file_size result));
        ("duration", option_val duration);
        ("format", PFormat (format request));
        ("synthesis_time",
         PFloat (volcano_client.sr_synthesis_time result));
        ("created_at", PDatetime created_at);
        ("status", PStr "success") ] in
  let* cache_data := alloc response in             (* response.dict() *)
  pop (Ref cache_data) "file_path" ;;
  cache_service.set e cache_key (Ref cache_data)
                    (Some settings.CACHE_EXPIRE_SECONDS) ;;
  ret response.

(** [user_id] only reaches [_save_history], which writes a log line. *)
Definition synthesize_text (client : volcano_client.VolcanoTTSClient)
    (e : env) (request : TTSRequest) (user_id : option string)
  : M TTSResponse :=
  try_except
    (let cache_key := cache_key_of request in
     let* cached_result := cache_service.get e cache_key in
     let* h := get_objects in
     if truthy h cached_result then synthesize_hit e cached_result
     else synthesize_miss client e request cache_key)
    (fun ex => raise (Exn Exception ("语音合成失败: " +:+ exn_str ex))).

(** ** [synthesize_stream] *)

(** The chunks of the client's generator are passed on; an exception is
    raised again as a plain [Exception] with a prefix. *)
Definition synthesize_stream (client : volcano_client.VolcanoTTSClient)
    (e : env) (request : TTSRequest)
  : world -> volcano_client.generator_run * world :=
  fun w =>
    match volcano_client.synthesize_stream client e
            (text request) (voice_id request)
            (speed request) (volume request) (pitch request)
            (format request) (emotion request) w with
    | ((chunks, None), w') => ((chunks, None), w')
    | ((chunks, Some ex), w') =>
        ((chunks,
          Some (Exn Exception ("流式语音合成失败: " +:+ exn_str ex))), w')
    end.

(** ** The voice list *)

(** [VoiceInfo] and [VoiceCategory] (declared in [app/schemas/tts.py]),
    with the fields their constructor calls give them. *)
Record VoiceInfo := {
  vi_id : string;
  vi_name : string;
  vi_description : string;
  vi_category : string;
  vi_language : string;
  vi_tags : list string;
  vi_emotions : option (list string)
}.

Record VoiceCategory := {
  vc_name : string;
  vc_description : string;
  vc_icon : string;
  vc_color : string;
  vc_special : bool;
  vc_voices : list VoiceInfo
}.

(** The dict kept in [self._voice_cache] *)
Record voice_cache_t := {
  categories : list VoiceCategory;
  cached_emotion_voices : list string
}.

Record VoiceListResponse := {
  vl_categories : list VoiceCategory;
  vl_total_count : Z;
  vl_emotion_voices : list string
}.

(** What [json.load] gives for [voice_presets_complete.json], as far as
    [_load_voice_data] reads it: the categories in the order of the
    document, the presets by category name, the emotion voices (empty
    lists and maps where a key is missing).  A field of an entry that the
    code reads with [item["key"]] may be missing ([None]). *)
Record voice_item := {
  item_id : option string;
  item_name : option string;
  item_description : option string;
  item_category : option string;
  item_language : option string;
  item_tags : option (list string);
  item_emotions : option (list string)
}.

Record category_info := {
  info_description : option string;
  info_icon : option string;
  info_color : option string;
  info_special : option bool
}.

Record voice_document := {
  voice_categories : list (string * category_info);
  voice_presets : gmap string (list voice_item);
  doc_emotion_voices : list string
}.

(** [_get_fallback_voice_data] *)
Definition _get_fallback_voice_data : voice_cache_t :=
  {| categories :=
       [ {| vc_name := "通用音色";
            vc_description := "基础音色";
            vc_icon := "🎙️";
            vc_color := "#4ECDC4";
            vc_special := false;
            vc_voices :=
              [ {| vi_id := settings.DEFAULT_VOICE_ID;
                   vi_name := "默认女声";
                   vi_description := "默认女声音色";
                   vi_category := "通用";
                   vi_language := "zh-CN";
                   vi_tags := ["通用"; "女声"];
                   vi_emotions := None |} ] |} ];
     cached_emotion_voices := [] |}.

(** The construction of one [VoiceInfo]; [None] stands for the [KeyError]
    of a missing field. *)
Definition make_voice (item : voice_item) : option VoiceInfo :=
  id ← item_id item;
  name ← item_name item;
  description ← item_description item;
  category ← item_category item;
  language ← item_language item;
  Some {| vi_id := id;
          vi_name := name;
          vi_description := description;
          vi_category := category;
          vi_language := language;
          vi_tags := default [] (item_tags item);
          vi_emotions := item_emotions item |}.

Fixpoint make_voices (items : list voice_item) : option (list VoiceInfo) :=
  match items with
  | [] => Some []
  | item :: items' =>
      voice ← make_voice item;
      voices ← make_voices items';
      Some (voice :: voices)
  end.

Definition make_category (presets : gmap string (list voice_item))
    (category_name : string) (info : category_info) : option VoiceCategory :=
  voices ← match presets !! category_name with
           | Some items => make_voices items
           | None => Some []
           end;
  description ← info_description info;
  icon ← info_icon info;
  color ← info_color info;
  Some {| vc_name := category_name;
          vc_description := description;
          vc_icon := icon;
          vc_color := color;
          vc_special := default false (info_special info);
          vc_voices := voices |}.

Fixpoint make_categories (presets : gmap string (list voice_item))
    (declared : list (string * category_info))
  : option (list VoiceCategory) :=
  match declared with
  | [] => Some []
  | (category_name, info) :: declared' =>
      category ← make_category presets category_name info;
      rest ← make_categories presets declared';
      Some (category :: rest)
  end.

(** [_load_voice_data]: [config] as for the emotion voices of the client:
    no file, an exception while reading, or the document.  Any exception
    of the conversion gives the fallback data. *)
Definition _load_voice_data (config : option (result voice_document))
  : voice_cache_t :=
  match config with
  | None => _get_fallback_voice_data
  | Some (Raise _) => _get_fallback_voice_data
  | Some (Ok doc) =>
      match make_categories (voice_presets doc) (voice_categories doc) with
      | Some categories =>
          {| categories := categories;
             cached_emotion_voices := doc_emotion_voices doc |}
      | None => _get_fallback_voice_data
      end
  end.

(** [if self._voice_cache is None: await self._load_voice_data()] *)
Definition ensure_loaded (config : option (result voice_document))
    (_voice_cache : option voice_cache_t) : voice_cache_t :=
  match _voice_cache with
  | Some loaded => loaded
  | None => _load_voice_data config
  end.

Definition total_voices (cats : list VoiceCategory) : Z :=
  foldr (fun cat n => Z.of_nat (length (vc_voices cat)) + n) 0 cats.

(** [get_voice_list]; the second component is [self._voice_cache] after
    the call. *)
Definition get_voice_list (config : option (result voice_document))
    (_voice_cache : option voice_cache_t) (category : option string)
  : VoiceListResponse * option voice_cache_t :=
  let loaded := ensure_loaded config _voice_cache in
  let cats :=
    match category with
    | Some name =>
        if str_truthy name
        then filter (fun cat => vc_name cat = name) (categories loaded)
        else categories loaded
    | None => categories loaded
    end in
  ({| vl_categories := cats;
      vl_total_count := total_voices cats;
      vl_emotion_voices := cached_emotion_voices loaded |},
   Some loaded).

(** The two loops of [get_voice_info] *)
Fixpoint find_voice (voice_id : string) (voices : list VoiceInfo)
  : option VoiceInfo :=
  match voices with
  | [] => None
  | voice :: voices' =>
      if String.eqb (vi_id voice) voice_id then Some voice
      else find_voice voice_id voices'
  end.

Fixpoint find_in_categories (voice_id : string) (cats : list VoiceCategory)
  : option VoiceInfo :=
  match cats with
  | [] => None
  | cat :: cats' =>
      match find_voice voice_id (vc_voices cat) with
      | Some voice => Some voice
      | None => find_in_categories voice_id cats'
      end
  end.

Definition get_voice_info (config : option (result voice_document))
    (_voice_cache : option voice_cache_t) (voice_id : string)
  : option VoiceInfo * option voice_cache_t :=
  let loaded := ensure_loaded config _voice_cache in
  (find_in_categories voice_id (categories loaded), Some loaded).

Definition get_voice_name (config : option (result voice_document))
    (_voice_cache : option voice_cache_t) (voice_id : string)
  : option string * option voice_cache_t :=
  let '(voice_info, cache') := get_voice_info config _voice_cache voice_id in
  (vi_name <$> voice_info, cache').

End TTSService.
End tts_service.

(* ================================================================== *)
(** * A concrete instance of the libraries, for running examples *)
(* ================================================================== *)

Module Demo.

Definition dquote : string := String (ascii_of_nat 34) EmptyString.

Definition show_jvalue (v : jvalue) : string :=
  match v with
  | JStr s => dquote +:+ s +:+ dquote
  | JNum f => str_of_int f
  end.

Definition show_object {A} (show : A -> string) (o : list (string * A))
  : string :=
  "{" +:+ String.concat ", "
            (map (fun kv => dquote +:+ fst kv +:+ dquote +:+ ": "
                              +:+ show (snd kv)) o)
      +:+ "}".

(** Stand-ins: the digest is the text itself, compression stores the
    bytes unchanged, a float prints as its bit pattern, a datetime as its
    microseconds, the duration of a file is its length, and there is no
    JSON codec for cached values. *)
#[export] Instance externals : Externals := {|
  md5_hexdigest := string_of_bytes;
  gzip_compress := fun b => b;
  gunzip := fun b => inr b;
  json_dumps := show_object (show_object show_jvalue);
  json_dumps_value := fun _ _ =>
    Raise (Exn (OtherError "TypeError") "not JSON serializable");
  json_loads := fun _ =>
    Raise (Exn (OtherError "JSONDecodeError") "Expecting value");
  float_repr := str_of_int;
  datetime_str := str_of_int;
  isoformat := str_of_int;
  total_seconds := fun us => us;
  get_audio_duration := fun path fs =>
    match fs !! path with
    | Some content => Ok (Z.of_nat (length content))
    | None => Raise (Exn (OtherError "FileNotFoundError") path)
    end
|}.

Definition client : volcano_client.VolcanoTTSClient :=
  {| volcano_client.app_id := "app";
     volcano_client.access_token := "token";
     volcano_client.cluster := "volcano_tts";
     volcano_client.emotion_voices :=
       volcano_client._load_emotion_voices None |}.

Definition empty_cache : CacheService :=
  {| redis_client := None;
     memory_cache := ∅;
     cache_stats := CacheStats 0 0 0 0 |}.

Definition world0 : world :=
  {| cache := empty_cache; objects := []; files := ∅; sent := [];
     clock_reads := 0; uuid_draws := 0 |}.

(** A clock that advances by a tenth of a second per reading, and uuids
    that count. *)
Definition env_with (p : connection) : env :=
  {| utc_clock := fun n => Z.of_nat n * 100000;
     uuid_gen := fun n => "uuid-" +:+ str_of_int (Z.of_nat n);
     provider := p;
     open_write := fun _ _ => WriteOk;
     unlink := fun _ => None |}.

Definition RecvTimeout_conn : connection := Connected RecvTimeout.

(** A clock that gives the listed readings *)
Definition env_clock (times : list datetime) (p : connection) : env :=
  {| utc_clock := fun n => nth n times 0;
     uuid_gen := fun n => "uuid-" +:+ str_of_int (Z.of_nat n);
     provider := p;
     open_write := fun _ _ => WriteOk;
     unlink := fun _ => None |}.

(** A Redis server that cannot be reached *)
Definition connection_exn : exn :=
  Exn (OtherError "ConnectionError") "Connection refused".

Definition connection_error {A} : result A := Raise connection_exn.

Definition redis_down : RedisClient :=
  {| redis_get := fun _ => connection_error;
     redis_set := fun _ _ => connection_error;
     redis_setex := fun _ _ _ => connection_error |}.

Definition world_redis_down : world :=
  {| cache := {| redis_client := Some redis_down;
                 memory_cache := ∅;
                 cache_stats := CacheStats 0 0 0 0 |};
     objects := []; files := ∅; sent := [];
     clock_reads := 0; uuid_draws := 0 |}.

(** Frames: header [0x11], message type and flags, serialization and
    compression, reserved; then the payload. *)
Definition audio_frame (flags : byte) (seq : bytes) (audio : bytes) : bytes :=
  [x11; flags; x10; x00]%byte ++ seq ++ [x00; x00; x00; x00]%byte ++ audio.

Definition chunk_1 : bytes :=
  audio_frame xb1 [x00; x00; x00; x01]%byte [x41; x42]%byte.
Definition chunk_last : bytes :=
  audio_frame xb3 [xff; xff; xff; xfe]%byte [x43]%byte.

Definition error_frame (code : bytes) (msg : string) : bytes :=
  [x11; xf0; x10; x00]%byte ++ code ++ [x00; x00; x00; x0c]%byte
    ++ bytes_of_string msg.

Definition request_hello : tts_service.TTSRequest :=
  {| tts_service.text := "hello";
     tts_service.voice_id := "v1";
     tts_service.speed := 0x3FF0000000000000;
     tts_service.volume := 0x3FF0000000000000;
     tts_service.pitch := 0x3FF0000000000000;
     tts_service.format := FormatStr "mp3";
     tts_service.emotion := None;
     tts_service.bitrate := 128;
     tts_service.sample_rate := 24000 |}.

(** The provider answers with two chunks, the second one terminal. *)
Definition env_two_chunks : env :=
  env_with (Connected (RecvMsg chunk_1 (RecvMsg chunk_last RecvTimeout))).

(** The provider answers with one chunk, then nothing until the
    timeout. *)
Definition env_timeout : env :=
  env_with (Connected (RecvMsg chunk_1 RecvTimeout)).

(** The provider answers with one chunk, then an error frame: code
    45000, message "invalid text". *)
Definition invalid_text : bytes :=
  error_frame [x00; x00; xaf; xc8]%byte "invalid text".

Definition env_error : env :=
  env_with (Connected (RecvMsg chunk_1 (RecvMsg invalid_text RecvTimeout))).

(** An error frame with the same code whose message is no UTF-8 *)
Definition garbled_error : bytes :=
  [x11; xf0; x10; x00]%byte ++ [x00; x00; xaf; xc8]%byte
    ++ [x00; x00; x00; x02]%byte ++ [xff; xfe]%byte.

Definition env_garbled_error : env :=
  env_with (Connected (RecvMsg garbled_error RecvTimeout)).

(** The connection is refused, with a text that reads like a provider
    error. *)
Definition env_refused : env :=
  env_with (ConnectFails (Exn (OtherError "ConnectionRefusedError")
                              "TTS API错误 45000: invalid text")).


Definition no_directory : exn :=
  Exn (OtherError "FileNotFoundError") "[Errno 2] No such file or directory".


(** The same request from another caller's form: other bitrate and
    sample rate, and the emotion spelled out. *)
Definition request_hello' : tts_service.TTSRequest :=
  {| tts_service.text := "hello";
     tts_service.voice_id := "v1";
     tts_service.speed := 0x3FF0000000000000;
     tts_service.volume := 0x3FF0000000000000;
     tts_service.pitch := 0x3FF0000000000000;
     tts_service.format := FormatStr "mp3";
     tts_service.emotion := Some "neutral";
     tts_service.bitrate := 64;
     tts_service.sample_rate := 16000 |}.

(** The frame [synthesize_to_file] sends for "hello" with voice "v1"
    from the initial world *)
Definition frame_hello : bytes :=
  match volcano_client.full_client_request
          (volcano_client.request_json client "uuid-0" "uuid-1" "hello" "v1"
             0 0 0 (FormatStr "mp3") None) with
  | Ok frame => frame
  | Raise _ => []
  end.

(** A table with one entry that expired at 5 microseconds *)
Definition world_stale : world :=
  {| cache := {| redis_client := None;
                 memory_cache := {[ "old" := CacheItem (Val (PStr "x")) 5 ]};
                 cache_stats := CacheStats 0 0 0 0 |};
     objects := []; files := ∅; sent := [];
     clock_reads := 0; uuid_draws := 0 |}.

(** The world after [set("k", "v", expire=1)] at time 0 *)
Definition world_set : world :=
  snd (cache_service.set (env_clock [0; 0] RecvTimeout_conn) "k"
                         (Val (PStr "v")) (Some 1) world0).

(** The world after a first synthesis of [request_hello], and after a
    second one. *)
Definition world1 : world :=
  snd (tts_service.synthesize_text client env_two_chunks request_hello
                                   None world0).

Definition world2 : world :=
  snd (tts_service.synthesize_text client env_two_chunks request_hello
                                   None world1).

(** A Redis server that answers every read with text that is no JSON *)
Definition redis_garbled : RedisClient :=
  {| redis_get := fun _ => Ok (Some "{");
     redis_set := fun _ _ => Ok tt;
     redis_setex := fun _ _ _ => Ok tt |}.

Definition world_redis_garbled : world :=
  {| cache := {| redis_client := Some redis_garbled;
                 memory_cache := ∅;
                 cache_stats := CacheStats 0 0 0 0 |};
     objects := []; files := ∅; sent := [];
     clock_reads := 0; uuid_draws := 0 |}.

Definition redis_keys_down : cache_service.RedisKeyCommands :=
  {| cache_service.redis_delete := fun _ => connection_error;
     cache_service.redis_keys := fun _ => connection_error |}.

(** Patterns of the form [prefix*], and literal ones *)
Fixpoint fnmatch_pattern (pattern key : string) : bool :=
  match pattern with
  | EmptyString => match key with EmptyString => true | _ => false end
  | String p pattern' =>
      if Ascii.eqb p "*" then true
      else match key with
           | String k key' => Ascii.eqb p k && fnmatch_pattern pattern' key'
           | EmptyString => false
           end
  end.

Definition fnmatch (key pattern : string) : bool :=
  fnmatch_pattern pattern key.

(** Two requests whose texts and voices differ and whose key strings are
    the same *)
Definition request_collide_1 : tts_service.TTSRequest :=
  {| tts_service.text := "a|voice_id:b";
     tts_service.voice_id := "c";
     tts_service.speed := 0x3FF0000000000000;
     tts_service.volume := 0x3FF0000000000000;
     tts_service.pitch := 0x3FF0000000000000;
     tts_service.format := FormatStr "mp3";
     tts_service.emotion := None;
     tts_service.bitrate := 128;
     tts_service.sample_rate := 24000 |}.

Definition request_collide_2 : tts_service.TTSRequest :=
  {| tts_service.text := "a";
     tts_service.voice_id := "b|voice_id:c";
     tts_service.speed := 0x3FF0000000000000;
     tts_service.volume := 0x3FF0000000000000;
     tts_service.pitch := 0x3FF0000000000000;
     tts_service.format := FormatStr "mp3";
     tts_service.emotion := None;
     tts_service.bitrate := 128;
     tts_service.sample_rate := 24000 |}.

(** The frame [synthesize_text] has the client send for [request_hello]
    from the initial world: the request id of the service is the first
    uuid, those of the client the next two. *)
Definition frame_hello_service : bytes :=
  match volcano_client.full_client_request
          (volcano_client.request_json client "uuid-1" "uuid-2" "hello" "v1"
             0x3FF0000000000000 0x3FF0000000000000 0x3FF0000000000000
             (FormatStr "mp3") None) with
  | Ok frame => frame
  | Raise _ => []
  end.

(** A voice document with two categories, and the same document with a
    preset that has no language *)
Definition voice_item_of (id name category : string)
    (language : option string) : tts_service.voice_item :=
  {| tts_service.item_id := Some id;
     tts_service.item_name := Some name;
     tts_service.item_description := Some name;
     tts_service.item_category := Some category;
     tts_service.item_language := language;
     tts_service.item_tags := None;
     tts_service.item_emotions := None |}.

Definition info_of (description : string) : tts_service.category_info :=
  {| tts_service.info_description := Some description;
     tts_service.info_icon := Some "*";
     tts_service.info_color := Some "#4ECDC4";
     tts_service.info_special := None |}.

Definition voice_doc_with (language : option string)
  : tts_service.voice_document :=
  {| tts_service.voice_categories :=
       [ ("general", info_of "General voices");
         ("dialect", info_of "Dialects") ];
     tts_service.voice_presets :=
       {[ "general" := [ voice_item_of "v1" "Anna" "general" (Some "zh-CN");
                         voice_item_of "v2" "Ben" "general" (Some "zh-CN") ];
          "dialect" := [ voice_item_of "v3" "Chen" "dialect" language ] ]};
     tts_service.doc_emotion_voices := ["v1"] |}.

Definition voice_doc : tts_service.voice_document :=
  voice_doc_with (Some "zh-yue").

Definition voice_doc_broken : tts_service.voice_document :=
  voice_doc_with None.

(** What the loader makes of the dialect category of [voice_doc] *)
Definition voice_chen : tts_service.VoiceInfo :=
  {| tts_service.vi_id := "v3";
     tts_service.vi_name := "Chen";
     tts_service.vi_description := "Chen";
     tts_service.vi_category := "dialect";
     tts_service.vi_language := "zh-yue";
     tts_service.vi_tags := [];
     tts_service.vi_emotions := None |}.

Definition category_dialect : tts_service.VoiceCategory :=
  {| tts_service.vc_name := "dialect";
     tts_service.vc_description := "Dialects";
     tts_service.vc_icon := "*";
     tts_service.vc_color := "#4ECDC4";
     tts_service.vc_special := false;
     tts_service.vc_voices := [voice_chen] |}.

End Demo.

(* ================================================================== *)
(** * Vocabulary of the properties *)
(* ================================================================== *)

Section Vocabulary.
Context `{Externals}.

(** The header fields of a frame of at least four bytes *)
Definition header_size (response : bytes) : Z :=
  Z.land (byte_val (nth 0%nat response x00%byte)) 0x0f.
Definition message_type (response : bytes) : Z :=
  Z.shiftr (byte_val (nth 1%nat response x00%byte)) 4.
Definition message_compression (response : bytes) : Z :=
  Z.land (byte_val (nth 2%nat response x00%byte)) 0x0f.
Definition payload (response : bytes) : bytes :=
  drop (Z.to_nat (header_size response * 4)) response.

(** An error frame carries a code in the first four bytes of its payload
    and a message from the ninth on, compressed when the compression
    field is 1. *)
Definition error_code (response : bytes) : Z :=
  int_from_bytes (take 4 (payload response)) false.

Definition error_message (response : bytes) : result string :=
  volcano_client.rbind
    (if message_compression response =? 1
     then gzip_decompress (drop 8 (payload response))
     else Ok (drop 8 (payload response)))
    str_utf8.

(** The receive timeout or the closure comes before any terminal chunk:
    every message before it decodes, without error, to a frame that does
    not end the stream. *)
Fixpoint ends_before_terminal (script : recv_script) : bool :=
  match script with
  | RecvTimeout | RecvClosed => true
  | RecvMsg response rest =>
      match volcano_client._parse_response response with
      | Ok (false, _) => ends_before_terminal rest
      | _ => false
      end
  end.

(** [response] is received by the loop: the messages before it decode to
    frames that do not end the stream. *)
Inductive received : recv_script -> bytes -> Prop :=
| received_first response rest :
    received (RecvMsg response rest) response
| received_later response0 chunk rest response :
    volcano_client._parse_response response0 = Ok (false, chunk) ->
    received rest response ->
    received (RecvMsg response0 rest) response.

(** Lookup in a JSON object *)
Fixpoint jlookup {A} (key : string) (o : list (string * A)) : option A :=
  match o with
  | [] => None
  | (k, v) :: o' => if String.eqb k key then Some v else jlookup key o'
  end.

(** The [emotion] entry of the ["request"] part of a request object *)
Definition request_emotion (request_json : request_object) : option jvalue :=
  jlookup "request" request_json ≫= jlookup "emotion".

(** The fields of the entry the in-memory cache holds under [key], read
    through the object store. *)
Definition cached_entry (w : world) (key : string) : option pydict :=
  item ← memory_cache (cache w) !! key;
  match data item with
  | Ref l => objects w !! l
  | Val _ => None
  end.

(** Every entry of the in-memory cache refers to a dict of the object
    store that has at least one field. *)
Definition entries_are_dicts (w : world) : Prop :=
  forall key item,
    memory_cache (cache w) !! key = Some item ->
    exists l d,
      data item = Ref l /\ objects w !! l = Some d /\ dict_truthy d = true.

(** A field of the response of a call that returned one *)
Definition response_field (r : result pydict) (field : string)
  : option pyval :=
  match r with
  | Ok response => response !! field
  | Raise _ => None
  end.

(** The path rebuilt for a request id and the format found in a dict *)
Definition rebuilt_path (request_id : string) (d : pydict) : string :=
  os_path_join settings.AUDIO_FILES_PATH
    ("tts_" +:+ request_id +:+ "."
       +:+ py_format (default (PStr "mp3") (d !! "format"))).

(** The dict of a cache hit after the three assignments *)
Definition refreshed (request_id : string) (now : datetime) (d : pydict)
  : pydict :=
  <["file_path" := PStr (rebuilt_path request_id d)]>
    (<["created_at" := PDatetime now]>
       (<["request_id" := PStr request_id]> d)).

(** The handler that [synthesize_to_file] and [synthesize_text] wrap
    around their bodies *)
Definition synthesis_failed {A} (ex : exn) : M A :=
  raise (Exn Exception ("语音合成失败: " +:+ exn_str ex)).

(** The type-specific flags of a frame of at least four bytes *)
Definition message_flags (response : bytes) : Z :=
  Z.land (byte_val (nth 1%nat response x00%byte)) 0x0f.

(** The script in which [frames] arrive in order and are followed by
    [tail]. *)
Definition script_of (frames : list bytes) (tail : recv_script)
  : recv_script :=
  foldr RecvMsg tail frames.

(** The name and the path of the audio file of a new synthesis *)
Definition audio_file_name (request_id : string) (fmt : audio_format)
  : string :=
  "tts_" +:+ request_id +:+ "." +:+ format_value fmt.

Definition audio_file_path (request_id : string) (fmt : audio_format)
  : string :=
  os_path_join settings.AUDIO_FILES_PATH (audio_file_name request_id fmt).

(** The expiry [set] computes on the in-memory backend for an entry
    written at [now]: the duration, then the sum *)
Definition expiry_of (now : datetime) (expire : option Z) : result datetime :=
  volcano_client.rbind
    (cache_service.timedelta_seconds (cache_service.expire_or_default expire))
    (datetime_add now).

Definition in_datetime_range (t : Z) : Prop := 0 <= t <= datetime_max.

(** The entries of the voice document that have every field the loader
    reads with a subscript *)
Definition complete_item (item : tts_service.voice_item) : bool :=
  bool_decide (is_Some (tts_service.item_id item))
  && bool_decide (is_Some (tts_service.item_name item))
  && bool_decide (is_Some (tts_service.item_description item))
  && bool_decide (is_Some (tts_service.item_category item))
  && bool_decide (is_Some (tts_service.item_language item)).

Definition complete_info (info : tts_service.category_info) : bool :=
  bool_decide (is_Some (tts_service.info_description info))
  && bool_decide (is_Some (tts_service.info_icon info))
  && bool_decide (is_Some (tts_service.info_color info)).

(** The presets listed under a category name, none when the name is not
    a key of [voice_presets] *)
Definition presets_of (presets : gmap string (list tts_service.voice_item))
    (category_name : string) : list tts_service.voice_item :=
  default [] (presets !! category_name).

Definition complete_categories
    (presets : gmap string (list tts_service.voice_item))
    (declared : list (string * tts_service.category_info)) : bool :=
  forallb (fun entry => complete_info (snd entry)
                        && forallb complete_item
                                   (presets_of presets (fst entry)))
          declared.

Definition complete_document (doc : tts_service.voice_document) : bool :=
  complete_categories (tts_service.voice_presets doc)
                      (tts_service.voice_categories doc).

(** A voice has the fields of a preset: the five the loader reads with a
    subscript, the tags (none when the preset has none) and the
    emotions. *)
Definition voice_of_item (item : tts_service.voice_item)
    (voice : tts_service.VoiceInfo) : Prop :=
  tts_service.item_id item = Some (tts_service.vi_id voice) /\
  tts_service.item_name item = Some (tts_service.vi_name voice) /\
  tts_service.item_description item
    = Some (tts_service.vi_description voice) /\
  tts_service.item_category item = Some (tts_service.vi_category voice) /\
  tts_service.item_language item = Some (tts_service.vi_language voice) /\
  tts_service.vi_tags voice = default [] (tts_service.item_tags item) /\
  tts_service.vi_emotions voice = tts_service.item_emotions item.

(** A category has the name and the fields of a declared entry ([special]
    false when the entry has none) and, in order, the voices of the
    presets listed under that name. *)
Definition category_of_entry
    (presets : gmap string (list tts_service.voice_item))
    (entry : string * tts_service.category_info)
    (cat : tts_service.VoiceCategory) : Prop :=
  tts_service.vc_name cat = fst entry /\
  tts_service.info_description (snd entry)
    = Some (tts_service.vc_description cat) /\
  tts_service.info_icon (snd entry) = Some (tts_service.vc_icon cat) /\
  tts_service.info_color (snd entry) = Some (tts_service.vc_color cat) /\
  tts_service.vc_special cat
    = default false (tts_service.info_special (snd entry)) /\
  Forall2 voice_of_item (presets_of presets (fst entry))
          (tts_service.vc_voices cat).

End Vocabulary.

(* ================================================================== *)
(** * Frame decoding and the receive loop *)
(* ================================================================== *)

Section ClientProperties.
Context `{Externals}.

Import volcano_client.

Lemma ends_before_terminal_no_error script :
  ends_before_terminal script = true -> snd (recv_loop script) = None.
Proof.
  induction script as [response rest IH| |]; simpl; try reflexivity.
  destruct (_parse_response response) as [[[] chunk]|ex]; try discriminate.
  intros Hrest. specialize (IH Hrest).
  destruct (recv_loop rest) as [chunks ending]. exact IH.
Qed.

Lemma parse_error_frame response :
  (4 <= length response)%nat ->
  message_type response = 0xf ->
  _parse_response response =
    rbind (error_message response) (fun msg =>
      Raise (Exn Exception
               ("TTS API错误 " +:+ str_of_int (error_code response)
                  +:+ ": " +:+ msg))).
Proof.
  intros Hlen Hty. unfold _parse_response.
  destruct (Nat.ltb_spec (length response) 4) as [Hlt|_]; [lia|].
  fold (message_type response). rewrite Hty. simpl.
  unfold error_message, error_code, payload, header_size, message_compression.
  destruct (_ =? 1); [|reflexivity].
  destruct (gzip_decompress _); reflexivity.
Qed.

Lemma parse_error_frame_raises response :
  (4 <= length response)%nat ->
  message_type response = 0xf ->
  exists ex, _parse_response response = Raise ex.
Proof.
  intros Hlen Hty. rewrite parse_error_frame by assumption.
  destruct (error_message response) as [msg|ex]; simpl; eauto.
Qed.

(** Decoding raises no timeout and no closure: the loop lets every
    exception of [_parse_response] through. *)
Lemma parse_raises_through response ex :
  _parse_response response = Raise ex ->
  is_class TimeoutError ex || is_class ConnectionClosed ex = false.
Proof.
  unfold _parse_response.
  destruct (_ <? _)%nat; [discriminate|].
  repeat match goal with
         | |- context [if ?b then _ else _] => destruct b
         end; try discriminate;
    unfold gzip_decompress, str_utf8;
    repeat first
      [ progress simpl
      | match goal with
        | |- context [gunzip ?x] => destruct (gunzip x)
        | |- context [utf8_valid ?x] => destruct (utf8_valid x)
        end ];
    intros Hex; simplify_eq; reflexivity.
Qed.

Ltac run_client :=
  unfold synthesize_to_file, _synthesize_stream, collect, try_except, bind,
    uuid4, utcnow, write_file, put_files, ws_send, ret, raise,
    synthesis_failed;
  simpl.

(** C2, as the code has it.  For every byte string of length strictly
    less than 4, decoding raises nothing: [_parse_response] returns
    [(False, None)], the result of a frame that carries no audio and does
    not end the stream. *)
Theorem short_frame_decodes_to_no_audio response :
  (length response < 4)%nat ->
  _parse_response response = Ok (false, None).
Proof.
  intros Hlen. unfold _parse_response.
  destruct (Nat.ltb_spec (length response) 4) as [_|Hge]; [reflexivity|lia].
Qed.

(** C1, as the code has it.  When the receive timeout or the connection
    closure comes before any terminal chunk, the receive loop stops
    without raising: the generator finishes as it does after a terminal
    chunk.  [synthesize_to_file] then writes the audio received so far to
    the output file and, when that write succeeds, returns a result whose
    status is ["success"]: the early end of the stream is not reported. *)
Theorem timeout_before_terminal_ends_stream_normally
    (self : VolcanoTTSClient) (e : env) (script : recv_script)
    (text voice_type output_path : string)
    (speed_ratio volume_ratio pitch_ratio : float)
    (encoding : audio_format) (emotion : option string)
    (w : world) (frame : bytes) :
  provider e = Connected script ->
  ends_before_terminal script = true ->
  full_client_request
    (request_json self (uuid_gen e (uuid_draws w))
                  (uuid_gen e (S (uuid_draws w))) text voice_type
                  speed_ratio volume_ratio pitch_ratio encoding emotion)
    = Ok frame ->
  open_write e output_path (concat (fst (recv_loop script))) = WriteOk ->
  snd (recv_loop script) = None /\
  exists result w',
    synthesize_to_file self e text voice_type output_path speed_ratio
                       volume_ratio pitch_ratio encoding emotion w
      = (Ok result, w') /\
    sr_status result = "success" /\
    sr_file_size result
      = Z.of_nat (length (concat (fst (recv_loop script)))) /\
    files w' = <[output_path := concat (fst (recv_loop script))]> (files w).
Proof.
  intros Hprov Hends Hframe Hwrite.
  pose proof (ends_before_terminal_no_error script Hends) as Hend.
  split; [exact Hend|].
  run_client. rewrite Hframe, Hprov.
  destruct (recv_loop script) as [chunks ending]. simpl in Hend. subst ending.
  simpl in *. rewrite Hwrite. simpl. eexists _, _. repeat split.
Qed.

Lemma recv_loop_raises script response ex :
  received script response ->
  _parse_response response = Raise ex ->
  exists chunks, recv_loop script = (chunks, Some ex).
Proof.
  intros Hrecv Hparse.
  induction Hrecv as [response rest|response0 chunk rest response Hp0 _ IH];
    cbn [recv_loop].
  - rewrite Hparse, (parse_raises_through _ _ Hparse). eauto.
  - rewrite Hp0. destruct (IH Hparse) as [chunks ->]. eauto.
Qed.

(** C7, as the code has it.  An error frame (message type [0xf]) that
    the loop receives makes [synthesize_to_file] raise, and no file is
    written.  What is raised is a plain [Exception]: the code has no error
    type of its own, and the code and the message of the frame are only
    part of the text.  When the message of the frame decodes (after
    decompression if the compression field is 1) the text is
    ["语音合成失败: TTS API错误 <code>: <message>"], with the code read from
    the first four payload bytes; when it does not decode, the text is
    that of the decoding error behind the same prefix, and has no code. *)
Theorem error_frame_aborts_synthesis
    (self : VolcanoTTSClient) (e : env) (script : recv_script)
    (response : bytes) (text voice_type output_path : string)
    (speed_ratio volume_ratio pitch_ratio : float)
    (encoding : audio_format) (emotion : option string) (w : world)
    (frame : bytes) :
  provider e = Connected script ->
  received script response ->
  (4 <= length response)%nat ->
  message_type response = 0xf ->
  full_client_request
    (request_json self (uuid_gen e (uuid_draws w))
                  (uuid_gen e (S (uuid_draws w))) text voice_type
                  speed_ratio volume_ratio pitch_ratio encoding emotion)
    = Ok frame ->
  exists ex w',
    synthesize_to_file self e text voice_type output_path speed_ratio
                       volume_ratio pitch_ratio encoding emotion w
      = (Raise ex, w') /\
    files w' = files w /\
    exn_cls ex = Exception /\
    exn_str ex
      = "语音合成失败: "
          +:+ match error_message response with
              | Ok msg => "TTS API错误 " +:+ str_of_int (error_code response)
                            +:+ ": " +:+ msg
              | Raise cause => exn_str cause
              end.
Proof.
  intros Hprov Hrecv Hlen Hty Hframe.
  pose proof (parse_error_frame response Hlen Hty) as Hparse.
  destruct (parse_error_frame_raises response Hlen Hty) as [ex0 Hex0].
  destruct (recv_loop_raises script response ex0 Hrecv Hex0) as [chunks Hloop].
  run_client. rewrite Hframe, Hprov, Hloop. simpl.
  eexists _, _. split; [reflexivity|]. split; [reflexivity|].
  split; [reflexivity|]. simpl.
  rewrite Hparse in Hex0.
  destruct (error_message response) as [msg|cause]; simpl in Hex0;
    injection Hex0 as <-; reflexivity.
Qed.

(** What [synthesize_to_file] sends: one frame, the encoding of the
    request object. *)
Lemma synthesize_to_file_sends
    (self : VolcanoTTSClient) (e : env) (script : recv_script)
    (text voice_type output_path : string)
    (speed_ratio volume_ratio pitch_ratio : float)
    (encoding : audio_format) (emotion : option string)
    (w : world) (frame : bytes) :
  provider e = Connected script ->
  full_client_request
    (request_json self (uuid_gen e (uuid_draws w))
                  (uuid_gen e (S (uuid_draws w))) text voice_type
                  speed_ratio volume_ratio pitch_ratio encoding emotion)
    = Ok frame ->
  sent (snd (synthesize_to_file self e text voice_type output_path
               speed_ratio volume_ratio pitch_ratio encoding emotion w))
    = sent w ++ [frame].
Proof.
  intros Hprov Hframe. run_client. rewrite Hframe, Hprov.
  destruct (recv_loop script) as [chunks [ex|]]; [reflexivity|]. simpl.
  destruct (open_write e output_path (concat chunks)) as [|ex [n|]];
    reflexivity.
Qed.

(** C5.  The request object built for the provider has an [emotion]
    entry in its ["request"] part exactly when an emotion tag was given
    (neither [None] nor the empty string) and the voice is in the loaded
    list of emotion voices; the entry is then the tag.  Building the
    request raises nothing in either case. *)
Theorem emotion_sent_iff_supported
    (self : VolcanoTTSClient) (request_id uid text voice_type : string)
    (speed_ratio volume_ratio pitch_ratio : float)
    (encoding : audio_format) (emotion : option string) (v : jvalue) :
  request_emotion
    (request_json self request_id uid text voice_type speed_ratio
                  volume_ratio pitch_ratio encoding emotion) = Some v
  <-> exists tag, v = JStr tag /\ emotion = Some tag /\ tag <> ""
                  /\ voice_type ∈ emotion_voices self.
Proof.
  unfold request_emotion, request_json, supports_emotion. simpl.
  destruct emotion as [tag|]; simpl.
  - destruct tag as [|c tag]; simpl.
    + split; [discriminate|]. intros (t & _ & [= <-] & Hne & _). done.
    + case_bool_decide as Hin; simpl.
      * split.
        -- intros [= <-]. exists (String c tag). done.
        -- intros (t & -> & [= <-] & _). reflexivity.
      * split; [discriminate|]. intros (t & _ & [= <-] & _ & Hin'). done.
  - split; [discriminate|]. intros (t & _ & Hem & _). discriminate.
Qed.

End ClientProperties.

(* ================================================================== *)
(** * The cache *)
(* ================================================================== *)

Section CacheProperties.
Context `{Externals}.

Import cache_service.

Ltac run_cache :=
  unfold get, get_try, count_miss, set, set_try,
    _cleanup_expired_memory_cache, update_stats, update_memory_cache,
    try_except, bind, lift, get_cache, put_cache, get_objects, utcnow, ret;
  simpl.

(** ** The sweep *)

Lemma delete_keys_lookup keys (m : gmap string cache_item) k :
  delete_keys keys m !! k = if bool_decide (k ∈ keys) then None else m !! k.
Proof.
  revert m. induction keys as [|key keys IH]; intros m; simpl.
  - reflexivity.
  - unfold delete_keys in *. simpl. rewrite IH.
    destruct (decide (k = key)) as [->|Hne].
    + rewrite lookup_delete_eq.
      rewrite (bool_decide_eq_true_2 (key ∈ key :: keys)) by left.
      by case_bool_decide.
    + rewrite lookup_delete_ne by done.
      rewrite (bool_decide_ext (k ∈ key :: keys) (k ∈ keys)); [done|].
      rewrite elem_of_cons. split; [intros [?|?]; done|by right].
Qed.

Lemma elem_of_expired_keys now (m : gmap string cache_item) k :
  k ∈ expired_keys now m
  <-> exists item, m !! k = Some item /\ expires_at item <= now.
Proof.
  unfold expired_keys. rewrite list_elem_of_fmap. split.
  - intros ([k' item] & -> & Hin). apply list_elem_of_filter in Hin.
    destruct Hin as [Hexp Hin]. apply elem_of_map_to_list in Hin. eauto.
  - intros (item & Hk & Hexp). exists (k, item). split; [done|].
    apply list_elem_of_filter. split; [done|]. by apply elem_of_map_to_list.
Qed.

Lemma sweep_lookup now (m : gmap string cache_item) k item :
  delete_keys (expired_keys now m) m !! k = Some item
  <-> m !! k = Some item /\ now < expires_at item.
Proof.
  rewrite delete_keys_lookup. case_bool_decide as Hin.
  - apply elem_of_expired_keys in Hin as (item' & Hk & Hexp). split.
    + discriminate.
    + intros [Hk' Hlt]. simplify_eq. lia.
  - split; [|tauto]. intros Hk. split; [done|].
    destruct (Z_lt_le_dec now (expires_at item)) as [|Hle]; [done|].
    exfalso. apply Hin, elem_of_expired_keys. eauto.
Qed.

(** ** [get] and [set] on the in-memory backend *)

(** C6.  On the in-memory backend, a read of a key that has an entry
    returns the stored value when the clock is strictly before the entry's
    expiry and leaves the table as it is; when the expiry has been reached
    it returns [None] and the entry is gone from the table after the
    read. *)
Theorem get_respects_expiry (e : env) (w : world) (key : string)
    (item : cache_item) :
  redis_client (cache w) = None ->
  memory_cache (cache w) !! key = Some item ->
  (utc_clock e (clock_reads w) < expires_at item ->
     fst (get e key w) = Ok (data item) /\
     memory_cache (cache (snd (get e key w))) = memory_cache (cache w)) /\
  (expires_at item <= utc_clock e (clock_reads w) ->
     fst (get e key w) = Ok (Val PNone) /\
     memory_cache (cache (snd (get e key w))) !! key = None /\
     memory_cache (cache (snd (get e key w)))
       = delete key (memory_cache (cache w))).
Proof.
  intros Hredis Hitem. run_cache. rewrite Hredis, Hitem. simpl.
  split; intros Hnow.
  - destruct (Z.ltb_spec (utc_clock e (clock_reads w)) (expires_at item));
      [|lia].
    simpl. done.
  - destruct (Z.ltb_spec (utc_clock e (clock_reads w)) (expires_at item));
      [lia|].
    simpl. rewrite lookup_delete_eq. done.
Qed.

(** What [set] does on the in-memory backend when the expiry can be
    computed: two clock readings, the entry written, the table swept. *)
Lemma set_memory (e : env) (w : world) (key : string) (value : pyobj)
    (expire : option Z) (expires : datetime) :
  redis_client (cache w) = None ->
  expiry_of (utc_clock e (clock_reads w)) expire = Ok expires ->
  set e key value expire w =
    (Ok true,
     World {| redis_client := None;
              memory_cache :=
                let t1 := utc_clock e (S (clock_reads w)) in
                let m := <[key := CacheItem value expires]>
                           (memory_cache (cache w)) in
                delete_keys (expired_keys t1 m) m;
              cache_stats := incr_sets (cache_stats (cache w)) |}
           (objects w) (files w) (sent w)
           (S (S (clock_reads w))) (uuid_draws w)).
Proof.
  intros Hredis Hexp. unfold expiry_of, volcano_client.rbind in Hexp.
  run_cache. rewrite Hredis.
  destruct (timedelta_seconds (expire_or_default expire)) as [delta|ex];
    [|discriminate Hexp].
  simpl. rewrite Hexp. simpl. rewrite Hredis. reflexivity.
Qed.

(** What it does when the expiry cannot be computed: one clock reading,
    and [False]; nothing is stored and nothing is swept. *)
Lemma set_memory_overflow (e : env) (w : world) (key : string)
    (value : pyobj) (expire : option Z) (ex : exn) :
  redis_client (cache w) = None ->
  expiry_of (utc_clock e (clock_reads w)) expire = Raise ex ->
  set e key value expire w =
    (Ok false,
     World (cache w) (objects w) (files w) (sent w)
           (S (clock_reads w)) (uuid_draws w)).
Proof.
  intros Hredis Hexp. unfold expiry_of, volcano_client.rbind in Hexp.
  run_cache. rewrite Hredis.
  destruct (timedelta_seconds (expire_or_default expire)) as [delta|ex'];
    simpl; [rewrite Hexp|]; reflexivity.
Qed.

(** The expiry of the configured lifetime of an hour *)
Lemma expiry_of_default (now : datetime) :
  in_datetime_range (now + 3600000000) ->
  expiry_of now (Some settings.CACHE_EXPIRE_SECONDS)
  = Ok (now + 3600000000).
Proof.
  intros [Hlo Hhi]. unfold expiry_of, datetime_add. simpl.
  change (settings.CACHE_EXPIRE_SECONDS * 1000000) with 3600000000.
  destruct (Z.leb_spec 0 (now + 3600000000)); [|lia].
  destruct (Z.leb_spec (now + 3600000000) datetime_max); [|lia].
  reflexivity.
Qed.

(** C10.  On the in-memory backend, after a [set] that returns [True]
    every entry of the table, whatever its key, expires strictly after
    the sweep's reading of the clock, which is the last reading [set]
    makes. *)
Theorem set_leaves_only_unexpired (e : env) (w : world) (key : string)
    (value : pyobj) (expire : option Z) :
  redis_client (cache w) = None ->
  fst (set e key value expire w) = Ok true ->
  clock_reads (snd (set e key value expire w)) = S (S (clock_reads w)) /\
  forall k item,
    memory_cache (cache (snd (set e key value expire w))) !! k = Some item ->
    utc_clock e (S (clock_reads w)) < expires_at item.
Proof.
  intros Hredis Hok.
  destruct (expiry_of (utc_clock e (clock_reads w)) expire)
    as [expires|ex] eqn:Hexp.
  - rewrite (set_memory e w key value expire expires Hredis Hexp). simpl.
    split; [reflexivity|].
    intros k item Hk. apply sweep_lookup in Hk. tauto.
  - rewrite (set_memory_overflow e w key value expire ex Hredis Hexp) in Hok.
    discriminate Hok.
Qed.

(** ** The cache key *)

Lemma ascii_compare_lt_trans a b c :
  Ascii.compare a b = Lt -> Ascii.compare b c = Lt -> Ascii.compare a c = Lt.
Proof.
  unfold Ascii.compare. rewrite !N.compare_lt_iff. lia.
Qed.

Lemma string_compare_lt_trans s1 : forall s2 s3,
  String.compare s1 s2 = Lt -> String.compare s2 s3 = Lt ->
  String.compare s1 s3 = Lt.
Proof.
  induction s1 as [|a s1 IH]; intros [|b s2] [|c s3]; simpl; try done.
  destruct (Ascii.compare a b) eqn:Hab; try done;
    destruct (Ascii.compare b c) eqn:Hbc; try done; intros H12 H23.
  - apply Ascii.compare_eq_iff in Hab, Hbc. subst.
    assert (Ascii.compare c c = Eq) as ->
      by (unfold Ascii.compare; apply N.compare_refl).
    eauto.
  - apply Ascii.compare_eq_iff in Hab. subst. by rewrite Hbc.
  - apply Ascii.compare_eq_iff in Hbc. subst. by rewrite Hab.
  - by rewrite (ascii_compare_lt_trans a b c).
Qed.

Lemma string_leb_trans s1 s2 s3 :
  String.leb s1 s2 = true -> String.leb s2 s3 = true ->
  String.leb s1 s3 = true.
Proof.
  unfold String.leb.
  destruct (String.compare s1 s2) eqn:H12; try done;
    destruct (String.compare s2 s3) eqn:H23; try done; intros _ _.
  - apply String.compare_eq_iff in H12. subst. by rewrite H23.
  - apply String.compare_eq_iff in H12. subst. by rewrite H23.
  - apply String.compare_eq_iff in H23. subst. by rewrite H12.
  - by rewrite (string_compare_lt_trans s1 s2 s3).
Qed.

(** Inserting two pairs with different keys gives the same list in either
    order. *)
Lemma insert_sorted_comm x y l :
  fst x <> fst y ->
  insert_sorted x (insert_sorted y l) = insert_sorted y (insert_sorted x l).
Proof.
  intros Hne. induction l as [|z l IH]; simpl.
  - destruct (String.leb (fst x) (fst y)) eqn:Hxy,
             (String.leb (fst y) (fst x)) eqn:Hyx; try reflexivity.
    + destruct Hne. by apply String.leb_antisym.
    + destruct (String.leb_total (fst x) (fst y)); congruence.
  - destruct (String.leb (fst y) (fst z)) eqn:Hyz,
             (String.leb (fst x) (fst z)) eqn:Hxz; simpl;
      rewrite ?Hyz, ?Hxz;
      destruct (String.leb (fst x) (fst y)) eqn:Hxy,
               (String.leb (fst y) (fst x)) eqn:Hyx;
      try reflexivity;
      try (destruct Hne; by apply String.leb_antisym);
      try (destruct (String.leb_total (fst x) (fst y)); congruence).
    + pose proof (string_leb_trans _ _ _ Hxy Hyz). congruence.
    + pose proof (string_leb_trans _ _ _ Hyx Hxz). congruence.
Qed.

Lemma sorted_permutation (l1 l2 : list (string * pyval)) :
  l1 ≡ₚ l2 -> NoDup (fst <$> l1) -> sorted l1 = sorted l2.
Proof.
  unfold sorted. induction 1 as [|x l1 l2 Hperm IH|x y l|l1 l2 l3 H12 IH12 H23 IH23];
    intros Hnd; simpl.
  - reflexivity.
  - rewrite fmap_cons in Hnd. apply NoDup_cons in Hnd as [_ Hnd].
    by rewrite IH.
  - rewrite !fmap_cons in Hnd. apply NoDup_cons in Hnd as [Hy _].
    apply insert_sorted_comm. intros Heq. apply Hy. rewrite Heq. left.
  - rewrite IH12 by done. apply IH23. by rewrite <-H12.
Qed.

Import tts_service.

(** C3.  The key of a request is [generate_cache_key] applied to the
    seven parameters text, voice id, speed, volume, pitch, format and
    emotion-or-["neutral"].  Two requests that agree on these have the
    same key, in whatever order the keyword arguments are written; the
    request id, the caller and the clock are no inputs of the key, and
    neither are the other fields of the request. *)
Theorem cache_key_deterministic (r1 r2 : TTSRequest)
    (kwargs : list (string * pyval)) :
  text r1 = text r2 ->
  voice_id r1 = voice_id r2 ->
  speed r1 = speed r2 ->
  volume r1 = volume r2 ->
  pitch r1 = pitch r2 ->
  format r1 = format r2 ->
  emotion_or_neutral (emotion r1) = emotion_or_neutral (emotion r2) ->
  kwargs ≡ₚ cache_kwargs r1 ->
  generate_cache_key "tts" kwargs = cache_key_of r2.
Proof.
  intros Ht Hv Hs Hvol Hp Hf He Hperm.
  unfold cache_key_of, generate_cache_key.
  assert (cache_kwargs r1 = cache_kwargs r2) as <-.
  { unfold cache_kwargs. by rewrite Ht, Hv, Hs, Hvol, Hp, Hf, He. }
  rewrite (sorted_permutation kwargs (cache_kwargs r1) Hperm); [done|].
  rewrite Hperm. unfold cache_kwargs. simpl.
  apply (bool_decide_unpack _). vm_compute. reflexivity.
Qed.

(** ** Failures inside the cache *)

Lemma count_miss_ok (w : world) :
  exists w', count_miss w = (Ok (Val PNone), w').
Proof. run_cache. eauto. Qed.

Lemma get_never_raises (e : env) (key : string) (w : world) :
  exists value w', get e key w = (Ok value, w').
Proof.
  unfold get, try_except, bind.
  destruct (get_try e key w) as [[[value|]|ex] w1].
  - unfold ret. eauto.
  - destruct (count_miss_ok w1) as [w' ->]. eauto.
  - destruct (count_miss_ok w1) as [w' ->]. eauto.
Qed.

Lemma get_absent_when_read_raises (e : env) (key : string) (w w1 : world)
    (ex : exn) :
  get_try e key w = (Raise ex, w1) -> get e key w = count_miss w1.
Proof. intros Htry. unfold get, try_except, bind. by rewrite Htry. Qed.

Lemma set_never_raises (e : env) (key : string) (value : pyobj)
    (expire : option Z) (w : world) :
  exists b w', set e key value expire w = (Ok b, w').
Proof.
  unfold set, try_except.
  destruct (set_try e key value expire w) as [[b|ex] w1]; unfold ret; eauto.
Qed.

Lemma set_false_when_write_raises (e : env) (key : string) (value : pyobj)
    (expire : option Z) (w w1 : world) (ex : exn) :
  set_try e key value expire w = (Raise ex, w1) ->
  set e key value expire w = (Ok false, w1).
Proof. intros Htry. unfold set, try_except. by rewrite Htry. Qed.

End CacheProperties.

(* ================================================================== *)
(** * The orchestrator *)
(* ================================================================== *)

Section OrchestratorProperties.
Context `{Externals}.

Import tts_service.

Lemma synthesize_text_after_miss client e request user_id w w1 :
  cache_service.get e (cache_key_of request) w = (Ok (Val PNone), w1) ->
  synthesize_text client e request user_id w
  = try_except (synthesize_miss client e request (cache_key_of request))
               synthesis_failed w1.
Proof.
  intros Hget. unfold synthesize_text, try_except, bind, get_objects.
  rewrite Hget. reflexivity.
Qed.

Lemma synthesize_text_after_hit client e request user_id w w1 l d :
  cache_service.get e (cache_key_of request) w = (Ok (Ref l), w1) ->
  objects w1 !! l = Some d ->
  d <> ∅ ->
  synthesize_text client e request user_id w
  = try_except (synthesize_hit e (Ref l)) synthesis_failed w1.
Proof.
  intros Hget Hl Hd. unfold synthesize_text, try_except, bind, get_objects.
  rewrite Hget. simpl. rewrite Hl. unfold dict_truthy.
  rewrite bool_decide_eq_false_2 by done. reflexivity.
Qed.

Lemma synthesize_hit_run e l d w :
  objects w !! l = Some d ->
  synthesize_hit e (Ref l) w
  = (Ok (refreshed (uuid_gen e (uuid_draws w))
                   (utc_clock e (clock_reads w)) d),
     World (cache w)
           (<[l := refreshed (uuid_gen e (uuid_draws w))
                             (utc_clock e (clock_reads w)) d]> (objects w))
           (files w) (sent w) (S (clock_reads w)) (S (uuid_draws w))).
Proof.
  intros Hl. pose proof (lookup_lt_Some _ _ _ Hl) as Hlt.
  unfold synthesize_hit, setitem, getitem, get_default, response_of,
    bind, uuid4, utcnow, get_objects, put_object, ret, raise.
  simpl. rewrite Hl. simpl.
  repeat first
    [ rewrite list_insert_insert_eq
    | rewrite list_lookup_insert_eq by (rewrite ?length_insert; lia)
    | rewrite lookup_insert_eq
    | rewrite lookup_insert_ne by done
    | progress simpl ].
  unfold refreshed, rebuilt_path.
  destruct (d !! "format"); reflexivity.
Qed.

Lemma get_memory_hit (e : env) (w : world) (key : string)
    (item : cache_item) :
  redis_client (cache w) = None ->
  memory_cache (cache w) !! key = Some item ->
  utc_clock e (clock_reads w) < expires_at item ->
  cache_service.get e key w
  = (Ok (data item),
     World {| redis_client := None;
              memory_cache := memory_cache (cache w);
              cache_stats := cache_service.incr_hits (cache_stats (cache w)) |}
           (objects w) (files w) (sent w) (S (clock_reads w)) (uuid_draws w)).
Proof.
  intros Hredis Hitem Hnow.
  unfold cache_service.get, cache_service.get_try, cache_service.update_stats,
    try_except, bind, get_cache, put_cache, utcnow, ret.
  simpl. rewrite Hredis, Hitem. simpl.
  destruct (Z.ltb_spec (utc_clock e (clock_reads w)) (expires_at item));
    [|lia].
  simpl. rewrite Hredis. reflexivity.
Qed.

(** What a cache hit does, in full: the response is the refreshed dict,
    and the refreshed dict is also what the store holds at the location
    the cache entry refers to. *)
Lemma synthesize_text_hit_run client e request user_id w item l d :
  redis_client (cache w) = None ->
  memory_cache (cache w) !! cache_key_of request = Some item ->
  utc_clock e (clock_reads w) < expires_at item ->
  data item = Ref l ->
  objects w !! l = Some d ->
  dict_truthy d = true ->
  synthesize_text client e request user_id w
  = (Ok (refreshed (uuid_gen e (uuid_draws w))
                   (utc_clock e (S (clock_reads w))) d),
     World {| redis_client := None;
              memory_cache := memory_cache (cache w);
              cache_stats := cache_service.incr_hits (cache_stats (cache w)) |}
           (<[l := refreshed (uuid_gen e (uuid_draws w))
                             (utc_clock e (S (clock_reads w))) d]>
              (objects w))
           (files w) (sent w) (S (S (clock_reads w))) (S (uuid_draws w))).
Proof.
  intros Hredis Hitem Hnow Hdata Hl Hd.
  pose proof (get_memory_hit e w _ item Hredis Hitem Hnow) as Hget.
  rewrite Hdata in Hget.
  rewrite (synthesize_text_after_hit _ _ _ _ _ _ l d Hget); [|exact Hl|].
  - unfold try_except. rewrite (synthesize_hit_run e l d) by exact Hl.
    reflexivity.
  - intros ->. unfold dict_truthy in Hd.
    rewrite bool_decide_eq_true_2 in Hd by reflexivity. discriminate.
Qed.

(** After a cache hit the entry the cache holds is the refreshed dict:
    it has the [file_path] and the request id of the response. *)
Lemma cache_hit_rewrites_entry client e request user_id w item l d :
  redis_client (cache w) = None ->
  memory_cache (cache w) !! cache_key_of request = Some item ->
  utc_clock e (clock_reads w) < expires_at item ->
  data item = Ref l ->
  objects w !! l = Some d ->
  dict_truthy d = true ->
  cached_entry (snd (synthesize_text client e request user_id w))
               (cache_key_of request)
  = Some (refreshed (uuid_gen e (uuid_draws w))
                    (utc_clock e (S (clock_reads w))) d).
Proof.
  intros Hredis Hitem Hnow Hdata Hl Hd.
  rewrite (synthesize_text_hit_run client e request user_id w item l d)
    by assumption.
  unfold cached_entry. simpl. rewrite Hitem. simpl. rewrite Hdata.
  apply list_lookup_insert_eq. by eapply lookup_lt_Some.
Qed.

(** The path of the audio file of a miss *)
Lemma synthesize_miss_returns client e request key w result w2 :
  volcano_client.synthesize_to_file client e
    (text request) (voice_id request)
    (os_path_join settings.AUDIO_FILES_PATH
       ("tts_" +:+ uuid_gen e (uuid_draws w) +:+ "."
          +:+ format_value (format request)))
    (speed request) (volume request) (pitch request)
    (format request) (emotion request) (snd (uuid4 e w))
  = (Ok result, w2) ->
  exists response w3,
    synthesize_miss client e request key w = (Ok response, w3) /\
    response !! "request_id" = Some (PStr (uuid_gen e (uuid_draws w))).
Proof.
  intros Hsyn. unfold synthesize_miss, bind.
  unfold uuid4 at 1. simpl. unfold uuid4 in Hsyn. simpl in Hsyn.
  rewrite Hsyn.
  unfold get_files, utcnow, alloc, pop, bind, get_objects, put_object. simpl.
  rewrite list_lookup_middle by reflexivity.
  match goal with
  | |- context [cache_service.set ?e ?k ?v ?x ?w] =>
      destruct (set_never_raises e k v x w) as (b & w3 & ->)
  end.
  unfold ret. eexists _, _. split; [reflexivity|]. by simplify_map_eq.
Qed.

(** C8.  When the read of the cache raises inside [get], [get] returns
    [None] after counting a miss, and [synthesize_text] continues with
    the miss branch from there, as it does after any miss (lemma
    [synthesize_text_after_miss]).  When the write raises inside [set],
    [set] returns [False]; and whatever the cache does, a synthesis whose
    provider call succeeds returns its response. *)
Theorem cache_failure_never_fails_synthesis
    (client : volcano_client.VolcanoTTSClient) (e : env)
    (request : TTSRequest) (user_id : option string)
    (w w1 : world) (ex : exn) :
  cache_service.get_try e (cache_key_of request) w = (Raise ex, w1) ->
  cache_service.get e (cache_key_of request) w
    = cache_service.count_miss w1 /\
  fst (cache_service.count_miss w1) = Ok (Val PNone) /\
  synthesize_text client e request user_id w
    = try_except (synthesize_miss client e request (cache_key_of request))
                 synthesis_failed (snd (cache_service.count_miss w1)) /\
  (forall key value expire w2 ex2 w3,
     cache_service.set_try e key value expire w2 = (Raise ex2, w3) ->
     cache_service.set e key value expire w2 = (Ok false, w3)) /\
  (forall result w2,
     volcano_client.synthesize_to_file client e
       (text request) (voice_id request)
       (os_path_join settings.AUDIO_FILES_PATH
          ("tts_"
             +:+ uuid_gen e (uuid_draws (snd (cache_service.count_miss w1)))
             +:+ "." +:+ format_value (format request)))
       (speed request) (volume request) (pitch request)
       (format request) (emotion request)
       (snd (uuid4 e (snd (cache_service.count_miss w1))))
     = (Ok result, w2) ->
     exists response w3,
       synthesize_text client e request user_id w = (Ok response, w3)).
Proof.
  intros Htry.
  pose proof (get_absent_when_read_raises _ _ _ _ _ Htry)
    as Hget.
  destruct (count_miss_ok w1) as [wm Hmiss].
  rewrite Hmiss in Hget |- *. simpl.
  pose proof (synthesize_text_after_miss client e request user_id w wm Hget)
    as Htext.
  split; [exact Hget|]. split; [reflexivity|]. split; [exact Htext|].
  split.
  - intros key value expire w2 ex2 w3.
    apply set_false_when_write_raises.
  - intros result w2 Hsyn. rewrite Htext. unfold try_except.
    destruct (synthesize_miss_returns client e request
                (cache_key_of request) wm result w2 Hsyn)
      as (response & w3 & -> & _).
    eauto.
Qed.

End OrchestratorProperties.

(* ================================================================== *)
(** * The entries [synthesize_text] leaves in the cache *)
(* ================================================================== *)

Section CacheEntries.
Context `{Externals}.

Import tts_service.

Lemma dict_truthy_lookup (d : pydict) key v :
  d !! key = Some v -> dict_truthy d = true.
Proof.
  intros Hk. unfold dict_truthy. rewrite bool_decide_eq_false_2; [done|].
  intros ->. by rewrite lookup_empty in Hk.
Qed.

Lemma synthesize_to_file_keeps_cache
    (self : volcano_client.VolcanoTTSClient) (e : env)
    (text voice_type output_path : string)
    (speed_ratio volume_ratio pitch_ratio : float)
    (encoding : audio_format) (emotion : option string) (w : world) :
  cache (snd (volcano_client.synthesize_to_file self e text voice_type
                output_path speed_ratio volume_ratio pitch_ratio encoding
                emotion w)) = cache w /\
  objects (snd (volcano_client.synthesize_to_file self e text voice_type
                  output_path speed_ratio volume_ratio pitch_ratio encoding
                  emotion w)) = objects w.
Proof.
  unfold volcano_client.synthesize_to_file, volcano_client._synthesize_stream,
    volcano_client.collect, try_except, bind, uuid4, utcnow, write_file,
    put_files, ws_send, ret, raise.
  simpl.
  destruct (volcano_client.full_client_request _) as [frame|ex]; simpl;
    [|done].
  destruct (provider e) as [ex|script]; simpl; [done|].
  destruct (volcano_client.recv_loop script) as [chunks [ex|]]; [done|].
  simpl. destruct (open_write e output_path (concat chunks)) as [|ex [n|]];
    done.
Qed.

(** A read that is no hit returns [None], keeps the object store and
    adds nothing to the table. *)
Lemma get_memory_miss (e : env) (w : world) (key : string) :
  redis_client (cache w) = None ->
  (forall item, memory_cache (cache w) !! key = Some item ->
                expires_at item <= utc_clock e (clock_reads w)) ->
  exists w1,
    cache_service.get e key w = (Ok (Val PNone), w1) /\
    redis_client (cache w1) = None /\
    objects w1 = objects w /\
    forall k item, memory_cache (cache w1) !! k = Some item ->
                   memory_cache (cache w) !! k = Some item.
Proof.
  intros Hredis Hexp.
  unfold cache_service.get, cache_service.get_try, cache_service.count_miss,
    cache_service.update_stats, cache_service.update_memory_cache,
    try_except, bind, get_cache, put_cache, utcnow, ret.
  simpl. rewrite Hredis.
  destruct (memory_cache (cache w) !! key) as [item|] eqn:Hitem; simpl.
  - specialize (Hexp item eq_refl).
    destruct (Z.ltb_spec (utc_clock e (clock_reads w)) (expires_at item));
      [lia|].
    simpl. rewrite Hredis. eexists. split; [reflexivity|]. simpl.
    split; [done|]. split; [done|].
    intros k item' Hk. by apply lookup_delete_Some in Hk as [_ Hk].
  - rewrite Hredis. eexists. split; [reflexivity|]. simpl. done.
Qed.

Lemma synthesize_miss_keeps_entries client e request key w :
  redis_client (cache w) = None ->
  entries_are_dicts w ->
  redis_client (cache (snd (synthesize_miss client e request key w))) = None
  /\ entries_are_dicts (snd (synthesize_miss client e request key w)).
Proof.
  intros Hredis Hinv. unfold synthesize_miss, bind.
  unfold uuid4 at 1. simpl.
  match goal with
  | |- context [volcano_client.synthesize_to_file ?c ?e ?t ?v ?p ?a ?b ?g
                  ?f ?m ?w1] =>
      pose proof (synthesize_to_file_keeps_cache c e t v p a b g f m w1)
        as [Hcache Hobjects];
      destruct (volcano_client.synthesize_to_file c e t v p a b g f m w1)
        as [[result|ex] w2]
  end; simpl in Hcache, Hobjects.
  - unfold get_files, utcnow, alloc, pop, bind, get_objects, put_object.
    simpl. rewrite list_lookup_middle by reflexivity.
    match goal with
    | |- context [cache_service.set e key ?v ?x ?w1] =>
        destruct (expiry_of (utc_clock e (clock_reads w1)) x)
          as [expires|ex] eqn:Hexp;
        [rewrite (set_memory e w1 key v x expires)
           by (simpl; by rewrite ?Hcache)
        |rewrite (set_memory_overflow e w1 key v x ex)
           by (simpl; by rewrite ?Hcache)]
    end.
    + unfold ret. simpl. rewrite Hcache, !Hobjects. split; [done|].
      intros k item Hk. apply sweep_lookup in Hk as [Hk _].
      destruct (decide (key = k)) as [->|Hne].
      * rewrite lookup_insert_eq in Hk. injection Hk as <-. simpl.
        eexists _, _. split; [reflexivity|]. split.
        -- apply list_lookup_insert_eq. rewrite length_app. simpl. lia.
        -- apply (dict_truthy_lookup _ "status" (PStr "success")).
           by simplify_map_eq.
      * rewrite lookup_insert_ne in Hk by done.
        destruct (Hinv k item Hk) as (l & d & Hdata & Hl & Hd).
        exists l, d. split; [done|]. split; [|done].
        pose proof (lookup_lt_Some _ _ _ Hl). simpl.
        rewrite list_lookup_insert_ne by lia.
        by apply lookup_app_l_Some.
    + unfold ret. simpl. rewrite Hcache, !Hobjects. split; [done|].
      intros k item Hk.
      destruct (Hinv k item Hk) as (l & d & Hdata & Hl & Hd).
      exists l, d. split; [done|]. split; [|done].
      pose proof (lookup_lt_Some _ _ _ Hl). simpl.
      rewrite list_lookup_insert_ne by lia.
      by apply lookup_app_l_Some.
  - simpl. split; [by rewrite Hcache|].
    intros k item Hk. rewrite Hcache in Hk. rewrite Hobjects. eauto.
Qed.

(** On the in-memory backend, each call of [synthesize_text], whether it
    returns or raises, leaves a cache whose entries are non-empty dicts
    if it started from one; the empty cache is such a cache. *)
Lemma synthesize_text_keeps_entries client e request user_id w :
  redis_client (cache w) = None ->
  entries_are_dicts w ->
  redis_client (cache (snd (synthesize_text client e request user_id w)))
    = None /\
  entries_are_dicts (snd (synthesize_text client e request user_id w)).
Proof.
  intros Hredis Hinv.
  destruct (memory_cache (cache w) !! cache_key_of request) as [item|]
    eqn:Hitem.
  - destruct (Z_lt_le_dec (utc_clock e (clock_reads w)) (expires_at item))
      as [Hnow|Hnow].
    + destruct (Hinv _ _ Hitem) as (l & d & Hdata & Hl & Hd).
      rewrite (synthesize_text_hit_run client e request user_id w item l d)
        by assumption.
      simpl. split; [done|].
      intros k item' Hk. simpl in Hk.
      destruct (Hinv k item' Hk) as (l' & d' & Hdata' & Hl' & Hd').
      destruct (decide (l' = l)) as [->|Hne].
      * eexists l, _. split; [done|]. split.
        -- apply list_lookup_insert_eq. by eapply lookup_lt_Some.
        -- apply (dict_truthy_lookup _ "file_path"
                    (PStr (rebuilt_path (uuid_gen e (uuid_draws w)) d))).
           unfold refreshed. by rewrite lookup_insert_eq.
      * exists l', d'. split; [done|]. split; [|done].
        simpl. by rewrite list_lookup_insert_ne.
    + destruct (get_memory_miss e w (cache_key_of request) Hredis)
        as (w1 & Hget & Hredis1 & Hobj1 & Hsub).
      { intros item' Hitem'. by simplify_eq. }
      rewrite (synthesize_text_after_miss client e request user_id w w1 Hget).
      assert (entries_are_dicts w1) as Hinv1.
      { intros k item' Hk. rewrite Hobj1. eauto. }
      pose proof (synthesize_miss_keeps_entries client e request
                    (cache_key_of request) w1 Hredis1 Hinv1) as Hmiss.
      unfold try_except, synthesis_failed, raise.
      destruct (synthesize_miss client e request (cache_key_of request) w1)
        as [[response|ex] w2]; exact Hmiss.
  - destruct (get_memory_miss e w (cache_key_of request) Hredis)
      as (w1 & Hget & Hredis1 & Hobj1 & Hsub).
    { intros item' Hitem'. by simplify_eq. }
    rewrite (synthesize_text_after_miss client e request user_id w w1 Hget).
    assert (entries_are_dicts w1) as Hinv1.
    { intros k item' Hk. rewrite Hobj1. eauto. }
    pose proof (synthesize_miss_keeps_entries client e request
                  (cache_key_of request) w1 Hredis1 Hinv1) as Hmiss.
    unfold try_except, synthesis_failed, raise.
    destruct (synthesize_miss client e request (cache_key_of request) w1)
      as [[response|ex] w2]; exact Hmiss.
Qed.

(** C4.  When the in-memory cache holds an unexpired entry under the key
    of the request, [synthesize_text] returns a response without any use
    of the provider connection and without writing a file: nothing is
    sent, and the only uuid drawn is the new request id.  The response
    carries this new request id and the path built from it, and its
    voice, format, size and duration are those of the cached entry.  The
    entries of the cache are the non-empty dicts [synthesize_text] puts
    there (lemma [synthesize_text_keeps_entries]). *)
Theorem cache_hit_skips_provider
    (client : volcano_client.VolcanoTTSClient) (e : env)
    (request : TTSRequest) (user_id : option string) (w : world)
    (item : cache_item) :
  redis_client (cache w) = None ->
  entries_are_dicts w ->
  memory_cache (cache w) !! cache_key_of request = Some item ->
  utc_clock e (clock_reads w) < expires_at item ->
  exists d response w',
    cached_entry w (cache_key_of request) = Some d /\
    synthesize_text client e request user_id w = (Ok response, w') /\
    sent w' = sent w /\
    files w' = files w /\
    uuid_draws w' = S (uuid_draws w) /\
    response !! "request_id" = Some (PStr (uuid_gen e (uuid_draws w))) /\
    response !! "file_path"
      = Some (PStr (rebuilt_path (uuid_gen e (uuid_draws w)) d)) /\
    response !! "voice_id" = d !! "voice_id" /\
    response !! "format" = d !! "format" /\
    response !! "file_size" = d !! "file_size" /\
    response !! "duration" = d !! "duration".
Proof.
  intros Hredis Hinv Hitem Hnow.
  destruct (Hinv _ _ Hitem) as (l & d & Hdata & Hl & Hd).
  rewrite (synthesize_text_hit_run client e request user_id w item l d)
    by assumption.
  exists d. eexists _, _.
  split; [unfold cached_entry; rewrite Hitem; simpl; by rewrite Hdata|].
  split; [reflexivity|]. simpl. unfold refreshed.
  repeat split; by simplify_map_eq.
Qed.

End CacheEntries.

(* ================================================================== *)
(** * The properties on concrete runs *)
(* ================================================================== *)

(** C2, as stated, fails: a frame of three bytes is decoded to the
    result of a frame without audio; nothing is raised. *)
Lemma short_frame_raises_nothing :
  (length [x11; xb1; x10]%byte < 4)%nat /\
  volcano_client._parse_response (H := Demo.externals) [x11; xb1; x10]%byte
    = Ok (false, None) /\
  forall ex,
    volcano_client._parse_response (H := Demo.externals) [x11; xb1; x10]%byte
      <> Raise ex.
Proof.
  split; [simpl; lia|]. split; [reflexivity|]. intros ex Hex.
  vm_compute in Hex. discriminate Hex.
Qed.

Lemma short_frame_decodes_to_no_audio_witness :
  volcano_client._parse_response (H := Demo.externals) [x11; xb1; x10]%byte
    = Ok (false, None).
Proof.
  apply (short_frame_decodes_to_no_audio (H := Demo.externals)).
  simpl. lia.
Defined.

(** C1, as stated, fails: one chunk and then a timeout.  The stream ends
    without an exception and [synthesize_to_file] returns a result with
    status "success" for the two bytes received. *)
Lemma timeout_is_not_reported :
  ends_before_terminal (H := Demo.externals)
    (RecvMsg Demo.chunk_1 RecvTimeout) = true /\
  volcano_client.recv_loop (H := Demo.externals)
    (RecvMsg Demo.chunk_1 RecvTimeout) = ([[x41; x42]%byte], None) /\
  fst (volcano_client.synthesize_to_file (H := Demo.externals)
         Demo.client Demo.env_timeout "hello" "v1" "out.mp3" 0 0 0
         (FormatStr "mp3") None Demo.world0)
    = Ok {| volcano_client.sr_request_id := "uuid-0";
            volcano_client.sr_file_path := "out.mp3";
            volcano_client.sr_file_size := 2;
            volcano_client.sr_synthesis_time := 100000;
            volcano_client.sr_created_at := "0";
            volcano_client.sr_status := "success" |} /\
  forall ex,
    fst (volcano_client.synthesize_to_file (H := Demo.externals)
           Demo.client Demo.env_timeout "hello" "v1" "out.mp3" 0 0 0
           (FormatStr "mp3") None Demo.world0)
      <> Raise ex.
Proof.
  split; [reflexivity|]. split; [reflexivity|].
  split; [vm_compute; reflexivity|].
  intros ex Hex. vm_compute in Hex. discriminate Hex.
Qed.

Lemma timeout_before_terminal_witness :
  snd (volcano_client.recv_loop (H := Demo.externals)
         (RecvMsg Demo.chunk_1 RecvTimeout)) = None /\
  exists result w',
    volcano_client.synthesize_to_file (H := Demo.externals)
      Demo.client Demo.env_timeout "hello" "v1" "out.mp3" 0 0 0
      (FormatStr "mp3") None Demo.world0 = (Ok result, w') /\
    volcano_client.sr_status result = "success" /\
    volcano_client.sr_file_size result
      = Z.of_nat (length (concat (fst (volcano_client.recv_loop
                                         (H := Demo.externals)
                                         (RecvMsg Demo.chunk_1 RecvTimeout)))))
    /\
    files w'
      = <["out.mp3" := concat (fst (volcano_client.recv_loop
                                      (H := Demo.externals)
                                      (RecvMsg Demo.chunk_1 RecvTimeout)))]>
          (files Demo.world0).
Proof.
  apply (timeout_before_terminal_ends_stream_normally (H := Demo.externals)
           Demo.client Demo.env_timeout (RecvMsg Demo.chunk_1 RecvTimeout)
           "hello" "v1" "out.mp3" 0 0 0 (FormatStr "mp3") None Demo.world0
           Demo.frame_hello).
  - reflexivity.
  - vm_compute. reflexivity.
  - vm_compute. reflexivity.
  - reflexivity.
Defined.

(** C7, as stated, fails: the frame with code 45000 and message
    "invalid text" surfaces as a plain [Exception] with one text; a
    refused connection whose text reads the same raises the very same
    exception, so the caller has nothing but the text to tell a provider
    error by; and when the message of the frame is no UTF-8, the
    exception is the one of the decoding behind the prefix, and carries
    neither code nor message. *)
Lemma error_frame_raises_plain_exception :
  fst (volcano_client.synthesize_to_file (H := Demo.externals)
         Demo.client Demo.env_error "hello" "v1" "out.mp3" 0 0 0
         (FormatStr "mp3") None Demo.world0)
    = Raise (Exn Exception "语音合成失败: TTS API错误 45000: invalid text") /\
  fst (volcano_client.synthesize_to_file (H := Demo.externals)
         Demo.client Demo.env_refused "hello" "v1" "out.mp3" 0 0 0
         (FormatStr "mp3") None Demo.world0)
    = Raise (Exn Exception "语音合成失败: TTS API错误 45000: invalid text") /\
  error_code Demo.garbled_error = 45000 /\
  exists cause,
    str_utf8 (drop 8 (payload Demo.garbled_error)) = Raise cause /\
    fst (volcano_client.synthesize_to_file (H := Demo.externals)
           Demo.client Demo.env_garbled_error "hello" "v1" "out.mp3" 0 0 0
           (FormatStr "mp3") None Demo.world0)
      = Raise (Exn Exception ("语音合成失败: " +:+ exn_str cause)).
Proof.
  split; [vm_compute; reflexivity|]. split; [vm_compute; reflexivity|].
  split; [vm_compute; reflexivity|].
  eexists. split; vm_compute; reflexivity.
Qed.

(** The error frame with code 45000 and message "invalid text" *)
Lemma error_frame_aborts_synthesis_witness :
  exists ex w',
    volcano_client.synthesize_to_file (H := Demo.externals)
      Demo.client Demo.env_error "hello" "v1" "out.mp3" 0 0 0
      (FormatStr "mp3") None Demo.world0 = (Raise ex, w') /\
    files w' = files Demo.world0 /\
    exn_cls ex = Exception /\
    exn_str ex = "语音合成失败: TTS API错误 45000: invalid text".
Proof.
  destruct (error_frame_aborts_synthesis (H := Demo.externals)
              Demo.client Demo.env_error
              (RecvMsg Demo.chunk_1 (RecvMsg Demo.invalid_text RecvTimeout))
              Demo.invalid_text "hello" "v1" "out.mp3" 0 0 0
              (FormatStr "mp3") None Demo.world0 Demo.frame_hello)
    as (ex & w' & Hrun & Hfiles & Hcls & Hstr).
  - reflexivity.
  - apply (received_later _ (Some [x41; x42]%byte)).
    + vm_compute. reflexivity.
    + apply received_first.
  - vm_compute. lia.
  - vm_compute. reflexivity.
  - vm_compute. reflexivity.
  - exists ex, w'. split; [exact Hrun|]. split; [exact Hfiles|].
    split; [exact Hcls|]. rewrite Hstr. vm_compute. reflexivity.
Defined.

(** The registry of the examples is the built-in list: the emotion voice
    of the specification is in it, "generic_voice_01" is not. *)
Example emotion_included_for_emotion_voice :
  request_emotion
    (volcano_client.request_json Demo.client "r" "u" "hello"
       "zh_female_shuangkuaisisi_emo_v2_mars_bigtts" 0 0 0
       (FormatStr "mp3") (Some "happy")) = Some (JStr "happy").
Proof. vm_compute. reflexivity. Qed.

Example emotion_omitted_for_generic_voice :
  request_emotion
    (volcano_client.request_json Demo.client "r" "u" "hello"
       "generic_voice_01" 0 0 0 (FormatStr "mp3") (Some "happy")) = None.
Proof. vm_compute. reflexivity. Qed.

(** Two requests that differ in bitrate, sample rate and the spelling of
    the neutral emotion, the keyword arguments listed backwards *)
Lemma cache_key_deterministic_witness :
  cache_service.generate_cache_key (H := Demo.externals) "tts"
    (rev (tts_service.cache_kwargs Demo.request_hello))
  = tts_service.cache_key_of (H := Demo.externals) Demo.request_hello'.
Proof.
  apply (cache_key_deterministic (H := Demo.externals)
           Demo.request_hello Demo.request_hello');
    try reflexivity.
  symmetry. apply Permutation_rev.
Defined.

(** The specification's example: [set(key, value, ttl=1s)], then a read
    at 0.5 s gives the value and a read at 1.1 s gives [None] and removes
    the entry. *)
Lemma get_respects_expiry_witness :
  fst (cache_service.get (H := Demo.externals)
         (Demo.env_clock [0; 0; 500000] Demo.RecvTimeout_conn) "k"
         Demo.world_set) = Ok (Val (PStr "v")) /\
  fst (cache_service.get (H := Demo.externals)
         (Demo.env_clock [0; 0; 1100000] Demo.RecvTimeout_conn) "k"
         Demo.world_set) = Ok (Val PNone) /\
  memory_cache
    (cache (snd (cache_service.get (H := Demo.externals)
                   (Demo.env_clock [0; 0; 1100000] Demo.RecvTimeout_conn)
                   "k" Demo.world_set))) !! "k" = None.
Proof.
  destruct (get_respects_expiry (H := Demo.externals)
              (Demo.env_clock [0; 0; 500000] Demo.RecvTimeout_conn)
              Demo.world_set "k" (CacheItem (Val (PStr "v")) 1000000))
    as [Hbefore _]; [reflexivity|vm_compute; reflexivity|].
  destruct (get_respects_expiry (H := Demo.externals)
              (Demo.env_clock [0; 0; 1100000] Demo.RecvTimeout_conn)
              Demo.world_set "k" (CacheItem (Val (PStr "v")) 1000000))
    as [_ Hafter]; [reflexivity|vm_compute; reflexivity|].
  split; [apply Hbefore; vm_compute; reflexivity|].
  destruct Hafter as (Hnone & Hgone & _); [vm_compute; discriminate|].
  split; [exact Hnone|exact Hgone].
Defined.

(** A write into a table that holds a stale entry *)
Lemma set_leaves_only_unexpired_witness :
  clock_reads
    (snd (cache_service.set (H := Demo.externals)
            (Demo.env_clock [10; 10] Demo.RecvTimeout_conn) "k"
            (Val (PStr "v")) (Some 1) Demo.world_stale)) = 2%nat /\
  forall k item,
    memory_cache
      (cache (snd (cache_service.set (H := Demo.externals)
                     (Demo.env_clock [10; 10] Demo.RecvTimeout_conn) "k"
                     (Val (PStr "v")) (Some 1) Demo.world_stale)))
      !! k = Some item ->
    10 < expires_at item.
Proof.
  apply (set_leaves_only_unexpired (H := Demo.externals)
           (Demo.env_clock [10; 10] Demo.RecvTimeout_conn) Demo.world_stale).
  - reflexivity.
  - vm_compute. reflexivity.
Defined.

(** A second synthesis of the same request within the TTL *)
Lemma cache_hit_skips_provider_witness :
  exists response w',
    tts_service.synthesize_text (H := Demo.externals) Demo.client
      Demo.env_two_chunks Demo.request_hello None Demo.world1
    = (Ok response, w') /\
    sent w' = sent Demo.world1 /\
    files w' = files Demo.world1 /\
    response !! "request_id" = Some (PStr "uuid-3") /\
    response !! "file_path" = Some (PStr "./audio_files/tts_uuid-3.mp3") /\
    response !! "voice_id" = Some (PStr "v1") /\
    response !! "format" = Some (PFormat (FormatStr "mp3")) /\
    response !! "file_size" = Some (PInt 3) /\
    response !! "duration" = Some (PFloat 3).
Proof.
  destruct (cache_hit_skips_provider (H := Demo.externals) Demo.client
              Demo.env_two_chunks Demo.request_hello None Demo.world1
              (CacheItem (Ref 0%nat) 3600300000))
    as (d & response & w' & Hd & Hrun & Hsent & Hfiles & _ & Hid & Hpath
        & Hvoice & Hformat & Hsize & Hduration).
  - reflexivity.
  - apply (synthesize_text_keeps_entries (H := Demo.externals) Demo.client
             Demo.env_two_chunks Demo.request_hello None Demo.world0);
      [reflexivity|].
    intros key item Hkey. vm_compute in Hkey. discriminate Hkey.
  - vm_compute. reflexivity.
  - vm_compute. reflexivity.
  - assert (forall field,
              cached_entry Demo.world1
                (tts_service.cache_key_of (H := Demo.externals)
                   Demo.request_hello) ≫= (.!! field)
              = d !! field) as Hfield
      by (intros field; rewrite Hd; reflexivity).
    exists response, w'. split; [exact Hrun|].
    split; [exact Hsent|]. split; [exact Hfiles|].
    split; [rewrite Hid; vm_compute; reflexivity|].
    split.
    { rewrite Hpath. unfold rebuilt_path. rewrite <- Hfield.
      vm_compute. reflexivity. }
    split; [rewrite Hvoice, <- Hfield; vm_compute; reflexivity|].
    split; [rewrite Hformat, <- Hfield; vm_compute; reflexivity|].
    split; [rewrite Hsize, <- Hfield; vm_compute; reflexivity|].
    rewrite Hduration, <- Hfield. vm_compute. reflexivity.
Defined.

(** The Redis server is down: the read raises inside [get]. *)
Lemma cache_failure_never_fails_synthesis_witness :
  cache_service.get (H := Demo.externals) Demo.env_two_chunks
    (tts_service.cache_key_of (H := Demo.externals) Demo.request_hello)
    Demo.world_redis_down
  = cache_service.count_miss Demo.world_redis_down /\
  exists response w',
    tts_service.synthesize_text (H := Demo.externals) Demo.client
      Demo.env_two_chunks Demo.request_hello None Demo.world_redis_down
    = (Ok response, w').
Proof.
  destruct (cache_failure_never_fails_synthesis (H := Demo.externals)
              Demo.client Demo.env_two_chunks Demo.request_hello None
              Demo.world_redis_down Demo.world_redis_down
              Demo.connection_exn)
    as (Hget & _ & _ & _ & Hok); [reflexivity|].
  split; [exact Hget|].
  eapply Hok. vm_compute. reflexivity.
Defined.

(** C9.  The code keeps [file_path] out of the entry only until the
    first hit.  After a first synthesis of a request the cached entry has
    a [file_url] and no [file_path].  A second synthesis of the same
    request is a hit: its response has a [file_path] built from the new
    request id, at which no file exists, and the [file_url] of the first
    synthesis.  But the hit assigns [request_id], [created_at] and
    [file_path] on the very dict the cache holds, so the cached entry now
    contains this [file_path]. *)
Theorem cache_hit_leaves_file_path_in_entry :
  cached_entry Demo.world1
    (tts_service.cache_key_of (H := Demo.externals) Demo.request_hello)
    ≫= (.!! "file_path") = None /\
  cached_entry Demo.world1
    (tts_service.cache_key_of (H := Demo.externals) Demo.request_hello)
    ≫= (.!! "file_url") = Some (PStr "/audio/tts_uuid-0.mp3") /\
  response_field
    (fst (tts_service.synthesize_text (H := Demo.externals) Demo.client
            Demo.env_two_chunks Demo.request_hello None Demo.world1))
    "file_path" = Some (PStr "./audio_files/tts_uuid-3.mp3") /\
  response_field
    (fst (tts_service.synthesize_text (H := Demo.externals) Demo.client
            Demo.env_two_chunks Demo.request_hello None Demo.world1))
    "file_url" = Some (PStr "/audio/tts_uuid-0.mp3") /\
  files Demo.world2 !! "./audio_files/tts_uuid-3.mp3" = None /\
  cached_entry Demo.world2
    (tts_service.cache_key_of (H := Demo.externals) Demo.request_hello)
    ≫= (.!! "file_path") = Some (PStr "./audio_files/tts_uuid-3.mp3").
Proof.
  repeat split; vm_compute; reflexivity.
Qed.

(* ================================================================== *)
(** * More on frames and the receive loop *)
(* ================================================================== *)

Section FrameProperties.
Context `{Externals}.

Import volcano_client.

Lemma byte_val_range (b : byte) : 0 <= byte_val b < 256.
Proof.
  unfold byte_val. pose proof (Byte.to_N_bounded b). lia.
Qed.

Lemma fold_from_bytes (bs : bytes) (acc : Z) :
  fold_left (fun acc b => acc * 256 + byte_val b) bs acc
  = acc * 256 ^ Z.of_nat (length bs) + from_bytes_unsigned bs.
Proof.
  unfold from_bytes_unsigned. revert acc.
  induction bs as [|b bs IH]; intros acc; cbn [fold_left length].
  - simpl. lia.
  - rewrite IH, (IH (0 * 256 + byte_val b)).
    replace (Z.of_nat (S (length bs))) with (Z.succ (Z.of_nat (length bs)))
      by lia.
    rewrite Z.pow_succ_r by lia. ring.
Qed.

Lemma from_bytes_unsigned_cons (b : byte) (bs : bytes) :
  from_bytes_unsigned (b :: bs)
  = byte_val b * 256 ^ Z.of_nat (length bs) + from_bytes_unsigned bs.
Proof.
  unfold from_bytes_unsigned at 1. cbn [fold_left].
  rewrite fold_from_bytes. lia.
Qed.

Lemma from_bytes_unsigned_range (bs : bytes) :
  0 <= from_bytes_unsigned bs < 256 ^ Z.of_nat (length bs).
Proof.
  induction bs as [|b bs IH].
  - unfold from_bytes_unsigned. simpl. lia.
  - rewrite from_bytes_unsigned_cons.
    pose proof (byte_val_range b).
    replace (Z.of_nat (length (b :: bs)))
      with (Z.succ (Z.of_nat (length bs))) by (simpl; lia).
    rewrite Z.pow_succ_r by lia.
    assert (0 < 256 ^ Z.of_nat (length bs)) by (apply Z.pow_pos_nonneg; lia).
    nia.
Qed.

Lemma pow_256 (n : Z) : 0 <= n -> 256 ^ n = 2 ^ (8 * n).
Proof.
  intros Hn. change 256 with (2 ^ 8). by rewrite <- Z.pow_mul_r by lia.
Qed.

Lemma testbit_top_byte (b0 r k : Z) :
  0 <= k -> 0 <= b0 < 256 -> 0 <= r < 2 ^ k ->
  Z.testbit (b0 * 2 ^ k + r) (k + 7) = (128 <=? b0).
Proof.
  intros Hk Hb Hr.
  replace (k + 7) with (7 + k) by lia.
  rewrite <- Z.div_pow2_bits by lia.
  assert (0 < 2 ^ k) by (apply Z.pow_pos_nonneg; lia).
  replace ((b0 * 2 ^ k + r) / 2 ^ k) with b0
    by (apply Z.div_unique with r; lia).
  rewrite Z.testbit_odd, Z.shiftr_div_pow2 by lia.
  change (2 ^ 7) with 128.
  destruct (Z.leb_spec 128 b0) as [Hge|Hlt].
  - replace (b0 / 128) with 1
      by (apply Z.div_unique with (b0 - 128); lia).
    reflexivity.
  - rewrite Z.div_small by lia. reflexivity.
Qed.

(** The sign of [int.from_bytes(bs, "big", signed=True)] is decided by the
    first byte alone. *)
Lemma int_from_bytes_negative (bs : bytes) :
  int_from_bytes bs true < 0
  <-> exists b0 rest, bs = b0 :: rest /\ 128 <= byte_val b0.
Proof.
  unfold int_from_bytes. cbn [andb].
  destruct bs as [|b0 rest].
  - unfold from_bytes_unsigned. simpl. split; [lia|].
    intros (b & r & Heq & _). discriminate.
  - pose proof (from_bytes_unsigned_range (b0 :: rest)) as Hall.
    pose proof (from_bytes_unsigned_range rest) as Hrest.
    pose proof (byte_val_range b0) as Hb0.
    rewrite from_bytes_unsigned_cons in Hall |- *.
    rewrite (pow_256 (Z.of_nat (length (b0 :: rest)))) in Hall by lia.
    rewrite (pow_256 (Z.of_nat (length rest))) in Hall, Hrest |- * by lia.
    replace (8 * Z.of_nat (length (b0 :: rest)) - 1)
      with (8 * Z.of_nat (length rest) + 7) by (simpl; lia).
    rewrite testbit_top_byte by lia.
    destruct (Z.leb_spec 128 (byte_val b0)) as [Hge|Hlt].
    + split; [eauto|]. intros _. lia.
    + split; [lia|]. intros (b & r & [= <- <-] & Hge). lia.
Qed.

Lemma parse_audio_frame response :
  (4 <= length response)%nat ->
  message_type response = 0xb ->
  message_flags response <> 0 ->
  _parse_response response
  = Ok (int_from_bytes (take 4 (payload response)) true <? 0,
        Some (drop 8 (payload response))).
Proof.
  intros Hlen Hty Hflags. unfold _parse_response.
  destruct (Nat.ltb_spec (length response) 4) as [Hlt|_]; [lia|].
  fold (message_type response). rewrite Hty. simpl.
  fold (message_flags response).
  destruct (Z.eqb_spec (message_flags response) 0) as [Heq|_]; [done|].
  reflexivity.
Qed.

(** X2.  An audio frame with data ends the stream exactly when its
    payload is not empty and the first payload byte is at least [0x80];
    this holds also for payloads shorter than the four bytes of a
    sequence number.  Its audio is the payload from the ninth byte on. *)
Theorem audio_frame_terminal_iff_first_byte (response : bytes) :
  (4 <= length response)%nat ->
  message_type response = 0xb ->
  message_flags response <> 0 ->
  exists done,
    _parse_response response = Ok (done, Some (drop 8 (payload response)))
    /\ (done = true
        <-> exists b0 rest,
              payload response = b0 :: rest /\ 128 <= byte_val b0).
Proof.
  intros Hlen Hty Hflags. eexists. split.
  - by apply parse_audio_frame.
  - rewrite Z.ltb_lt, int_from_bytes_negative. split.
    + intros (b0 & rest & Htake & Hb0).
      destruct (payload response) as [|b r]; [discriminate|].
      injection Htake as -> _. eauto.
    + intros (b0 & rest & -> & Hb0). simpl. eauto.
Qed.

(** X3.  The receive loop never yields an empty chunk. *)
Theorem recv_loop_yields_no_empty_chunk (script : recv_script) :
  Forall (fun chunk => chunk <> []) (fst (recv_loop script)).
Proof.
  assert (forall audio_chunk,
            Forall (fun chunk : bytes => chunk <> []) (yield_if audio_chunk))
    as Hyield.
  { intros [[|b c]|]; simpl; repeat constructor. done. }
  induction script as [response rest IH| |]; simpl; try constructor.
  destruct (_parse_response response) as [[done audio_chunk]|ex].
  - destruct done; simpl; [apply Hyield|].
    destruct (recv_loop rest) as [chunks ending]. simpl in *.
    apply Forall_app. split; [apply Hyield|exact IH].
  - destruct (_ || _); constructor.
Qed.

(** X4.  Once a terminal chunk has arrived, nothing that follows is
    read: the run of the loop is the same whatever comes after it. *)
Theorem nothing_read_after_terminal_chunk
    (frames : list bytes) (last : bytes) (chunk : option bytes)
    (tail1 tail2 : recv_script) :
  _parse_response last = Ok (true, chunk) ->
  recv_loop (script_of (frames ++ [last]) tail1)
  = recv_loop (script_of (frames ++ [last]) tail2).
Proof.
  intros Hlast. unfold script_of.
  induction frames as [|frame frames IH]; simpl.
  - by rewrite Hlast.
  - destruct (_parse_response frame) as [[[] audio_chunk]|ex]; try done.
    by rewrite IH.
Qed.

Lemma byte_of_small (x : Z) :
  0 <= x < 256 ->
  byte_val match Byte.of_N (Z.to_N x) with
           | Some b => b
           | None => x00%byte
           end = x.
Proof.
  intros Hx. destruct (Byte.of_N (Z.to_N x)) as [b|] eqn:Hb.
  - apply Byte.to_of_N in Hb. unfold byte_val. rewrite Hb. lia.
  - apply Byte.of_N_None_iff in Hb. lia.
Qed.

Lemma to_bytes4_round_trip (n : Z) :
  0 <= n < 2 ^ 32 ->
  exists bs, to_bytes4 n = Ok bs /\ length bs = 4%nat
             /\ int_from_bytes bs false = n.
Proof.
  intros Hn. unfold to_bytes4.
  destruct (Z.ltb_spec n (2 ^ 32)) as [_|Hge]; [|lia].
  eexists. split; [reflexivity|]. split; [reflexivity|].
  unfold int_from_bytes, from_bytes_unsigned. cbn [andb map fold_left].
  change 255 with (Z.ones 8).
  rewrite !byte_of_small
    by (rewrite Z.land_ones by lia; apply Z.mod_pos_bound; lia).
  rewrite !Z.land_ones, !Z.shiftr_div_pow2 by lia.
  change (2 ^ 0) with 1. change (2 ^ 8) with 256.
  change (2 ^ 16) with 65536. change (2 ^ 24) with 16777216.
  change (2 ^ 32) with 4294967296 in Hn.
  Z.div_mod_to_equations. lia.
Qed.

(** X1.  A request whose compressed payload is shorter than 2^32 bytes is
    framed as the four header bytes [11 10 11 00], the length of the
    payload as four big-endian bytes, and the payload: reading the length
    field back gives the length of what follows it. *)
Theorem request_frame_layout (request_json : request_object) :
  Z.of_nat (length (gzip_compress
                      (bytes_of_string (json_dumps request_json)))) < 2 ^ 32 ->
  exists frame,
    full_client_request request_json = Ok frame /\
    take 4 frame = default_header /\
    drop 8 frame = gzip_compress (bytes_of_string (json_dumps request_json))
    /\ int_from_bytes (take 4 (drop 4 frame)) false
       = Z.of_nat (length (drop 8 frame)).
Proof.
  intros Hlen. unfold full_client_request.
  destruct (to_bytes4_round_trip
              (Z.of_nat (length (gzip_compress
                                   (bytes_of_string (json_dumps request_json))))))
    as (size & -> & Hsize & Hvalue); [lia|].
  simpl. eexists. split; [reflexivity|].
  destruct size as [|s0 [|s1 [|s2 [|s3 [|]]]]]; try discriminate.
  simpl. done.
Qed.

End FrameProperties.

(* ================================================================== *)
(** * More on the client *)
(* ================================================================== *)

Section ClientRuns.
Context `{Externals}.

Import volcano_client.

Ltac run_client :=
  unfold synthesize_to_file, _synthesize_stream, collect, try_except, bind,
    uuid4, utcnow, write_file, put_files, ws_send, ret, raise;
  simpl.


Lemma synthesize_to_file_ok_inv
    (self : VolcanoTTSClient) (e : env)
    (text voice_type output_path : string)
    (speed_ratio volume_ratio pitch_ratio : float)
    (encoding : audio_format) (emotion : option string)
    (w w' : world) (result : synthesis_result) :
  synthesize_to_file self e text voice_type output_path speed_ratio
                     volume_ratio pitch_ratio encoding emotion w
    = (Ok result, w') ->
  exists script content,
    provider e = Connected script /\
    content = concat (fst (recv_loop script)) /\
    files w' = <[output_path := content]> (files w) /\
    sr_file_size result = Z.of_nat (length content) /\
    sr_file_path result = output_path /\
    sr_status result = "success" /\
    sr_request_id result = uuid_gen e (uuid_draws w) /\
    length (sent w') = S (length (sent w)) /\
    uuid_draws w' = S (S (uuid_draws w)).
Proof.
  run_client.
  destruct (full_client_request _) as [frame|ex0]; simpl; [|discriminate].
  destruct (provider e) as [ex0|script]; simpl; [discriminate|].
  destruct (recv_loop script) as [chunks [ex0|]] eqn:Hloop; simpl;
    [discriminate|].
  destruct (open_write e output_path (concat chunks)) as [|ex0 [n|]];
    simpl; [|discriminate..].
  intros [= <- <-]. simpl. exists script, (concat chunks).
  rewrite Hloop. repeat split. rewrite length_app. simpl. lia.
Qed.


(** X6.  Whenever [synthesize_to_file] returns, the file at the output
    path holds exactly [file_size] bytes, the chunks of the receive loop
    in order; no other file is touched; one frame has been sent; the
    request id of the result is the first of the two uuids drawn. *)
Theorem synthesize_to_file_success_writes_file
    (self : VolcanoTTSClient) (e : env)
    (text voice_type output_path : string)
    (speed_ratio volume_ratio pitch_ratio : float)
    (encoding : audio_format) (emotion : option string)
    (w w' : world) (result : synthesis_result) :
  synthesize_to_file self e text voice_type output_path speed_ratio
                     volume_ratio pitch_ratio encoding emotion w
    = (Ok result, w') ->
  exists script content,
    provider e = Connected script /\
    content = concat (fst (recv_loop script)) /\
    files w' = <[output_path := content]> (files w) /\
    sr_file_size result = Z.of_nat (length content) /\
    sr_file_path result = output_path /\
    sr_status result = "success" /\
    sr_request_id result = uuid_gen e (uuid_draws w) /\
    length (sent w') = S (length (sent w)) /\
    uuid_draws w' = S (S (uuid_draws w)).
Proof. apply synthesize_to_file_ok_inv. Qed.


(** X8.  The list of emotion voices is never empty after a reload: a
    configuration that gives no voice at all, like a missing or
    unreadable one, brings the five built-in voices back. *)
Theorem reload_never_empties_emotion_voices
    (self : VolcanoTTSClient) (config : option (result (list string))) :
  emotion_voices (reload_emotion_voices self config) <> [] /\
  ((forall voices, config = Some (Ok voices) -> voices = []) ->
   forall voice_type,
     supports_emotion (reload_emotion_voices self config) voice_type = true
     <-> voice_type ∈ _get_default_emotion_voices).
Proof.
  unfold supports_emotion, reload_emotion_voices, _load_emotion_voices.
  simpl. split.
  - destruct config as [[[|v l]|ex]|]; done.
  - intros Hnone voice_type. rewrite bool_decide_eq_true.
    destruct config as [[[|v l]|ex]|]; try done.
    by specialize (Hnone (v :: l) eq_refl).
Qed.

End ClientRuns.

(* ================================================================== *)
(** * More on the cache *)
(* ================================================================== *)

Section CacheOperations.
Context `{Externals}.

Import cache_service.

Ltac run_cache :=
  unfold get, get_try, count_miss, loads, set, set_try, delete_,
    clear_pattern, _cleanup_expired_memory_cache, update_stats,
    update_memory_cache, try_except, bind, lift, get_cache, put_cache,
    get_objects, utcnow, alloc, ret;
  simpl.

(** X9.  On the in-memory backend every [get] counts exactly once: it
    adds one to [hits] when the key has an unexpired entry and one to
    [misses] otherwise, and leaves the other counters alone. *)
Theorem get_counts_each_read_once (e : env) (w : world) (key : string) :
  redis_client (cache w) = None ->
  hits (cache_stats (cache (snd (get e key w))))
    + misses (cache_stats (cache (snd (get e key w))))
    = hits (cache_stats (cache w)) + misses (cache_stats (cache w)) + 1 /\
  sets (cache_stats (cache (snd (get e key w))))
    = sets (cache_stats (cache w)) /\
  deletes (cache_stats (cache (snd (get e key w))))
    = deletes (cache_stats (cache w)) /\
  (hits (cache_stats (cache (snd (get e key w))))
     = hits (cache_stats (cache w)) + 1
   <-> exists item, memory_cache (cache w) !! key = Some item
                    /\ utc_clock e (clock_reads w) < expires_at item).
Proof.
  intros Hredis. run_cache. rewrite Hredis.
  destruct (memory_cache (cache w) !! key) as [item|]; simpl.
  - destruct (Z.ltb_spec (utc_clock e (clock_reads w)) (expires_at item));
      simpl.
    + repeat split; try lia. eauto.
    + repeat split; try lia. intros (item' & [= <-] & Hlt). lia.
  - repeat split; try lia. intros (item' & [=] & _).
Qed.

(** X10.  On the Redis backend a value that is found but cannot be
    decoded is counted twice, as a hit and as a miss, and [get] returns
    [None]. *)
Theorem get_counts_undecodable_value_twice (e : env) (w : world)
    (key : string) (redis : RedisClient) (cached_data : string) (ex : exn) :
  redis_client (cache w) = Some redis ->
  redis_get redis key = Ok (Some cached_data) ->
  cached_data <> "" ->
  json_loads cached_data = Raise ex ->
  fst (get e key w) = Ok (Val PNone) /\
  hits (cache_stats (cache (snd (get e key w))))
    = hits (cache_stats (cache w)) + 1 /\
  misses (cache_stats (cache (snd (get e key w))))
    = misses (cache_stats (cache w)) + 1.
Proof.
  intros Hredis Hget Hne Hloads. run_cache. rewrite Hredis, Hget. simpl.
  destruct cached_data as [|c s]; [done|]. simpl. rewrite Hloads. simpl.
  done.
Qed.

Lemma expiry_of_Ok (now : datetime) (expire : option Z) (expires : datetime) :
  expiry_of now expire = Ok expires ->
  expires = now + expire_or_default expire * 1000000 /\
  in_datetime_range expires.
Proof.
  unfold expiry_of, volcano_client.rbind, timedelta_seconds, datetime_add,
    in_datetime_range.
  destruct (_ && _); [|discriminate].
  destruct (Z.leb_spec 0 (now + expire_or_default expire * 1000000));
    [|discriminate].
  destruct (Z.leb_spec (now + expire_or_default expire * 1000000)
                       datetime_max); [|discriminate].
  simpl. intros [= <-]. lia.
Qed.

(** X11.  A value written with [set] is read back by [get] as long as
    the clock has not reached the expiry [set] computed: the time of the
    write plus the effective lifetime, a value in the range of
    [datetime]. *)
Theorem get_after_set_returns_value (e : env) (w : world) (key : string)
    (value : pyobj) (expire : option Z) (expires : datetime) :
  redis_client (cache w) = None ->
  expiry_of (utc_clock e (clock_reads w)) expire = Ok expires ->
  utc_clock e (S (clock_reads w)) < expires ->
  utc_clock e (S (S (clock_reads w))) < expires ->
  expires = utc_clock e (clock_reads w) + expire_or_default expire * 1000000
  /\ fst (set e key value expire w) = Ok true
  /\ fst (get e key (snd (set e key value expire w))) = Ok value.
Proof.
  intros Hredis Hexp Hsweep Hread.
  split; [by apply expiry_of_Ok in Hexp as [? _]|].
  rewrite (set_memory e w key value expire expires Hredis Hexp). simpl.
  split; [reflexivity|].
  rewrite (get_memory_hit e _ key {| data := value; expires_at := expires |});
    [reflexivity|reflexivity| |exact Hread].
  simpl. apply sweep_lookup. split; [|exact Hsweep].
  apply lookup_insert_eq.
Qed.

(** X12.  With a negative lifetime, on a clock that does not run
    backwards, [set] stores nothing.  When the expiry, a time before the
    write, lies in the range of [datetime], [set] returns [True] and the
    key has no entry afterwards: the write is swept at once, and an
    earlier entry under the key is gone with it.  When it does not,
    [set] returns [False] and the table is as it was. *)
Theorem set_with_negative_expire_stores_nothing (e : env) (w : world)
    (key : string) (value : pyobj) (n : Z) :
  redis_client (cache w) = None ->
  n < 0 ->
  utc_clock e (clock_reads w) <= utc_clock e (S (clock_reads w)) ->
  match expiry_of (utc_clock e (clock_reads w)) (Some n) with
  | Ok _ =>
      fst (set e key value (Some n) w) = Ok true /\
      memory_cache (cache (snd (set e key value (Some n) w))) !! key = None
  | Raise _ =>
      fst (set e key value (Some n) w) = Ok false /\
      memory_cache (cache (snd (set e key value (Some n) w)))
        = memory_cache (cache w)
  end.
Proof.
  intros Hredis Hn Hclock.
  destruct (expiry_of (utc_clock e (clock_reads w)) (Some n))
    as [expires|ex] eqn:Hexp.
  - rewrite (set_memory e w key value (Some n) expires Hredis Hexp). simpl.
    split; [reflexivity|].
    match goal with
    | |- ?m !! key = None => destruct (m !! key) as [item|] eqn:Hitem
    end; [|reflexivity].
    apply sweep_lookup in Hitem as [Hitem Hlt].
    rewrite lookup_insert_eq in Hitem. injection Hitem as <-. simpl in Hlt.
    apply expiry_of_Ok in Hexp as [-> _]. unfold expire_or_default in Hlt.
    destruct (Z.eqb_spec n 0); lia.
  - rewrite (set_memory_overflow e w key value (Some n) ex Hredis Hexp).
    done.
Qed.

(** X13.  A lifetime of [0], like no lifetime, means the configured
    default of 3600 seconds, not an immediate expiry: the entry is stored
    with the expiry an hour after the write, a time in the range of
    [datetime]. *)
Theorem set_with_zero_expire_uses_default (e : env) (w : world)
    (key : string) (value : pyobj) (expire : option Z) :
  redis_client (cache w) = None ->
  expire = None \/ expire = Some 0 ->
  in_datetime_range (utc_clock e (clock_reads w) + 3600000000) ->
  utc_clock e (S (clock_reads w))
    < utc_clock e (clock_reads w) + 3600000000 ->
  memory_cache (cache (snd (set e key value expire w))) !! key
  = Some {| data := value;
            expires_at := utc_clock e (clock_reads w) + 3600000000 |}.
Proof.
  intros Hredis Hexp Hrange Hsweep.
  assert (expiry_of (utc_clock e (clock_reads w)) expire
          = Ok (utc_clock e (clock_reads w) + 3600000000)) as Hexpiry.
  { rewrite <- (expiry_of_default _ Hrange).
    destruct Hexp as [-> | ->]; reflexivity. }
  rewrite (set_memory e w key value expire _ Hredis Hexpiry). simpl.
  apply sweep_lookup. split; [apply lookup_insert_eq|exact Hsweep].
Qed.

(** X14.  A [set] that returns [True] keeps every other entry that has
    not expired at the sweep, unchanged, and adds none; a [set] that
    returns [False] leaves the table as it was, expired entries
    included. *)
Theorem set_keeps_other_unexpired_entries (e : env) (w : world)
    (key : string) (value : pyobj) (expire : option Z)
    (k : string) (item : cache_item) :
  redis_client (cache w) = None ->
  k <> key ->
  (fst (set e key value expire w) = Ok true ->
   (memory_cache (cache (snd (set e key value expire w))) !! k = Some item
    <-> memory_cache (cache w) !! k = Some item
        /\ utc_clock e (S (clock_reads w)) < expires_at item)) /\
  (fst (set e key value expire w) = Ok false ->
   memory_cache (cache (snd (set e key value expire w)))
   = memory_cache (cache w)).
Proof.
  intros Hredis Hne.
  destruct (expiry_of (utc_clock e (clock_reads w)) expire)
    as [expires|ex] eqn:Hexp.
  - rewrite (set_memory e w key value expire expires Hredis Hexp). simpl.
    split; [|discriminate]. intros _.
    rewrite sweep_lookup, lookup_insert_ne by done. reflexivity.
  - rewrite (set_memory_overflow e w key value expire ex Hredis Hexp). simpl.
    split; [discriminate|done].
Qed.

(** X15.  On the in-memory backend [delete] returns [True] whether or
    not the key had an entry, removes that entry and no other, counts one
    delete, and a [get] of the key that follows is a miss. *)
Theorem delete_removes_only_the_key (e : env) (redis : RedisKeyCommands)
    (w : world) (key : string) :
  redis_client (cache w) = None ->
  fst (delete_ redis key w) = Ok true /\
  memory_cache (cache (snd (delete_ redis key w)))
    = base.delete key (memory_cache (cache w)) /\
  deletes (cache_stats (cache (snd (delete_ redis key w))))
    = deletes (cache_stats (cache w)) + 1 /\
  fst (get e key (snd (delete_ redis key w))) = Ok (Val PNone).
Proof.
  intros Hredis. run_cache. rewrite Hredis. simpl. rewrite Hredis. simpl.
  rewrite lookup_delete_eq. done.
Qed.

Lemma size_delete_keys (keys : list string) (m : gmap string cache_item) :
  NoDup keys ->
  (forall k, k ∈ keys -> is_Some (m !! k)) ->
  (size (delete_keys keys m) + length keys)%nat = size m.
Proof.
  revert m. induction keys as [|key keys IH]; intros m Hnd Hin.
  - simpl. lia.
  - apply NoDup_cons in Hnd as [Hkey Hnd].
    assert (forall k, k ∈ keys -> is_Some (base.delete key m !! k)) as Hin'.
    { intros k Hk. rewrite lookup_delete_ne by (intros ->; done).
      apply Hin. by right. }
    specialize (IH (base.delete key m) Hnd Hin').
    rewrite map_size_delete_Some in IH by (apply Hin; left).
    assert (size m <> 0%nat) as Hpos.
    { intros Hz. apply map_size_empty_iff in Hz. subst m.
      destruct (Hin key) as [x Hx]; [left|]. by rewrite lookup_empty in Hx. }
    unfold delete_keys in *. simpl. lia.
Qed.

(** X16.  On the in-memory backend [clear_pattern] removes exactly the
    keys that match the pattern, and the number it returns is the number
    of entries the table lost. *)
Theorem clear_pattern_removes_matching_keys
    (fnmatch : string -> string -> bool) (redis : RedisKeyCommands)
    (w : world) (pattern : string) :
  redis_client (cache w) = None ->
  exists deleted_count,
    fst (clear_pattern fnmatch redis pattern w) = Ok deleted_count /\
    (forall k,
       memory_cache (cache (snd (clear_pattern fnmatch redis pattern w))) !! k
       = if fnmatch k pattern then None else memory_cache (cache w) !! k) /\
    Z.of_nat (size (memory_cache
                      (cache (snd (clear_pattern fnmatch redis pattern w)))))
      + deleted_count
    = Z.of_nat (size (memory_cache (cache w))).
Proof.
  intros Hredis. run_cache. rewrite Hredis. simpl.
  eexists. split; [reflexivity|].
  assert (forall k,
            k ∈ filter (fun key => fnmatch key pattern = true)
                       (fst <$> map_to_list (memory_cache (cache w)))
            <-> fnmatch k pattern = true
                /\ is_Some (memory_cache (cache w) !! k)) as Hkeys.
  { intros k. rewrite list_elem_of_filter, list_elem_of_fmap. split.
    - intros [Hm ([k' item] & -> & Hin)]. split; [done|].
      apply elem_of_map_to_list in Hin. eauto.
    - intros [Hm [item Hk]]. split; [done|]. exists (k, item).
      split; [done|]. by apply elem_of_map_to_list. }
  split.
  - intros k. rewrite delete_keys_lookup.
    case_bool_decide as Hin.
    + apply Hkeys in Hin as [-> _]. reflexivity.
    + destruct (fnmatch k pattern) eqn:Hm; [|reflexivity].
      destruct (memory_cache (cache w) !! k) as [item|] eqn:Hk; [|done].
      destruct Hin. apply Hkeys. eauto.
  - rewrite <- (size_delete_keys
                  (filter (fun key => fnmatch key pattern = true)
                          (fst <$> map_to_list (memory_cache (cache w))))
                  (memory_cache (cache w))).
    + lia.
    + apply NoDup_filter, NoDup_fst_map_to_list.
    + intros k Hk. by apply Hkeys in Hk as [_ Hk].
Qed.

End CacheOperations.

(* ================================================================== *)
(** * More on the orchestrator *)
(* ================================================================== *)

Section OrchestratorRuns.
Context `{Externals}.

Import tts_service.

Lemma string_app_cons (ch : ascii) (a b : string) :
  String ch a +:+ b = String ch (a +:+ b).
Proof. reflexivity. Qed.

Lemma string_app_assoc (a b c : string) :
  (a +:+ b) +:+ c = a +:+ (b +:+ c).
Proof.
  induction a as [|ch a IH]; [reflexivity|].
  by rewrite !string_app_cons, IH.
Qed.

Lemma string_app_length (a b : string) :
  String.length (a +:+ b) = (String.length a + String.length b)%nat.
Proof.
  induction a as [|ch a IH]; [reflexivity|].
  rewrite string_app_cons. simpl. by rewrite IH.
Qed.

(** X17.  The key string joins the parameters with ["|"] without
    escaping, so two requests with different texts and voices have the
    same cache key when the text of one ends with what looks like the
    voice entry of the other. *)
Theorem cache_key_collision (r1 r2 : TTSRequest) (x y z : string) :
  text r1 = x +:+ "|voice_id:" +:+ y ->
  voice_id r1 = z ->
  text r2 = x ->
  voice_id r2 = y +:+ "|voice_id:" +:+ z ->
  speed r1 = speed r2 ->
  volume r1 = volume r2 ->
  pitch r1 = pitch r2 ->
  format r1 = format r2 ->
  emotion r1 = emotion r2 ->
  text r1 <> text r2 /\ cache_key_of r1 = cache_key_of r2.
Proof.
  intros Ht1 Hv1 Ht2 Hv2 Hs Hvol Hp Hf He. split.
  - rewrite Ht1, Ht2. intros Heq.
    apply (f_equal String.length) in Heq.
    rewrite string_app_length in Heq. simpl in Heq. lia.
  - unfold cache_key_of, cache_service.generate_cache_key, cache_kwargs.
    rewrite Ht1, Hv1, Ht2, Hv2, Hs, Hvol, Hp, Hf, He. simpl.
    rewrite !string_app_assoc. reflexivity.
Qed.

(** ** Runs of [synthesize_text] *)

Lemma get_memory_absent (e : env) (w : world) (key : string) :
  redis_client (cache w) = None ->
  memory_cache (cache w) !! key = None ->
  cache_service.get e key w
  = (Ok (Val PNone),
     World {| redis_client := None;
              memory_cache := memory_cache (cache w);
              cache_stats :=
                cache_service.incr_misses (cache_stats (cache w)) |}
           (objects w) (files w) (sent w) (clock_reads w) (uuid_draws w)).
Proof.
  intros Hredis Hkey.
  unfold cache_service.get, cache_service.get_try, cache_service.count_miss,
    cache_service.update_stats, try_except, bind, get_cache, put_cache,
    utcnow, ret.
  simpl. rewrite Hredis, Hkey. simpl. rewrite Hredis. reflexivity.
Qed.



(** What a miss does when the provider answers, the audio can be
    written and the expiry of the entry is in range: the explicit run. *)
Lemma synthesize_miss_run client e request key w script frame :
  redis_client (cache w) = None ->
  provider e = Connected script ->
  snd (volcano_client.recv_loop script) = None ->
  volcano_client.full_client_request
    (volcano_client.request_json client
       (uuid_gen e (S (uuid_draws w))) (uuid_gen e (S (S (uuid_draws w))))
       (text request) (voice_id request) (speed request) (volume request)
       (pitch request) (format request) (emotion request))
    = Ok frame ->
  open_write e (audio_file_path (uuid_gen e (uuid_draws w)) (format request))
             (concat (fst (volcano_client.recv_loop script))) = WriteOk ->
  in_datetime_range (utc_clock e (3 + clock_reads w) + 3600000000) ->
  exists response w',
    synthesize_miss client e request key w = (Ok response, w') /\
    response !! "request_id" = Some (PStr (uuid_gen e (uuid_draws w))) /\
    response !! "text" = Some (PStr (text request)) /\
    response !! "voice_id" = Some (PStr (voice_id request)) /\
    response !! "file_path"
      = Some (PStr (audio_file_path (uuid_gen e (uuid_draws w))
                                    (format request))) /\
    response !! "file_url"
      = Some (PStr ("/audio/"
                      +:+ audio_file_name (uuid_gen e (uuid_draws w))
                                          (format request))) /\
    response !! "file_size"
      = Some (PInt (Z.of_nat
                      (length (concat (fst (volcano_client.recv_loop
                                              script)))))) /\
    response !! "status" = Some (PStr "success") /\
    redis_client (cache w') = None /\
    memory_cache (cache w')
      = (let t0 := utc_clock e (3 + clock_reads w) in
         let t1 := utc_clock e (4 + clock_reads w) in
         let m := <[key := CacheItem (Ref (length (objects w)))
                              (t0 + 3600000000)]>
                    (memory_cache (cache w)) in
         cache_service.delete_keys (cache_service.expired_keys t1 m) m) /\
    objects w' = objects w ++ [base.delete "file_path" response] /\
    files w'
      = <[audio_file_path (uuid_gen e (uuid_draws w)) (format request)
          := concat (fst (volcano_client.recv_loop script))]> (files w) /\
    sent w' = sent w ++ [frame] /\
    clock_reads w' = (5 + clock_reads w)%nat /\
    uuid_draws w' = (3 + uuid_draws w)%nat.
Proof.
  intros Hredis Hprov Hend Hframe Hwrite Hrange.
  unfold synthesize_miss, bind. unfold uuid4 at 1. simpl.
  unfold volcano_client.synthesize_to_file,
    volcano_client._synthesize_stream, volcano_client.collect, try_except,
    bind, uuid4, utcnow, write_file, put_files, ws_send, ret, raise.
  simpl. rewrite Hframe, Hprov.
  destruct (volcano_client.recv_loop script) as [chunks ending].
  simpl in Hend, Hwrite. subst ending. simpl.
  unfold audio_file_path, audio_file_name in Hwrite. simpl in Hwrite.
  rewrite Hwrite. simpl.
  unfold get_files, utcnow, alloc, pop, bind, get_objects, put_object.
  simpl. rewrite list_lookup_middle by reflexivity.
  erewrite set_memory; [|exact Hredis|apply expiry_of_default; exact Hrange].
  unfold ret. simpl. eexists _, _. split; [reflexivity|].
  unfold audio_file_path, audio_file_name.
  repeat split; try (by simplify_map_eq).
  rewrite insert_app_r_alt, Nat.sub_diag by reflexivity. reflexivity.
Qed.

(** The whole first synthesis of a request whose key has no entry *)
Lemma synthesize_text_miss_run client e request user_id w script frame :
  redis_client (cache w) = None ->
  memory_cache (cache w) !! cache_key_of request = None ->
  provider e = Connected script ->
  snd (volcano_client.recv_loop script) = None ->
  volcano_client.full_client_request
    (volcano_client.request_json client
       (uuid_gen e (S (uuid_draws w))) (uuid_gen e (S (S (uuid_draws w))))
       (text request) (voice_id request) (speed request) (volume request)
       (pitch request) (format request) (emotion request))
    = Ok frame ->
  open_write e (audio_file_path (uuid_gen e (uuid_draws w)) (format request))
             (concat (fst (volcano_client.recv_loop script))) = WriteOk ->
  in_datetime_range (utc_clock e (3 + clock_reads w) + 3600000000) ->
  exists response w',
    synthesize_text client e request user_id w = (Ok response, w') /\
    response !! "request_id" = Some (PStr (uuid_gen e (uuid_draws w))) /\
    response !! "text" = Some (PStr (text request)) /\
    response !! "voice_id" = Some (PStr (voice_id request)) /\
    response !! "file_path"
      = Some (PStr (audio_file_path (uuid_gen e (uuid_draws w))
                                    (format request))) /\
    response !! "file_url"
      = Some (PStr ("/audio/"
                      +:+ audio_file_name (uuid_gen e (uuid_draws w))
                                          (format request))) /\
    response !! "file_size"
      = Some (PInt (Z.of_nat
                      (length (concat (fst (volcano_client.recv_loop
                                              script)))))) /\
    response !! "status" = Some (PStr "success") /\
    redis_client (cache w') = None /\
    memory_cache (cache w')
      = (let t0 := utc_clock e (3 + clock_reads w) in
         let t1 := utc_clock e (4 + clock_reads w) in
         let m := <[cache_key_of request
                    := CacheItem (Ref (length (objects w)))
                                 (t0 + 3600000000)]>
                    (memory_cache (cache w)) in
         cache_service.delete_keys (cache_service.expired_keys t1 m) m) /\
    objects w' = objects w ++ [base.delete "file_path" response] /\
    files w'
      = <[audio_file_path (uuid_gen e (uuid_draws w)) (format request)
          := concat (fst (volcano_client.recv_loop script))]> (files w) /\
    sent w' = sent w ++ [frame] /\
    clock_reads w' = (5 + clock_reads w)%nat /\
    uuid_draws w' = (3 + uuid_draws w)%nat.
Proof.
  intros Hredis Hkey Hprov Hend Hframe Hwrite Hrange.
  rewrite (synthesize_text_after_miss client e request user_id w _
             (get_memory_absent e w _ Hredis Hkey)).
  unfold try_except.
  match goal with
  | |- context [synthesize_miss client e request ?k ?w1] =>
      destruct (synthesize_miss_run client e request k w1 script frame)
        as (response & w' & -> & Hrest);
        [done|done|done|exact Hframe|exact Hwrite|exact Hrange|]
  end.
  exists response, w'. split; [reflexivity|exact Hrest].
Qed.


(** X19.  A first synthesis whose provider call succeeds and whose audio
    can be written writes the audio received to
    [AUDIO_FILES_PATH/tts_<request id>.<format>], the path it returns
    with the size of that audio; it sends one frame; and, the expiry of
    an hour being in the range of [datetime] and the clock not having run
    an hour ahead between the write of the entry and the sweep, the cache
    then holds under the key of the request the response without its
    [file_path]. *)
Theorem first_synthesis_stores_file_and_entry
    (client : volcano_client.VolcanoTTSClient) (e : env)
    (request : TTSRequest) (user_id : option string) (w : world)
    (script : recv_script) (frame : bytes) :
  redis_client (cache w) = None ->
  memory_cache (cache w) !! cache_key_of request = None ->
  provider e = Connected script ->
  snd (volcano_client.recv_loop script) = None ->
  volcano_client.full_client_request
    (volcano_client.request_json client
       (uuid_gen e (S (uuid_draws w))) (uuid_gen e (S (S (uuid_draws w))))
       (text request) (voice_id request) (speed request) (volume request)
       (pitch request) (format request) (emotion request))
    = Ok frame ->
  open_write e (audio_file_path (uuid_gen e (uuid_draws w)) (format request))
             (concat (fst (volcano_client.recv_loop script))) = WriteOk ->
  in_datetime_range (utc_clock e (3 + clock_reads w) + 3600000000) ->
  utc_clock e (4 + clock_reads w)
    < utc_clock e (3 + clock_reads w) + 3600000000 ->
  exists response,
    fst (synthesize_text client e request user_id w) = Ok response /\
    response !! "file_path"
      = Some (PStr (audio_file_path (uuid_gen e (uuid_draws w))
                                    (format request))) /\
    response !! "file_size"
      = Some (PInt (Z.of_nat
                      (length (concat (fst (volcano_client.recv_loop
                                              script)))))) /\
    files (snd (synthesize_text client e request user_id w))
      = <[audio_file_path (uuid_gen e (uuid_draws w)) (format request)
          := concat (fst (volcano_client.recv_loop script))]> (files w) /\
    sent (snd (synthesize_text client e request user_id w))
      = sent w ++ [frame] /\
    cached_entry (snd (synthesize_text client e request user_id w))
                 (cache_key_of request)
      = Some (base.delete "file_path" response).
Proof.
  intros Hredis Hkey Hprov Hend Hframe Hwrite Hrange Hsweep.
  destruct (synthesize_text_miss_run client e request user_id w script frame
              Hredis Hkey Hprov Hend Hframe Hwrite Hrange)
    as (response & w' & -> & _ & _ & _ & Hpath & _ & Hsize & _ & _ & Hmem
        & Hobj & Hfiles & Hsent & _).
  exists response. simpl. split; [reflexivity|].
  split; [exact Hpath|]. split; [exact Hsize|].
  split; [exact Hfiles|]. split; [exact Hsent|].
  unfold cached_entry. rewrite Hmem. cbv zeta.
  erewrite (proj2 (sweep_lookup _ _ _ _)).
  2:{ split; [apply lookup_insert_eq|exact Hsweep]. }
  simpl. rewrite Hobj. by apply list_lookup_middle.
Qed.

(** X20.  A request that follows a successful first synthesis within the
    lifetime of its entry, with the same cache key, is answered from the
    cache: no frame is sent and no file is written, the request id is
    new, and every other field of the response except [created_at] and
    [file_path] is the one of the first response; the [text] is the text
    of the first request even when the second request has another. *)
Theorem second_request_repeats_first_response
    (client : volcano_client.VolcanoTTSClient) (e : env)
    (request request2 : TTSRequest) (user_id user_id2 : option string)
    (w : world) (script : recv_script) (frame : bytes) :
  redis_client (cache w) = None ->
  memory_cache (cache w) !! cache_key_of request = None ->
  provider e = Connected script ->
  snd (volcano_client.recv_loop script) = None ->
  volcano_client.full_client_request
    (volcano_client.request_json client
       (uuid_gen e (S (uuid_draws w))) (uuid_gen e (S (S (uuid_draws w))))
       (text request) (voice_id request) (speed request) (volume request)
       (pitch request) (format request) (emotion request))
    = Ok frame ->
  open_write e (audio_file_path (uuid_gen e (uuid_draws w)) (format request))
             (concat (fst (volcano_client.recv_loop script))) = WriteOk ->
  in_datetime_range (utc_clock e (3 + clock_reads w) + 3600000000) ->
  cache_key_of request2 = cache_key_of request ->
  utc_clock e (4 + clock_reads w)
    < utc_clock e (3 + clock_reads w) + 3600000000 ->
  utc_clock e (5 + clock_reads w)
    < utc_clock e (3 + clock_reads w) + 3600000000 ->
  sent (snd (synthesize_text client e request2 user_id2
               (snd (synthesize_text client e request user_id w))))
    = sent (snd (synthesize_text client e request user_id w)) /\
  files (snd (synthesize_text client e request2 user_id2
                (snd (synthesize_text client e request user_id w))))
    = files (snd (synthesize_text client e request user_id w)) /\
  response_field
    (fst (synthesize_text client e request2 user_id2
            (snd (synthesize_text client e request user_id w))))
    "request_id"
    = Some (PStr (uuid_gen e (3 + uuid_draws w))) /\
  response_field
    (fst (synthesize_text client e request2 user_id2
            (snd (synthesize_text client e request user_id w))))
    "text"
    = Some (PStr (text request)) /\
  forall field,
    field <> "request_id" -> field <> "created_at" ->
    field <> "file_path" ->
    response_field
      (fst (synthesize_text client e request2 user_id2
              (snd (synthesize_text client e request user_id w))))
      field
    = response_field (fst (synthesize_text client e request user_id w))
                     field.
Proof.
  intros Hredis Hkey Hprov Hend Hframe Hwrite Hrange Hsame Hsweep Hread.
  destruct (synthesize_text_miss_run client e request user_id w script frame
              Hredis Hkey Hprov Hend Hframe Hwrite Hrange)
    as (response & w' & -> & _ & Htext & _ & _ & _ & _ & Hstatus & Hredis'
        & Hmem & Hobj & _ & _ & Hclock & Hdraws).
  simpl.
  rewrite (synthesize_text_hit_run client e request2 user_id2 w'
             (CacheItem (Ref (length (objects w)))
                        (utc_clock e (3 + clock_reads w) + 3600000000))
             (length (objects w)) (base.delete "file_path" response)).
  - simpl. rewrite Hdraws. unfold refreshed.
    split; [reflexivity|]. split; [reflexivity|].
    split; [by simplify_map_eq|].
    split; [by simplify_map_eq|].
    intros field Hid Hcreated Hpath. by simplify_map_eq.
  - exact Hredis'.
  - rewrite Hsame, Hmem. cbv zeta. apply sweep_lookup.
    split; [apply lookup_insert_eq|exact Hsweep].
  - rewrite Hclock. exact Hread.
  - reflexivity.
  - rewrite Hobj. by apply list_lookup_middle.
  - apply (dict_truthy_lookup _ "status" (PStr "success")).
    by simplify_map_eq.
Qed.


End OrchestratorRuns.

(* ================================================================== *)
(** * The voice list *)
(* ================================================================== *)

Section VoiceList.

Import tts_service.

Lemma find_voice_Some voice_id voices voice :
  find_voice voice_id voices = Some voice ->
  voice ∈ voices /\ vi_id voice = voice_id.
Proof.
  induction voices as [|v voices IH]; simpl; [discriminate|].
  destruct (String.eqb_spec (vi_id v) voice_id) as [Heq|Hne].
  - intros [= <-]. split; [left|exact Heq].
  - intros Hfind. destruct (IH Hfind). split; [by right|done].
Qed.

Lemma find_voice_None voice_id voices :
  find_voice voice_id voices = None
  <-> forall voice, voice ∈ voices -> vi_id voice <> voice_id.
Proof.
  induction voices as [|v voices IH]; simpl.
  - split; [|done]. intros _ voice Hin. by apply elem_of_nil in Hin.
  - destruct (String.eqb_spec (vi_id v) voice_id) as [Heq|Hne].
    + split; [discriminate|]. intros Hall. destruct (Hall v); [left|done].
    + rewrite IH. split.
      * intros Hall voice Hin. apply elem_of_cons in Hin as [->|Hin]; auto.
      * intros Hall voice Hin. apply Hall. by right.
Qed.

Lemma find_in_categories_Some voice_id cats voice :
  find_in_categories voice_id cats = Some voice ->
  vi_id voice = voice_id /\
  exists cat, cat ∈ cats /\ voice ∈ vc_voices cat.
Proof.
  induction cats as [|c cats IH]; simpl; [discriminate|].
  destruct (find_voice voice_id (vc_voices c)) as [v|] eqn:Hfind.
  - intros [= <-]. apply find_voice_Some in Hfind as [Hin Hid].
    split; [exact Hid|]. exists c. split; [left|exact Hin].
  - intros Hrest. destruct (IH Hrest) as (Hid & cat & Hcat & Hin).
    split; [exact Hid|]. exists cat. split; [by right|exact Hin].
Qed.

Lemma find_in_categories_None voice_id cats :
  find_in_categories voice_id cats = None
  <-> forall cat voice,
        cat ∈ cats -> voice ∈ vc_voices cat -> vi_id voice <> voice_id.
Proof.
  induction cats as [|c cats IH]; simpl.
  - split; [|done]. intros _ cat voice Hin. by apply elem_of_nil in Hin.
  - destruct (find_voice voice_id (vc_voices c)) as [v|] eqn:Hfind.
    + split; [discriminate|]. intros Hall.
      apply find_voice_Some in Hfind as [Hin Hid].
      destruct (Hall c v); [left|done|done].
    + rewrite IH. split.
      * intros Hall cat voice Hcat Hin.
        apply elem_of_cons in Hcat as [->|Hcat]; [|eauto].
        by apply (proj1 (find_voice_None voice_id (vc_voices c)) Hfind).
      * intros Hall cat voice Hcat. apply Hall. by right.
Qed.

Lemma listed_category_is_loaded config _voice_cache category cat :
  cat ∈ vl_categories (fst (get_voice_list config _voice_cache category)) ->
  cat ∈ categories (ensure_loaded config _voice_cache).
Proof.
  unfold get_voice_list. simpl.
  destruct category as [name|]; [|done].
  destruct (str_truthy name); [|done].
  intros Hin. by apply list_elem_of_filter in Hin as [_ Hin].
Qed.

Lemma total_voices_length (cats : list VoiceCategory) :
  total_voices cats = Z.of_nat (length (concat (vc_voices <$> cats))).
Proof.
  induction cats as [|cat cats IH]; [reflexivity|].
  unfold total_voices in *. simpl.
  rewrite IH, length_app, Nat2Z.inj_add. reflexivity.
Qed.

Lemma total_voices_filter (P : VoiceCategory -> Prop)
    `{forall cat, Decision (P cat)} (cats : list VoiceCategory) :
  0 <= total_voices (filter P cats) <= total_voices cats.
Proof.
  assert (forall c l, total_voices (c :: l)
                      = Z.of_nat (length (vc_voices c)) + total_voices l)
    as Hcons by reflexivity.
  induction cats as [|cat cats IH]; [unfold total_voices; simpl; lia|].
  rewrite filter_cons.
  destruct (decide (P cat)); rewrite ?Hcons; lia.
Qed.

(** X22.  [get_voice_info] returns a voice of the loaded data that has
    the requested id, and it returns [None] exactly when no voice of any
    loaded category has that id; [get_voice_name] gives the name of that
    same voice. *)
Theorem get_voice_info_finds_requested_id
    (config : option (result voice_document))
    (_voice_cache : option voice_cache_t) (voice_id : string) :
  (forall voice,
     fst (get_voice_info config _voice_cache voice_id) = Some voice ->
     vi_id voice = voice_id /\
     fst (get_voice_name config _voice_cache voice_id)
       = Some (vi_name voice) /\
     exists cat, cat ∈ categories (ensure_loaded config _voice_cache)
                 /\ voice ∈ vc_voices cat) /\
  (fst (get_voice_info config _voice_cache voice_id) = None
   <-> forall cat voice,
         cat ∈ categories (ensure_loaded config _voice_cache) ->
         voice ∈ vc_voices cat -> vi_id voice <> voice_id).
Proof.
  unfold get_voice_name, get_voice_info. simpl. split.
  - intros voice Hfind. rewrite Hfind. simpl.
    apply find_in_categories_Some in Hfind as [Hid Hcat].
    split; [exact Hid|]. split; [reflexivity|exact Hcat].
  - apply find_in_categories_None.
Qed.

(** X23.  Every voice of a listing can be looked up by its id afterwards,
    and the data is loaded once: the lookup uses what the listing left in
    [_voice_cache], whatever the configuration file has become since. *)
Theorem listed_voice_is_found
    (config config' : option (result voice_document))
    (_voice_cache : option voice_cache_t) (category : option string)
    (cat : VoiceCategory) (voice : VoiceInfo) :
  cat ∈ vl_categories (fst (get_voice_list config _voice_cache category)) ->
  voice ∈ vc_voices cat ->
  exists found,
    fst (get_voice_info config'
           (snd (get_voice_list config _voice_cache category))
           (vi_id voice)) = Some found /\
    vi_id found = vi_id voice /\
    fst (get_voice_name config'
           (snd (get_voice_list config _voice_cache category))
           (vi_id voice)) = Some (vi_name found).
Proof.
  intros Hcat Hvoice. apply listed_category_is_loaded in Hcat.
  unfold get_voice_name, get_voice_info, get_voice_list. simpl.
  destruct (find_in_categories (vi_id voice)
              (categories (ensure_loaded config _voice_cache)))
    as [found|] eqn:Hfind.
  - exists found. split; [reflexivity|]. split; [|reflexivity].
    by apply find_in_categories_Some in Hfind as [Hid _].
  - exfalso.
    by apply (proj1 (find_in_categories_None _ _) Hfind cat voice).
Qed.

(** X24.  A listing filtered by a category name holds exactly the loaded
    categories of that name; its count is the number of the voices
    listed, and is at most the count of the unfiltered listing.  An empty
    name is no filter. *)
Theorem get_voice_list_filters_by_name
    (config : option (result voice_document))
    (_voice_cache : option voice_cache_t) (name : string) :
  name <> "" ->
  (forall cat,
     cat ∈ vl_categories
             (fst (get_voice_list config _voice_cache (Some name)))
     <-> cat ∈ categories (ensure_loaded config _voice_cache)
         /\ vc_name cat = name) /\
  vl_total_count (fst (get_voice_list config _voice_cache (Some name)))
    = Z.of_nat
        (length (concat
                   (vc_voices
                      <$> vl_categories
                            (fst (get_voice_list config _voice_cache
                                                 (Some name)))))) /\
  0 <= vl_total_count (fst (get_voice_list config _voice_cache (Some name)))
    <= vl_total_count (fst (get_voice_list config _voice_cache None)) /\
  get_voice_list config _voice_cache (Some "")
    = get_voice_list config _voice_cache None.
Proof.
  intros Hname. unfold get_voice_list. simpl.
  destruct name as [|c name]; [done|]. simpl.
  split.
  { intros cat. rewrite list_elem_of_filter. tauto. }
  split; [apply total_voices_length|].
  split; [apply total_voices_filter|reflexivity].
Qed.

(** ** Loading the voice document *)

Lemma make_voices_complete (items : list voice_item) :
  forallb complete_item items = true ->
  exists voices,
    make_voices items = Some voices /\
    Forall2 voice_of_item items voices.
Proof.
  induction items as [|item items IH]; simpl.
  - intros _. exists []. split; [reflexivity|constructor].
  - intros Hall. apply andb_prop in Hall as [Hitem Hall].
    destruct (IH Hall) as (voices & -> & Hvoices).
    unfold complete_item in Hitem. unfold make_voice.
    destruct (item_id item) as [id|] eqn:Hid,
      (item_name item) as [name|] eqn:Hname,
      (item_description item) as [description|] eqn:Hdescription,
      (item_category item) as [category|] eqn:Hcategory,
      (item_language item) as [language|] eqn:Hlanguage;
      simpl in Hitem; try discriminate Hitem.
    simpl. eexists. split; [reflexivity|].
    constructor; [|exact Hvoices].
    unfold voice_of_item. simpl.
    rewrite Hid, Hname, Hdescription, Hcategory, Hlanguage. done.
Qed.

Lemma make_voices_incomplete (items : list voice_item) :
  forallb complete_item items = false -> make_voices items = None.
Proof.
  induction items as [|item items IH]; simpl; [discriminate|].
  intros Hall. apply andb_false_iff in Hall as [Hitem|Hall].
  - unfold complete_item in Hitem. unfold make_voice.
    destruct (item_id item), (item_name item), (item_description item),
      (item_category item), (item_language item);
      simpl in *; try reflexivity;
      rewrite ?bool_decide_eq_true_2 in Hitem by eauto; discriminate.
  - rewrite (IH Hall). by destruct (make_voice item).
Qed.

Lemma make_category_presets presets category_name info :
  make_category presets category_name info
  = (voices ← make_voices (presets_of presets category_name);
     description ← info_description info;
     icon ← info_icon info;
     color ← info_color info;
     Some {| vc_name := category_name;
             vc_description := description;
             vc_icon := icon;
             vc_color := color;
             vc_special := default false (info_special info);
             vc_voices := voices |}).
Proof.
  unfold make_category, presets_of.
  by destruct (presets !! category_name).
Qed.

Lemma make_categories_complete presets declared :
  complete_categories presets declared = true ->
  exists cats,
    make_categories presets declared = Some cats /\
    Forall2 (category_of_entry presets) declared cats.
Proof.
  unfold complete_categories.
  induction declared as [|[category_name info] declared IH]; simpl.
  - intros _. exists []. split; [reflexivity|constructor].
  - intros Hall. apply andb_prop in Hall as [Hentry Hall].
    apply andb_prop in Hentry as [Hinfo Hitems].
    destruct (IH Hall) as (cats & -> & Hcats).
    destruct (make_voices_complete _ Hitems) as (voices & Hmake & Hvoices).
    unfold complete_info in Hinfo.
    rewrite make_category_presets, Hmake.
    destruct (info_description info) as [description|] eqn:Hdescription,
      (info_icon info) as [icon|] eqn:Hicon,
      (info_color info) as [color|] eqn:Hcolor;
      simpl in Hinfo; try discriminate Hinfo.
    simpl. eexists. split; [reflexivity|].
    constructor; [|exact Hcats].
    unfold category_of_entry. simpl.
    rewrite Hdescription, Hicon, Hcolor. done.
Qed.

Lemma make_categories_incomplete presets declared :
  complete_categories presets declared = false ->
  make_categories presets declared = None.
Proof.
  unfold complete_categories.
  induction declared as [|[category_name info] declared IH]; simpl;
    [discriminate|].
  intros Hall. apply andb_false_iff in Hall as [Hentry|Hall].
  - rewrite make_category_presets.
    apply andb_false_iff in Hentry as [Hinfo|Hitems].
    + unfold complete_info in Hinfo.
      destruct (make_voices _); [|reflexivity]. simpl.
      destruct (info_description info), (info_icon info), (info_color info);
        simpl in *; try reflexivity;
        rewrite ?bool_decide_eq_true_2 in Hinfo by eauto; discriminate.
    + by rewrite (make_voices_incomplete _ Hitems).
  - rewrite (IH Hall). by destruct (make_category presets category_name info).
Qed.

(** X25.  A document in which every declared category and every preset
    listed under a declared category has its required fields is loaded as
    it stands.  The loaded categories are the declared ones, one for one
    and in the order of the document, each with the name, description,
    icon and colour of its entry and with [special] false when the entry
    has none; the voices of a category are the presets listed under its
    name, one for one and in order, each with the id, name, description,
    category and language of its preset, its tags (none when the preset
    has none) and its emotions; the emotion voices are those of the
    document. *)
Theorem complete_document_is_loaded_in_order (doc : voice_document) :
  complete_document doc = true ->
  Forall2 (category_of_entry (voice_presets doc)) (voice_categories doc)
          (categories (_load_voice_data (Some (Ok doc)))) /\
  cached_emotion_voices (_load_voice_data (Some (Ok doc)))
    = doc_emotion_voices doc.
Proof.
  intros Hdoc. unfold _load_voice_data.
  destruct (make_categories_complete _ _ Hdoc) as (cats & -> & Hcats).
  simpl. split; [exact Hcats|reflexivity].
Qed.

(** X26.  One declared category, or one preset under a declared category,
    that lacks a required field discards the whole document: the loader
    falls back to the single built-in category with the default voice,
    and no emotion voices. *)
Theorem incomplete_document_gives_fallback (doc : voice_document) :
  complete_document doc = false ->
  _load_voice_data (Some (Ok doc)) = _get_fallback_voice_data /\
  forall voice_id,
    is_Some (fst (get_voice_info (Some (Ok doc)) None voice_id))
    <-> voice_id = settings.DEFAULT_VOICE_ID.
Proof.
  intros Hdoc. unfold get_voice_info, ensure_loaded, _load_voice_data.
  rewrite (make_categories_incomplete _ _ Hdoc).
  split; [reflexivity|]. intros voice_id.
  cbn [fst categories _get_fallback_voice_data find_in_categories find_voice
       vc_voices vi_id].
  destruct (String.eqb_spec settings.DEFAULT_VOICE_ID voice_id) as [<-|Hne].
  - split; [done|eauto].
  - split; [intros [v [=]]|intros ->; done].
Qed.

End VoiceList.

(* ================================================================== *)
(** * The further properties on concrete runs *)
(* ================================================================== *)

(** The frame of the request for "hello" *)
Lemma request_frame_layout_witness :
  exists frame,
    volcano_client.full_client_request (H := Demo.externals)
      (volcano_client.request_json Demo.client "uuid-0" "uuid-1" "hello"
         "v1" 0 0 0 (FormatStr "mp3") None) = Ok frame /\
    take 4 frame = volcano_client.default_header /\
    int_from_bytes (take 4 (drop 4 frame)) false
      = Z.of_nat (length (drop 8 frame)).
Proof.
  destruct (request_frame_layout (H := Demo.externals)
              (volcano_client.request_json Demo.client "uuid-0" "uuid-1"
                 "hello" "v1" 0 0 0 (FormatStr "mp3") None))
    as (frame & Hframe & Hheader & _ & Hsize).
  - vm_compute. reflexivity.
  - exists frame. split; [exact Hframe|]. split; [exact Hheader|exact Hsize].
Defined.

(** The last chunk of the examples: sequence number [-2] *)
Lemma audio_frame_terminal_iff_first_byte_witness :
  exists done,
    volcano_client._parse_response (H := Demo.externals) Demo.chunk_last
      = Ok (done, Some (drop 8 (payload Demo.chunk_last))) /\
    (done = true
     <-> exists b0 rest,
           payload Demo.chunk_last = b0 :: rest /\ 128 <= byte_val b0).
Proof.
  apply (audio_frame_terminal_iff_first_byte (H := Demo.externals)
           Demo.chunk_last).
  - vm_compute. lia.
  - vm_compute. reflexivity.
  - vm_compute. discriminate.
Defined.

(** An error frame after the last chunk is never read. *)
Lemma nothing_read_after_terminal_chunk_witness :
  volcano_client.recv_loop (H := Demo.externals)
    (script_of ([Demo.chunk_1] ++ [Demo.chunk_last]) RecvTimeout)
  = volcano_client.recv_loop (H := Demo.externals)
      (script_of ([Demo.chunk_1] ++ [Demo.chunk_last])
                 (RecvMsg Demo.invalid_text RecvTimeout)).
Proof.
  apply (nothing_read_after_terminal_chunk (H := Demo.externals)
           [Demo.chunk_1] Demo.chunk_last (Some [x43]%byte)).
  vm_compute. reflexivity.
Defined.


(** The provider answers with two chunks. *)
Lemma synthesize_to_file_success_writes_file_witness :
  exists result w' content,
    volcano_client.synthesize_to_file (H := Demo.externals)
      Demo.client Demo.env_two_chunks "hello" "v1" "out.mp3" 0 0 0
      (FormatStr "mp3") None Demo.world0 = (Ok result, w') /\
    files w' = <["out.mp3" := content]> (files Demo.world0) /\
    volcano_client.sr_file_size result = Z.of_nat (length content).
Proof.
  eassert (volcano_client.synthesize_to_file (H := Demo.externals)
             Demo.client Demo.env_two_chunks "hello" "v1" "out.mp3" 0 0 0
             (FormatStr "mp3") None Demo.world0 = (Ok _, _)) as Hrun
    by (vm_compute; reflexivity).
  destruct (synthesize_to_file_success_writes_file
              (H := Demo.externals) _ _ _ _ _ _ _ _ _ _ _ _ _ Hrun)
    as (script & content & _ & _ & Hfiles & Hsize & _).
  eexists _, _, content. split; [exact Hrun|].
  split; [exact Hfiles|exact Hsize].
Defined.


(** A read of the empty table *)
Lemma get_counts_each_read_once_witness :
  hits (cache_stats (cache (snd (cache_service.get (H := Demo.externals)
                                   Demo.env_two_chunks "k" Demo.world0))))
  + misses (cache_stats (cache (snd (cache_service.get (H := Demo.externals)
                                       Demo.env_two_chunks "k"
                                       Demo.world0))))
  = hits (cache_stats (cache Demo.world0))
    + misses (cache_stats (cache Demo.world0)) + 1.
Proof.
  destruct (get_counts_each_read_once (H := Demo.externals)
              Demo.env_two_chunks Demo.world0 "k") as (Hsum & _).
  - reflexivity.
  - exact Hsum.
Defined.

Lemma get_counts_undecodable_value_twice_witness :
  fst (cache_service.get (H := Demo.externals) Demo.env_two_chunks "k"
         Demo.world_redis_garbled) = Ok (Val PNone) /\
  hits (cache_stats
          (cache (snd (cache_service.get (H := Demo.externals)
                         Demo.env_two_chunks "k"
                         Demo.world_redis_garbled))))
    = hits (cache_stats (cache Demo.world_redis_garbled)) + 1 /\
  misses (cache_stats
            (cache (snd (cache_service.get (H := Demo.externals)
                           Demo.env_two_chunks "k"
                           Demo.world_redis_garbled))))
    = misses (cache_stats (cache Demo.world_redis_garbled)) + 1.
Proof.
  apply (get_counts_undecodable_value_twice (H := Demo.externals)
           Demo.env_two_chunks Demo.world_redis_garbled "k"
           Demo.redis_garbled "{"
           (Exn (OtherError "JSONDecodeError") "Expecting value")).
  - reflexivity.
  - reflexivity.
  - discriminate.
  - reflexivity.
Defined.

(** A value written for one second and read half a second later *)
Lemma get_after_set_returns_value_witness :
  fst (cache_service.get (H := Demo.externals)
         (Demo.env_clock [0; 0; 500000] Demo.RecvTimeout_conn) "k"
         (snd (cache_service.set (H := Demo.externals)
                 (Demo.env_clock [0; 0; 500000] Demo.RecvTimeout_conn) "k"
                 (Val (PStr "v")) (Some 1) Demo.world0)))
  = Ok (Val (PStr "v")).
Proof.
  destruct (get_after_set_returns_value (H := Demo.externals)
              (Demo.env_clock [0; 0; 500000] Demo.RecvTimeout_conn)
              Demo.world0 "k" (Val (PStr "v")) (Some 1) 1000000)
    as (_ & _ & Hget).
  - reflexivity.
  - vm_compute. reflexivity.
  - vm_compute. reflexivity.
  - vm_compute. reflexivity.
  - exact Hget.
Defined.

(** A lifetime of minus one second, written two seconds after the start
    of the calendar *)
Lemma set_with_negative_expire_stores_nothing_witness :
  fst (cache_service.set (H := Demo.externals)
         (Demo.env_clock [2000000; 2000000] Demo.RecvTimeout_conn) "k"
         (Val (PStr "v")) (Some (-1)) Demo.world0) = Ok true /\
  memory_cache
    (cache (snd (cache_service.set (H := Demo.externals)
                   (Demo.env_clock [2000000; 2000000] Demo.RecvTimeout_conn)
                   "k" (Val (PStr "v")) (Some (-1)) Demo.world0))) !! "k"
  = None.
Proof.
  pose proof (set_with_negative_expire_stores_nothing (H := Demo.externals)
                (Demo.env_clock [2000000; 2000000] Demo.RecvTimeout_conn)
                Demo.world0 "k" (Val (PStr "v")) (-1)) as Hset.
  assert (expiry_of
            (utc_clock (Demo.env_clock [2000000; 2000000]
                          Demo.RecvTimeout_conn)
                       (clock_reads Demo.world0)) (Some (-1))
          = Ok 1000000) as Hexp by (vm_compute; reflexivity).
  rewrite Hexp in Hset. apply Hset.
  - reflexivity.
  - lia.
  - vm_compute. discriminate.
Defined.

Lemma set_with_zero_expire_uses_default_witness :
  memory_cache
    (cache (snd (cache_service.set (H := Demo.externals)
                   (Demo.env_with Demo.RecvTimeout_conn) "k"
                   (Val (PStr "v")) (Some 0) Demo.world0))) !! "k"
  = Some {| data := Val (PStr "v");
            expires_at :=
              utc_clock (Demo.env_with Demo.RecvTimeout_conn)
                        (clock_reads Demo.world0) + 3600000000 |}.
Proof.
  apply (set_with_zero_expire_uses_default (H := Demo.externals)
           (Demo.env_with Demo.RecvTimeout_conn) Demo.world0 "k"
           (Val (PStr "v")) (Some 0)).
  - reflexivity.
  - right. reflexivity.
  - vm_compute. split; discriminate.
  - vm_compute. reflexivity.
Defined.

(** A write at time 0 keeps the entry that expires at 5 microseconds. *)
Lemma set_keeps_other_unexpired_entries_witness :
  memory_cache
    (cache (snd (cache_service.set (H := Demo.externals)
                   (Demo.env_clock [0; 0] Demo.RecvTimeout_conn) "k"
                   (Val (PStr "v")) (Some 1) Demo.world_stale))) !! "old"
  = Some (CacheItem (Val (PStr "x")) 5).
Proof.
  destruct (set_keeps_other_unexpired_entries (H := Demo.externals)
              (Demo.env_clock [0; 0] Demo.RecvTimeout_conn) Demo.world_stale
              "k" (Val (PStr "v")) (Some 1) "old"
              (CacheItem (Val (PStr "x")) 5)) as [Hkeep _].
  - reflexivity.
  - discriminate.
  - apply Hkeep; [vm_compute; reflexivity|].
    split; vm_compute; reflexivity.
Defined.

Lemma delete_removes_only_the_key_witness :
  fst (cache_service.delete_ Demo.redis_keys_down "k" Demo.world_set)
    = Ok true /\
  fst (cache_service.get (H := Demo.externals)
         (Demo.env_with Demo.RecvTimeout_conn) "k"
         (snd (cache_service.delete_ Demo.redis_keys_down "k"
                 Demo.world_set))) = Ok (Val PNone).
Proof.
  destruct (delete_removes_only_the_key (H := Demo.externals)
              (Demo.env_with Demo.RecvTimeout_conn) Demo.redis_keys_down
              Demo.world_set "k") as (Hok & _ & _ & Hget).
  - vm_compute. reflexivity.
  - split; [exact Hok|exact Hget].
Defined.

Lemma clear_pattern_removes_matching_keys_witness :
  exists deleted_count,
    fst (cache_service.clear_pattern Demo.fnmatch Demo.redis_keys_down
           "k*" Demo.world_set) = Ok deleted_count /\
    Z.of_nat (size (memory_cache
                      (cache (snd (cache_service.clear_pattern Demo.fnmatch
                                     Demo.redis_keys_down "k*"
                                     Demo.world_set)))))
      + deleted_count
    = Z.of_nat (size (memory_cache (cache Demo.world_set))).
Proof.
  destruct (clear_pattern_removes_matching_keys Demo.fnmatch
              Demo.redis_keys_down Demo.world_set "k*")
    as (deleted_count & Hrun & _ & Hsize).
  - vm_compute. reflexivity.
  - exists deleted_count. split; [exact Hrun|exact Hsize].
Defined.

Lemma cache_key_collision_witness :
  tts_service.text Demo.request_collide_1
    <> tts_service.text Demo.request_collide_2 /\
  tts_service.cache_key_of (H := Demo.externals) Demo.request_collide_1
  = tts_service.cache_key_of (H := Demo.externals) Demo.request_collide_2.
Proof.
  apply (cache_key_collision (H := Demo.externals) Demo.request_collide_1
           Demo.request_collide_2 "a" "b" "c");
    reflexivity.
Defined.


(** The first synthesis of "hello" *)
Lemma first_synthesis_stores_file_and_entry_witness :
  files (snd (tts_service.synthesize_text (H := Demo.externals) Demo.client
                Demo.env_two_chunks Demo.request_hello None Demo.world0))
    = <[audio_file_path
          (uuid_gen Demo.env_two_chunks (uuid_draws Demo.world0))
          (tts_service.format Demo.request_hello)
        := concat (fst (volcano_client.recv_loop (H := Demo.externals)
                          (RecvMsg Demo.chunk_1
                             (RecvMsg Demo.chunk_last RecvTimeout))))]>
        (files Demo.world0) /\
  sent (snd (tts_service.synthesize_text (H := Demo.externals) Demo.client
               Demo.env_two_chunks Demo.request_hello None Demo.world0))
    = sent Demo.world0 ++ [Demo.frame_hello_service].
Proof.
  destruct (first_synthesis_stores_file_and_entry (H := Demo.externals)
              Demo.client Demo.env_two_chunks Demo.request_hello None
              Demo.world0
              (RecvMsg Demo.chunk_1 (RecvMsg Demo.chunk_last RecvTimeout))
              Demo.frame_hello_service)
    as (response & _ & _ & _ & Hfiles & Hsent & _).
  - reflexivity.
  - vm_compute. reflexivity.
  - reflexivity.
  - vm_compute. reflexivity.
  - vm_compute. reflexivity.
  - reflexivity.
  - vm_compute. split; discriminate.
  - vm_compute. reflexivity.
  - split; [exact Hfiles|exact Hsent].
Defined.

(** The same request in another caller's form, half a second later *)
Lemma second_request_repeats_first_response_witness :
  sent (snd (tts_service.synthesize_text (H := Demo.externals) Demo.client
               Demo.env_two_chunks Demo.request_hello' None
               (snd (tts_service.synthesize_text (H := Demo.externals)
                       Demo.client Demo.env_two_chunks Demo.request_hello
                       None Demo.world0))))
    = sent (snd (tts_service.synthesize_text (H := Demo.externals)
                   Demo.client Demo.env_two_chunks Demo.request_hello None
                   Demo.world0)) /\
  response_field
    (fst (tts_service.synthesize_text (H := Demo.externals) Demo.client
            Demo.env_two_chunks Demo.request_hello' None
            (snd (tts_service.synthesize_text (H := Demo.externals)
                    Demo.client Demo.env_two_chunks Demo.request_hello
                    None Demo.world0))))
    "file_url"
  = response_field
      (fst (tts_service.synthesize_text (H := Demo.externals) Demo.client
              Demo.env_two_chunks Demo.request_hello None Demo.world0))
      "file_url".
Proof.
  destruct (second_request_repeats_first_response (H := Demo.externals)
              Demo.client Demo.env_two_chunks Demo.request_hello
              Demo.request_hello' None None Demo.world0
              (RecvMsg Demo.chunk_1 (RecvMsg Demo.chunk_last RecvTimeout))
              Demo.frame_hello_service)
    as (Hsent & _ & _ & _ & Hfields).
  - reflexivity.
  - vm_compute. reflexivity.
  - reflexivity.
  - vm_compute. reflexivity.
  - vm_compute. reflexivity.
  - reflexivity.
  - vm_compute. split; discriminate.
  - vm_compute. reflexivity.
  - vm_compute. reflexivity.
  - vm_compute. reflexivity.
  - split; [exact Hsent|]. apply Hfields; discriminate.
Defined.

(** The dialect voice of the example document, looked up after the
    configuration file has gone *)
Lemma listed_voice_is_found_witness :
  exists found,
    fst (tts_service.get_voice_info None
           (snd (tts_service.get_voice_list (Some (Ok Demo.voice_doc)) None
                   (Some "dialect")))
           (tts_service.vi_id Demo.voice_chen)) = Some found /\
    tts_service.vi_id found = tts_service.vi_id Demo.voice_chen.
Proof.
  destruct (listed_voice_is_found (Some (Ok Demo.voice_doc)) None None
              (Some "dialect") Demo.category_dialect Demo.voice_chen)
    as (found & Hfound & Hid & _).
  - vm_compute. left.
  - vm_compute. left.
  - exists found. split; [exact Hfound|exact Hid].
Defined.

Lemma get_voice_list_filters_by_name_witness :
  0 <= tts_service.vl_total_count
         (fst (tts_service.get_voice_list (Some (Ok Demo.voice_doc)) None
                 (Some "dialect")))
    <= tts_service.vl_total_count
         (fst (tts_service.get_voice_list (Some (Ok Demo.voice_doc)) None
                 None)).
Proof.
  destruct (get_voice_list_filters_by_name (Some (Ok Demo.voice_doc)) None
              "dialect") as (_ & _ & Hcount & _).
  - discriminate.
  - exact Hcount.
Defined.

Lemma complete_document_is_loaded_in_order_witness :
  Forall2 (category_of_entry (tts_service.voice_presets Demo.voice_doc))
          (tts_service.voice_categories Demo.voice_doc)
          (tts_service.categories
             (tts_service._load_voice_data (Some (Ok Demo.voice_doc)))) /\
  tts_service.cached_emotion_voices
    (tts_service._load_voice_data (Some (Ok Demo.voice_doc)))
  = tts_service.doc_emotion_voices Demo.voice_doc.
Proof.
  apply (complete_document_is_loaded_in_order Demo.voice_doc).
  vm_compute. reflexivity.
Defined.

Lemma incomplete_document_gives_fallback_witness :
  tts_service._load_voice_data (Some (Ok Demo.voice_doc_broken))
  = tts_service._get_fallback_voice_data.
Proof.
  destruct (incomplete_document_gives_fallback Demo.voice_doc_broken)
    as (Hload & _).
  - vm_compute. reflexivity.
  - exact Hload.
Defined.

